(** * FreeCAD [App/PropertyStandard.cpp]: a shallow embedding of the typed
      property cells, and the properties of their setters, notification
      hooks, material lists and binary persistence.

    Conventions.
    - C++ [long] is a [Z] inside [LONG_MIN, LONG_MAX]; [int] likewise.
    - C++ [double] is a [spec_float] (IEEE-754 binary64: [prec = 53],
      [emax = 1024]); comparisons are [SFltb], so every comparison with a
      NaN is false, as in C++. The constants are written in canonical form
      (53-bit mantissa); no property below needs more than that.
    - A method is a computation in the monad [M S]: it threads the state
      [S] of the object and either returns or throws a C++ exception. The
      state a throwing call leaves behind is kept, because the hooks that
      fired before the [throw] have fired. *)

From Stdlib Require Import ZArith String Ascii List Bool Lia SpecFloat.
From stdpp Require Import base option list strings gmap.

Set Warnings "-register-all".

Open Scope string_scope.
Open Scope list_scope.
Open Scope Z_scope.

(** ** Exceptions and the method monad *)

Inductive exn : Type :=
| TypeError (msg : string)      (* Base::TypeError *)
| ValueError (msg : string)     (* Base::ValueError *)
| RuntimeError (msg : string)   (* Base::RuntimeError *)
| bad_cast                      (* std::bad_cast *)
| PyException                   (* Py::Exception: a pending Python error *)
| rounding_error                (* boost::math::rounding_error *)
| StreamError                   (* a read past the end of a binary stream *)
| Undefined.                    (* the C++ standard leaves the behaviour undefined *)

Inductive result (A : Type) : Type :=
| Return (a : A)
| Throw (e : exn).
Arguments Return {A} a.
Arguments Throw {A} e.

Definition M (S A : Type) : Type := S -> result A * S.

Definition ret {S A} (a : A) : M S A := fun s => (Return a, s).

Definition bind {S A B} (m : M S A) (k : A -> M S B) : M S B :=
  fun s => match m s with
           | (Return a, s') => k a s'
           | (Throw e, s') => (Throw e, s')
           end.

Definition throw {S A} (e : exn) : M S A := fun s => (Throw e, s).
Definition get {S} : M S S := fun s => (Return s, s).
Definition put {S} (s : S) : M S unit := fun _ => (Return tt, s).
Definition modify {S} (f : S -> S) : M S unit := fun s => (Return tt, f s).

#[global] Instance M_ret {S} : MRet (M S) := fun A => @ret S A.
#[global] Instance M_bind {S} : MBind (M S) := fun A B k m => @bind S A B m k.

(** [returns m s] : the call returned normally. *)
Definition returns {S A} (m : M S A) (s : S) : Prop :=
  exists a, fst (m s) = Return a.

Definition throws {S A} (m : M S A) (s : S) (e : exn) : Prop :=
  fst (m s) = Throw e.

(** The state the call leaves. *)
Definition exec {S A} (m : M S A) (s : S) : S := snd (m s).

(** ** The base class [App::Property]: the notification hooks

    [aboutToSetValue] and [hasSetValue] call into the container; here they
    are recorded, in order, in the cell. [getFullName] is the qualified name
    the base class computes from the container. *)

Inductive Hook : Type := AboutToSetValue | HasSetValue.

#[global] Instance Hook_eq_dec : EqDecision Hook.
Proof. solve_decision. Defined.

Record Cell (V : Type) : Type := mkCell {
  fields : V;
  hooks : list Hook;
  FullName : string
}.
Arguments mkCell {V} _ _ _.
Arguments fields {V} _.
Arguments hooks {V} _.
Arguments FullName {V} _.

Definition fire {V} (h : Hook) (c : Cell V) : Cell V :=
  mkCell (fields c) (hooks c ++ [h]) (FullName c).

Definition aboutToSetValue {V} : M (Cell V) unit := modify (fire AboutToSetValue).
Definition hasSetValue {V} : M (Cell V) unit := modify (fire HasSetValue).

Definition getFields {V} : M (Cell V) V := fun c => (Return (fields c), c).
Definition setFields {V} (v : V) : M (Cell V) unit :=
  modify (fun c => mkCell v (hooks c) (FullName c)).
Definition getFullName {V} : M (Cell V) string := fun c => (Return (FullName c), c).

(** The hooks a call added to the cell's record. *)
Definition fired {V} (before after : Cell V) : list Hook :=
  drop (length (hooks before)) (hooks after).

(** ** Machine integers *)

Definition LONG_MIN : Z := - 2 ^ 63.
Definition LONG_MAX : Z := 2 ^ 63 - 1.
Definition INT_MIN : Z := - 2 ^ 31.
Definition INT_MAX : Z := 2 ^ 31 - 1.

Definition in_long (z : Z) : bool := (LONG_MIN <=? z) && (z <=? LONG_MAX).

(** ** Doubles *)

Definition double : Type := spec_float.

Definition prec64 : Z := 53.
Definition emax64 : Z := 1024.

(** [std::numeric_limits<double>::epsilon()], [max()] and [lowest()]. *)
Definition DBL_EPSILON : double := S754_finite false 4503599627370496 (-104).
Definition DBL_MAX : double := S754_finite false 9007199254740991 971.
Definition DBL_LOWEST : double := S754_finite true 9007199254740991 971.

(** The conversion [long -> double] (round to nearest, ties to even). *)
Definition double_of_long (z : Z) : double :=
  binary_normalize prec64 emax64 z 0 false.

Definition dlt (x y : double) : bool := SFltb x y.
Definition dle (x y : double) : bool := SFleb x y.
Definition double_zero : double := S754_zero false.
Definition double_one : double := S754_finite false 4503599627370496 (-52).   (* 1.0 *)

Definition is_nan (x : double) : bool :=
  match x with S754_nan => true | _ => false end.

(** ** Dynamic values

    The Python objects the setters inspect. [bool] is a subclass of [int],
    so [PyLong_Check] accepts it. *)

Inductive PyObject : Type :=
| PyLong (z : Z)
| PyBool (b : bool)
| PyFloat (d : double)
| PyUnicode (s : string)
| PyNone
| PyTuple (items : list PyObject)
| PyList (items : list PyObject)
| PyDict (items : list (PyObject * PyObject))
| PyOther (tp : string).

(** [value->ob_type->tp_name] *)
Definition tp_name (o : PyObject) : string :=
  match o with
  | PyLong _ => "int"
  | PyBool _ => "bool"
  | PyFloat _ => "float"
  | PyUnicode _ => "str"
  | PyNone => "NoneType"
  | PyTuple _ => "tuple"
  | PyList _ => "list"
  | PyDict _ => "dict"
  | PyOther tp => tp
  end.

Definition PyLong_Check (o : PyObject) : bool :=
  match o with PyLong _ | PyBool _ => true | _ => false end.

Definition PyFloat_Check (o : PyObject) : bool :=
  match o with PyFloat _ => true | _ => false end.

Definition PyDict_Check (o : PyObject) : bool :=
  match o with PyDict _ => true | _ => false end.

Definition PyTuple_Check (o : PyObject) : bool :=
  match o with PyTuple _ => true | _ => false end.

(** The mathematical integer a Python [int] (or [bool]) holds. *)
Definition int_value (o : PyObject) : Z :=
  match o with
  | PyLong z => z
  | PyBool b => if b then 1 else 0
  | _ => 0
  end.

(** [PyLong_AsLong]: the value when it fits a C [long]; on overflow CPython
    returns [-1] (and leaves an OverflowError pending, which the callers
    below do not look at). It is only called after [PyLong_Check]. *)
Definition PyLong_AsLong (o : PyObject) : Z :=
  if in_long (int_value o) then int_value o else -1.

Definition PyFloat_AsDouble (o : PyObject) : double :=
  match o with
  | PyFloat d => d
  | _ => double_of_long (int_value o)
  end.

(** [PyArg_ParseTuple] / [PyArg_ParseTupleAndKeywords] conversions: format
    unit [l] takes a Python [int] that fits a C [long]; format unit [d] takes
    a [float], or an [int] that converts to a finite double. *)
Definition parse_l (o : PyObject) : option Z :=
  if PyLong_Check o && in_long (int_value o) then Some (int_value o) else None.

Definition parse_d (o : PyObject) : option double :=
  match o with
  | PyFloat d => Some d
  | PyLong _ | PyBool _ =>
      match double_of_long (int_value o) with
      | S754_infinity _ | S754_nan => None
      | d => Some d
      end
  | _ => None
  end.

Fixpoint dict_get (d : list (PyObject * PyObject)) (key : string) : option PyObject :=
  match d with
  | [] => None
  | (PyUnicode k, v) :: d' => if String.eqb k key then Some v else dict_get d' key
  | _ :: d' => dict_get d' key
  end.

(** Every key of the keyword dictionary must be a string naming one of the
    accepted keywords. *)
Definition keywords_ok (kw : list string) (d : list (PyObject * PyObject)) : bool :=
  forallb (fun kv => match fst kv with
                     | PyUnicode k => existsb (String.eqb k) kw
                     | _ => false
                     end) d.

Section ParseConstraint.
Context {T : Type} (parse : PyObject -> option T).

(** An optional keyword argument: absent keeps the default. *)
Definition parse_opt (d : list (PyObject * PyObject)) (key : string) (dflt : T)
  : option T :=
  match dict_get d key with
  | None => Some dflt
  | Some o => parse o
  end.

(** [Wrapped_ParseTupleAndKeywords(dummy, value, "x|xxx", kw, ...)] with
    [kw = {"value", "min", "max", "step"}] and an empty positional tuple. *)
Definition parse_keywords (d : list (PyObject * PyObject)) (dflt : T * T * T * T)
  : option (T * T * T * T) :=
  let '(_, d1, d2, d3) := dflt in
  if keywords_ok ["value"; "min"; "max"; "step"] d then
    match dict_get d "value" with
    | None => None
    | Some o =>
        v0 ← parse o;
        v1 ← parse_opt d "min" d1;
        v2 ← parse_opt d "max" d2;
        v3 ← parse_opt d "step" d3;
        Some (v0, v1, v2, v3)
    end
  else None.

(** [PyArg_ParseTuple(value, "xxxx", ...)]: exactly four items. *)
Definition parse_tuple4 (items : list PyObject) : option (T * T * T * T) :=
  match items with
  | [o0; o1; o2; o3] =>
      v0 ← parse o0; v1 ← parse o1; v2 ← parse o2; v3 ← parse o3;
      Some (v0, v1, v2, v3)
  | _ => None
  end.
End ParseConstraint.

(** ** Constraint descriptors ([Constraints] of the constrained cells) *)

Record Constraints (T : Type) : Type := mkConstraints {
  LowerBound : T;
  UpperBound : T;
  StepSize : T;
  candelete : bool        (* isDeletable(): owned by the cell *)
}.
Arguments mkConstraints {T} _ _ _ _.
Arguments LowerBound {T} _.
Arguments UpperBound {T} _.
Arguments StepSize {T} _.
Arguments candelete {T} _.

(** ** The path-value channel ([boost::any]) *)

Inductive any : Type :=
| any_long (z : Z)
| any_int (z : Z)
| any_double (d : double)
| any_float (d : double)          (* a binary32 value, held exactly *)
| any_Quantity (value : double)   (* Base::Quantity, [getValue()] *)
| any_bool (b : bool)
| any_string (s : string)
| any_other.

(** An [ObjectIdentifier], reduced to its resolved sub-path string. *)
Record ObjectIdentifier : Type := { getSubPathStr : string }.

(** Modelled from the spec: [Property::verifyPath] is declared in
    App/Property.h and defined outside these sources. It "must reject any
    path with a non-empty sub-path where the cell does not define virtual
    sub-paths". *)
Definition verifyPath {S} (path : ObjectIdentifier) : M S unit :=
  if String.eqb (getSubPathStr path) "" then ret tt
  else throw (ValueError "Invalid property path").

(** Modelled from the spec: [boost::math::round] (Boost, outside these
    sources) rounds to the nearest integer, halfway cases away from zero,
    and raises [rounding_error] on a non-finite argument. The result is the
    integer the returned double holds. *)
Definition round (x : double) : option Z :=
  match x with
  | S754_zero _ => Some 0
  | S754_finite s m e =>
      let mag := match e with
                 | Z0 => Zpos m
                 | Zpos _ => Zpos m * 2 ^ e
                 | Zneg p => (2 * Zpos m + 2 ^ Zpos p) / (2 * 2 ^ Zpos p)
                 end in
      Some (if s then - mag else mag)
  | S754_infinity _ | S754_nan => None
  end.

(** The implicit conversion [double -> long] of an integral double: defined
    only when the value fits. *)
Definition long_of_integral {S} (z : Z) : M S Z :=
  if in_long z then ret z else throw Undefined.

(** ** [PropertyInteger] *)

Module PropertyInteger.

(** The only field is [_lValue]. *)
Definition t : Type := Cell Z.

Definition setValue (lValue : Z) : M t unit :=
  aboutToSetValue;;
  setFields lValue;;
  hasSetValue.

Definition getValue (c : t) : Z := fields c.

Definition setPyObject (value : PyObject) : M t unit :=
  if PyLong_Check value then
    aboutToSetValue;;
    setFields (PyLong_AsLong value);;
    hasSetValue
  else
    throw (TypeError ("type must be int, not " ++ tp_name value)).

Definition setPathValue (path : ObjectIdentifier) (value : any) : M t unit :=
  verifyPath path;;
  match value with
  | any_long z => setValue z
  | any_int z => setValue z
  | any_double d | any_float d | any_Quantity d =>
      match round d with
      | Some z => v ← long_of_integral z; setValue v
      | None => throw rounding_error
      end
  | _ => throw bad_cast
  end.

End PropertyInteger.

(** ** [PropertyIntegerConstraint] (and [PropertyPercent]) *)

Module PropertyIntegerConstraint.

Record Fields : Type := mkFields {
  _lValue : Z;
  _ConstStruct : option (Constraints Z)
}.

Definition t : Type := Cell Fields.

Definition set_lValue (v : Z) : M t unit :=
  self ← getFields; setFields (mkFields v (_ConstStruct self)).

(** The descriptor is replaced; freeing the previous owned one has no
    effect on the values modelled here. *)
Definition setConstraints (sConstrain : option (Constraints Z)) : M t unit :=
  self ← getFields; setFields (mkFields (_lValue self) sConstrain).

Definition getValue (c : t) : Z := _lValue (fields c).

Definition getMinimum (c : t) : Z :=
  match _ConstStruct (fields c) with
  | Some cs => LowerBound cs
  | None => INT_MIN
  end.

Definition getMaximum (c : t) : Z :=
  match _ConstStruct (fields c) with
  | Some cs => UpperBound cs
  | None => INT_MAX
  end.

Definition getStepSize (c : t) : Z :=
  match _ConstStruct (fields c) with
  | Some cs => StepSize cs
  | None => 1
  end.

Definition setPyObject (value : PyObject) : M t unit :=
  if PyLong_Check value then
    self ← getFields;
    let temp := PyLong_AsLong value in
    let temp :=
      match _ConstStruct self with
      | Some cs =>
          if UpperBound cs <? temp then UpperBound cs
          else if temp <? LowerBound cs then LowerBound cs
          else temp
      | None => temp
      end in
    aboutToSetValue;;
    set_lValue temp;;
    hasSetValue
  else
    let valConstr := (0, INT_MIN, INT_MAX, 1) in
    parsed ←
      match value with
      | PyDict d =>
          match parse_keywords parse_l d valConstr with
          | Some v => ret v
          | None => throw PyException
          end
      | PyTuple items =>
          match parse_tuple4 parse_l items with
          | Some v => ret v
          | None => throw PyException
          end
      | _ => throw (TypeError ("type must be int, dict or tuple, not " ++ tp_name value))
      end;
    let '(v0, v1, v2, v3) := parsed in
    let c := mkConstraints v1 v2 (Z.max 1 v3) true in
    let v0 := if UpperBound c <? v0 then UpperBound c
              else if v0 <? LowerBound c then LowerBound c
              else v0 in
    setConstraints (Some c);;
    aboutToSetValue;;
    set_lValue v0;;
    hasSetValue.

(** [PropertyPercent]: the shared descriptor [percent = {0, 100, 1}]. *)
Definition percent : Constraints Z := mkConstraints 0 100 1 false.

End PropertyIntegerConstraint.

(** ** [PropertyFloat] *)

Module PropertyFloat.

Definition t : Type := Cell double.

Definition setValue (lValue : double) : M t unit :=
  aboutToSetValue;;
  setFields lValue;;
  hasSetValue.

Definition getValue (c : t) : double := fields c.

Definition setPyObject (value : PyObject) : M t unit :=
  if PyFloat_Check value then
    aboutToSetValue;;
    setFields (PyFloat_AsDouble value);;
    hasSetValue
  else if PyLong_Check value then
    aboutToSetValue;;
    setFields (double_of_long (PyLong_AsLong value));;
    hasSetValue
  else
    throw (TypeError ("type must be float or int, not " ++ tp_name value)).

End PropertyFloat.

(** ** [PropertyFloatConstraint] (and [PropertyPrecision]) *)

Module PropertyFloatConstraint.

Record Fields : Type := mkFields {
  _dValue : double;
  _ConstStruct : option (Constraints double)
}.

Definition t : Type := Cell Fields.

Definition set_dValue (v : double) : M t unit :=
  self ← getFields; setFields (mkFields v (_ConstStruct self)).

Definition setConstraints (sConstrain : option (Constraints double)) : M t unit :=
  self ← getFields; setFields (mkFields (_dValue self) sConstrain).

Definition getValue (c : t) : double := _dValue (fields c).

Definition getStepSize (c : t) : double :=
  match _ConstStruct (fields c) with
  | Some cs => StepSize cs
  | None => double_one
  end.

Definition setPyObject (value : PyObject) : M t unit :=
  if PyFloat_Check value then
    self ← getFields;
    let temp := PyFloat_AsDouble value in
    let temp :=
      match _ConstStruct self with
      | Some cs =>
          if dlt (UpperBound cs) temp then UpperBound cs
          else if dlt temp (LowerBound cs) then LowerBound cs
          else temp
      | None => temp
      end in
    aboutToSetValue;;
    set_dValue temp;;
    hasSetValue
  else if PyLong_Check value then
    self ← getFields;
    let temp := double_of_long (PyLong_AsLong value) in
    let temp :=
      match _ConstStruct self with
      | Some cs =>
          if dlt (UpperBound cs) temp then UpperBound cs
          else if dlt temp (LowerBound cs) then LowerBound cs
          else temp
      | None => temp
      end in
    aboutToSetValue;;
    set_dValue temp;;
    hasSetValue
  else
    let valConstr := (double_zero, DBL_LOWEST, DBL_MAX, double_one) in
    parsed ←
      match value with
      | PyDict d =>
          match parse_keywords parse_d d valConstr with
          | Some v => ret v
          | None => throw PyException
          end
      | PyTuple items =>
          match parse_tuple4 parse_d items with
          | Some v => ret v
          | None => throw PyException
          end
      | _ => throw (TypeError ("type must be float, dict or tuple, not " ++ tp_name value))
      end;
    let '(v0, v1, v2, v3) := parsed in
    let stepSize := v3 in
    if dlt stepSize DBL_EPSILON then
      throw (ValueError "Step size must be greater than zero")
    else
      let c := mkConstraints v1 v2 stepSize true in
      let v0 := if dlt (UpperBound c) v0 then UpperBound c
                else if dlt v0 (LowerBound c) then LowerBound c
                else v0 in
      setConstraints (Some c);;
      aboutToSetValue;;
      set_dValue v0;;
      hasSetValue.

(** [PropertyPrecision]: [PrecisionStandard = {0.0, DBL_MAX, 0.001}]. *)
Definition PrecisionStandard : Constraints double :=
  mkConstraints double_zero DBL_MAX (S754_finite false 4611686018427388 (-62)) false.

End PropertyFloatConstraint.

(** ** [App::Enumeration], the value held by the enumeration cell *)

Module Enumeration.

(** Modelled from the spec: the class [App::Enumeration] (App/Enumeration.h
    and .cpp are outside these sources). It is "[{selectedIndex: int (-1 =
    unset), labels: ordered sequence of string, isCustom: bool}]"; the
    selection is valid when it is an index into the label set. The labels
    are C strings holding well-formed text. *)
Record t : Type := mk {
  _index : Z;
  labels : list string;
  isCustom : bool
}.

Definition isValid (e : t) : bool :=
  (0 <=? _index e) && (_index e <? Z.of_nat (length (labels e))).

(** [getCStr]: the selected label, a null pointer when there is none. *)
Definition getCStr (e : t) : option string :=
  if isValid e then labels e !! Z.to_nat (_index e) else None.

(** Modelled from the spec: "[setLabels(list)] replaces the label set"; the
    labels then belong to the instance. *)
Definition setEnums (values : list string) (e : t) : t :=
  mk (_index e) values true.

(** The overload taking a null-terminated static table ([const char**],
    possibly null): the labels are those of the table. *)
Definition setEnums_table (plEnums : option (list string)) (e : t) : t :=
  mk (_index e) (default [] plEnums) false.

End Enumeration.

(** ** [PropertyEnumeration] *)

Module PropertyEnumeration.

Definition t : Type := Cell Enumeration.t.

(** [boost::starts_with] *)
Definition starts_with (s pre : string) : bool := String.prefix pre s.

Definition setEnums (plEnums : option (list string)) : M t unit :=
  name ← getFullName;
  let notify := negb (starts_with name "?") in
  (if notify then aboutToSetValue else ret tt);;
  (_enum ← getFields; setFields (Enumeration.setEnums_table plEnums _enum));;
  (if notify then hasSetValue else ret tt).

Definition setEnumVector (values : list string) : M t unit :=
  name ← getFullName;
  let notify := negb (starts_with name "?") in
  (if notify then aboutToSetValue else ret tt);;
  (_enum ← getFields; setFields (Enumeration.setEnums values _enum));;
  (if notify then hasSetValue else ret tt).

(** The overload [setEnums(const std::vector<std::string>&)]. *)
Definition setEnums_vector (Enums : list string) : M t unit :=
  setEnumVector Enums.

Definition isValid (c : t) : bool := Enumeration.isValid (fields c).

(** Returns a [const char*]. *)
Definition getValueAsString : M t (option string) :=
  _enum ← getFields;
  if negb (Enumeration.isValid _enum) then
    throw (RuntimeError "Cannot get value from invalid enumeration")
  else ret (Enumeration.getCStr _enum).

(** [Py_BuildValue("s", p)]: a [str], or [None] for a null pointer. *)
Definition Py_BuildValue_s (p : option string) : PyObject :=
  match p with
  | Some s => PyUnicode s
  | None => PyNone
  end.

Definition getPyObject : M t PyObject :=
  _enum ← getFields;
  if negb (Enumeration.isValid _enum) then ret PyNone
  else p ← getValueAsString; ret (Py_BuildValue_s p).

End PropertyEnumeration.

(** ** Colors and materials *)

(** A C++ [float], held as its IEEE-754 binary32 bit pattern: the cells
    below only store floats and hand their four bytes to the stream. *)
Definition float32 : Type := Z.

(** [Base::Color]: the four channels. *)
Record Color : Type := mkColor { r : float32; g : float32; b : float32; a : float32 }.

(** Modelled from the spec: [App::Material] (App/Material.h is outside these
    sources) is "[{ambient, diffuse, specular, emissive: RGBA color;
    shininess, transparency: float; image, imagePath, uuid: string}]". *)
Record Material : Type := mkMaterial {
  ambientColor : Color;
  diffuseColor : Color;
  specularColor : Color;
  emissiveColor : Color;
  shininess : float32;
  transparency : float32;
  image : string;
  imagePath : string;
  uuid : string
}.

(** What this file uses of [Base::Color] and [App::Material] and does not
    define: the packed 32-bit form of a color, and the look of a
    default-constructed material. *)
Class External : Type := {
  getPackedValue : Color -> Z;
  setPackedValue : Z -> Color;
  default_ambient : Color;
  default_diffuse : Color;
  default_specular : Color;
  default_emissive : Color;
  default_shininess : float32;
  default_transparency : float32
}.

(** Modelled from the spec: the default-constructed [Material]; its three
    strings are "at their default (empty)". *)
Definition Material_new `{External} : Material :=
  mkMaterial default_ambient default_diffuse default_specular default_emissive
             default_shininess default_transparency "" "" "".

Definition set_ambientColor (col : Color) (m : Material) : Material :=
  mkMaterial col (diffuseColor m) (specularColor m) (emissiveColor m)
             (shininess m) (transparency m) (image m) (imagePath m) (uuid m).

Definition set_diffuseColor (col : Color) (m : Material) : Material :=
  mkMaterial (ambientColor m) col (specularColor m) (emissiveColor m)
             (shininess m) (transparency m) (image m) (imagePath m) (uuid m).

Definition set_specularColor (col : Color) (m : Material) : Material :=
  mkMaterial (ambientColor m) (diffuseColor m) col (emissiveColor m)
             (shininess m) (transparency m) (image m) (imagePath m) (uuid m).

Definition set_emissiveColor (col : Color) (m : Material) : Material :=
  mkMaterial (ambientColor m) (diffuseColor m) (specularColor m) col
             (shininess m) (transparency m) (image m) (imagePath m) (uuid m).

Definition set_shininess (val : float32) (m : Material) : Material :=
  mkMaterial (ambientColor m) (diffuseColor m) (specularColor m) (emissiveColor m)
             val (transparency m) (image m) (imagePath m) (uuid m).

Definition set_transparency (val : float32) (m : Material) : Material :=
  mkMaterial (ambientColor m) (diffuseColor m) (specularColor m) (emissiveColor m)
             (shininess m) val (image m) (imagePath m) (uuid m).

Definition set_image (s : string) (m : Material) : Material :=
  mkMaterial (ambientColor m) (diffuseColor m) (specularColor m) (emissiveColor m)
             (shininess m) (transparency m) s (imagePath m) (uuid m).

Definition set_imagePath (s : string) (m : Material) : Material :=
  mkMaterial (ambientColor m) (diffuseColor m) (specularColor m) (emissiveColor m)
             (shininess m) (transparency m) (image m) s (uuid m).

Definition set_uuid (s : string) (m : Material) : Material :=
  mkMaterial (ambientColor m) (diffuseColor m) (specularColor m) (emissiveColor m)
             (shininess m) (transparency m) (image m) (imagePath m) s.

(** ** Binary streams

    Modelled from the spec: [Base::OutputStream] and [Base::InputStream]
    (Base/Stream.h is outside these sources) are the "byte-oriented stream
    abstraction": a 32-bit value is four bytes (least significant first), a
    [float] is the four bytes of its bit pattern, [write]/[read] move raw
    bytes. A read past the end of the stream is reported as [StreamError]. *)

Definition Stream : Type := list Byte.byte.

Definition byte_of_Z (z : Z) : Byte.byte :=
  default Byte.x00 (Byte.of_N (Z.to_N (z mod 256))).

Definition Z_of_byte (x : Byte.byte) : Z := Z.of_N (Byte.to_N x).

Definition encode_uint32 (v : Z) : list Byte.byte :=
  [byte_of_Z v; byte_of_Z (v / 2 ^ 8); byte_of_Z (v / 2 ^ 16); byte_of_Z (v / 2 ^ 24)].

Definition decode_uint32 (bs : list Byte.byte) : Z :=
  match bs with
  | [b0; b1; b2; b3] =>
      Z_of_byte b0 + 2 ^ 8 * Z_of_byte b1 + 2 ^ 16 * Z_of_byte b2 + 2 ^ 24 * Z_of_byte b3
  | _ => 0
  end.

Definition write_bytes (bs : list Byte.byte) : M Stream unit :=
  modify (fun s => s ++ bs).

Definition read_bytes (n : nat) : M Stream (list Byte.byte) :=
  fun s => if (n <=? length s)%nat then (Return (take n s), drop n s)
           else (Throw StreamError, s).

(** [str << v] and [str >> v] for [uint32_t], [int32_t] and [float]. *)
Definition write_uint32 (v : Z) : M Stream unit := write_bytes (encode_uint32 v).
Definition read_uint32 : M Stream Z := bs ← read_bytes 4; ret (decode_uint32 bs).
Definition read_int32 : M Stream Z :=
  v ← read_uint32; ret (if v <? 2 ^ 31 then v else v - 2 ^ 32).
Definition write_float (v : float32) : M Stream unit := write_uint32 v.
Definition read_float : M Stream float32 := read_uint32.

(** [std::string::size()], in bytes. *)
Definition string_size (s : string) : Z := Z.of_nat (length (list_byte_of_string s)).

(** The range-based [for] loops: over constant elements, and over elements
    the body assigns to. *)
Fixpoint for_each {S A} (body : A -> M S unit) (l : list A) : M S unit :=
  match l with
  | [] => ret tt
  | it :: l' => body it;; for_each body l'
  end.

Fixpoint for_each_ref {S A} (body : A -> M S A) (l : list A) : M S (list A) :=
  match l with
  | [] => ret []
  | it :: l' => it' ← body it; l'' ← for_each_ref body l'; ret (it' :: l'')
  end.

(** A method of one object run inside a pair of objects. *)
Definition on_fst {S T A} (m : M S A) : M (S * T) A :=
  fun st => let '(res, s') := m (fst st) in (res, (s', snd st)).

Definition on_snd {S T A} (m : M T A) : M (S * T) A :=
  fun st => let '(res, t') := m (snd st) in (res, (fst st, t')).

(** ** [PropertyMaterialList] *)

Module PropertyMaterialList.
Section WithExternal.
Context `{External}.

Record Fields : Type := mkFields {
  _lValueList : list Material;
  formatVersion : Z
}.

Definition t : Type := Cell Fields.

(** The enumerators of [Format] the restore code compares with. *)
Definition Version_0 : Z := 0.
Definition Version_2 : Z := 2.
Definition Version_3 : Z := 3.

Definition getList : M t (list Material) :=
  self ← getFields; ret (_lValueList self).

Definition setList (l : list Material) : M t unit :=
  self ← getFields; setFields (mkFields l (formatVersion self)).

(** Modelled from the spec: the list base class [PropertyListsT]
    (App/Property.h, outside these sources) keeps the elements in a
    [std::vector]: [getSize] is its size, [setSize] is [resize] (new elements
    default-constructed, or copies of [def]), and [setValues] replaces the
    elements inside one notification bracket. *)
Definition getSize : M t Z := l ← getList; ret (Z.of_nat (length l)).

Definition setSize (newSize : Z) : M t unit :=
  l ← getList; setList (resize (Z.to_nat newSize) Material_new l).

Definition setSize_def (newSize : Z) (def : Material) : M t unit :=
  l ← getList; setList (resize (Z.to_nat newSize) def l).

Definition PropertyListsT_setValues (newValues : list Material) : M t unit :=
  aboutToSetValue;;
  setList newValues;;
  hasSetValue.

(** [_lValueList[0]]: behaviour undefined on an empty vector. *)
Definition front : M t Material :=
  l ← getList;
  match l with
  | m :: _ => ret m
  | [] => throw Undefined
  end.

(** [_lValueList[index] = f(_lValueList[index])], for an index in range. *)
Definition at_index (index : Z) (f : Material -> Material) : M t unit :=
  l ← getList; setList (alter f (Z.to_nat index) l).

(** [for (auto& material : _lValueList) material = f(material);] *)
Definition for_all (f : Material -> Material) : M t unit :=
  l ← getList; setList (f <$> l).

Definition setValues (newValues : list Material) : M t unit :=
  if negb (bool_decide (newValues = [])) then
    PropertyListsT_setValues newValues
  else
    aboutToSetValue;;
    setSize 1;;
    hasSetValue.

Definition verifyIndex (index : Z) : M t unit :=
  size ← getSize;
  if (index <? -1) || (size <? index) then
    throw (RuntimeError "index out of bound")
  else ret tt.

Definition setMinimumSizeOne : M t unit :=
  size ← getSize;
  if size <? 1 then setSize 1 else ret tt.

Definition resizeByOneIfNeeded (index : Z) : M t Z :=
  size ← getSize;
  if (index =? -1) || (index =? size) then
    setSize (size + 1);;
    ret size
  else ret index.

Definition setValue_mat (mat : Material) : M t unit :=
  aboutToSetValue;;
  setSize 1;;
  for_all (fun _ => mat);;
  hasSetValue.

Definition setValue : M t unit := setValue_mat Material_new.

Definition setValue_at (index : Z) (mat : Material) : M t unit :=
  verifyIndex index;;
  aboutToSetValue;;
  index ← resizeByOneIfNeeded index;
  at_index index (fun _ => mat);;
  hasSetValue.

(** The body shared by the field setters without an index ... *)
Definition broadcast (f : Material -> Material) : M t unit :=
  aboutToSetValue;;
  setMinimumSizeOne;;
  for_all f;;
  hasSetValue.

(** ... and by the index-qualified field setters. *)
Definition indexed (index : Z) (f : Material -> Material) : M t unit :=
  verifyIndex index;;
  aboutToSetValue;;
  index ← resizeByOneIfNeeded index;
  at_index index f;;
  hasSetValue.

Definition setAmbientColor (col : Color) := broadcast (set_ambientColor col).
Definition setAmbientColor_rgba (r g b a : float32) :=
  broadcast (set_ambientColor (mkColor r g b a)).
Definition setAmbientColor_packed (rgba : Z) :=
  broadcast (set_ambientColor (setPackedValue rgba)).
Definition setAmbientColor_at (index : Z) (col : Color) :=
  indexed index (set_ambientColor col).
Definition setAmbientColor_at_rgba (index : Z) (r g b a : float32) :=
  indexed index (set_ambientColor (mkColor r g b a)).
Definition setAmbientColor_at_packed (index : Z) (rgba : Z) :=
  indexed index (set_ambientColor (setPackedValue rgba)).

Definition setDiffuseColor (col : Color) := broadcast (set_diffuseColor col).
Definition setDiffuseColor_rgba (r g b a : float32) :=
  broadcast (set_diffuseColor (mkColor r g b a)).
Definition setDiffuseColor_packed (rgba : Z) :=
  broadcast (set_diffuseColor (setPackedValue rgba)).
Definition setDiffuseColor_at (index : Z) (col : Color) :=
  indexed index (set_diffuseColor col).
Definition setDiffuseColor_at_rgba (index : Z) (r g b a : float32) :=
  indexed index (set_diffuseColor (mkColor r g b a)).
Definition setDiffuseColor_at_packed (index : Z) (rgba : Z) :=
  indexed index (set_diffuseColor (setPackedValue rgba)).

Definition setSpecularColor (col : Color) := broadcast (set_specularColor col).
Definition setSpecularColor_rgba (r g b a : float32) :=
  broadcast (set_specularColor (mkColor r g b a)).
Definition setSpecularColor_packed (rgba : Z) :=
  broadcast (set_specularColor (setPackedValue rgba)).
Definition setSpecularColor_at (index : Z) (col : Color) :=
  indexed index (set_specularColor col).
Definition setSpecularColor_at_rgba (index : Z) (r g b a : float32) :=
  indexed index (set_specularColor (mkColor r g b a)).
Definition setSpecularColor_at_packed (index : Z) (rgba : Z) :=
  indexed index (set_specularColor (setPackedValue rgba)).

Definition setEmissiveColor (col : Color) := broadcast (set_emissiveColor col).
Definition setEmissiveColor_rgba (r g b a : float32) :=
  broadcast (set_emissiveColor (mkColor r g b a)).
Definition setEmissiveColor_packed (rgba : Z) :=
  broadcast (set_emissiveColor (setPackedValue rgba)).
Definition setEmissiveColor_at (index : Z) (col : Color) :=
  indexed index (set_emissiveColor col).
Definition setEmissiveColor_at_rgba (index : Z) (r g b a : float32) :=
  indexed index (set_emissiveColor (mkColor r g b a)).
Definition setEmissiveColor_at_packed (index : Z) (rgba : Z) :=
  indexed index (set_emissiveColor (setPackedValue rgba)).

Definition setShininess (val : float32) := broadcast (set_shininess val).
Definition setShininess_at (index : Z) (val : float32) :=
  indexed index (set_shininess val).
Definition setTransparency (val : float32) := broadcast (set_transparency val).
Definition setTransparency_at (index : Z) (val : float32) :=
  indexed index (set_transparency val).

(** [for (i = 0; i < xs.size(); i++) _lValueList[i] = f(xs[i], _lValueList[i]);] *)
Fixpoint assign_from {A} (f : A -> Material -> Material) (i : Z) (xs : list A)
  : M t unit :=
  match xs with
  | [] => ret tt
  | x :: xs' => at_index i (f x);; assign_from f (i + 1) xs'
  end.

Definition setDiffuseColors (colors : list Color) : M t unit :=
  aboutToSetValue;;
  def ← front;
  setSize_def (Z.of_nat (length colors)) def;;
  assign_from set_diffuseColor 0 colors;;
  hasSetValue.

Definition setTransparencies (transparencies : list float32) : M t unit :=
  aboutToSetValue;;
  def ← front;
  setSize_def (Z.of_nat (length transparencies)) def;;
  assign_from set_transparency 0 transparencies;;
  hasSetValue.

(** *** Binary persistence *)

Definition writeString (value : string) : M Stream unit :=
  let uCt := string_size value mod 2 ^ 32 in
  write_uint32 uCt;;
  write_bytes (take (Z.to_nat uCt) (list_byte_of_string value)).

Definition readString : M Stream string :=
  uCt ← read_uint32;
  temp ← read_bytes (Z.to_nat uCt);
  ret (string_of_list_byte temp).

(** A [const] method: the state threaded is the output stream. *)
Definition SaveDocFile (self : Fields) : M Stream unit :=
  let uCt := Z.of_nat (length (_lValueList self)) mod 2 ^ 32 in
  write_uint32 uCt;;
  for_each (fun it =>
              write_uint32 (getPackedValue (ambientColor it));;
              write_uint32 (getPackedValue (diffuseColor it));;
              write_uint32 (getPackedValue (specularColor it));;
              write_uint32 (getPackedValue (emissiveColor it));;
              write_float (shininess it);;
              write_float (transparency it))
           (_lValueList self);;
  for_each (fun it =>
              writeString (image it);;
              writeString (imagePath it);;
              writeString (uuid it))
           (_lValueList self).

(** The six fixed-size fields of one element. *)
Definition read_fixed (it : Material) : M Stream Material :=
  value ← read_uint32;
  let it := set_ambientColor (setPackedValue value) it in
  value ← read_uint32;
  let it := set_diffuseColor (setPackedValue value) it in
  value ← read_uint32;
  let it := set_specularColor (setPackedValue value) it in
  value ← read_uint32;
  let it := set_emissiveColor (setPackedValue value) it in
  valueF ← read_float;
  let it := set_shininess valueF it in
  valueF ← read_float;
  ret (set_transparency valueF it).

Definition read_strings (it : Material) : M Stream Material :=
  s ← readString;
  let it := set_image s it in
  s ← readString;
  let it := set_imagePath s it in
  s ← readString;
  ret (set_uuid s it).

(** The restore methods work on the cell and on the reader. *)
Definition RestoreDocFileV0 (count : Z) : M (t * Stream) unit :=
  values ← on_snd (for_each_ref read_fixed (replicate (Z.to_nat count) Material_new));
  on_fst (setValues values).

Definition RestoreDocFileV3 : M (t * Stream) unit :=
  count ← on_snd read_uint32;
  values ← on_snd (for_each_ref read_fixed (replicate (Z.to_nat count) Material_new));
  values ← on_snd (for_each_ref read_strings values);
  on_fst (setValues values).

Definition RestoreDocFile : M (t * Stream) unit :=
  self ← on_fst getFields;
  if formatVersion self =? Version_2 then
    count ← on_snd read_uint32;
    RestoreDocFileV0 count
  else if formatVersion self =? Version_3 then
    RestoreDocFileV3
  else
    version ← on_snd read_int32;
    if version <? 0 then
      count ← on_snd read_uint32;
      RestoreDocFileV0 count
    else
      let uCt := version in
      RestoreDocFileV0 uCt.

End WithExternal.
End PropertyMaterialList.

(** ** [PropertyString] (and [PropertyFont]) *)

Module PropertyString.

(** [_cValue], and what the cell sees of its container: [Label] is the
    [onProposedLabelChange] hook of the document object when the cell is that
    object's [Label] (the test [obj && this == &obj->Label]), as the function
    from the proposed text to the text the hook leaves in [newValueStr]. The
    auxiliary property changes the hook returns are pasted into other cells,
    inside a transaction of the application: they do not touch this cell. *)
Record Fields : Type := mkFields {
  _cValue : string;
  Label : option (string -> string)
}.

Definition t : Type := Cell Fields.

Definition set_cValue (v : string) : M t unit :=
  self ← getFields; setFields (mkFields v (Label self)).

(** The overload taking a [const char] pointer; [None] is the null pointer. *)
Definition setValue (newValue : option string) : M t unit :=
  match newValue with
  | None => ret tt
  | Some newValue =>
      self ← getFields;
      if String.eqb (_cValue self) newValue then ret tt
      else
        let newValueStr :=
          match Label self with
          | Some onProposedLabelChange => onProposedLabelChange newValue
          | None => newValue
          end in
        if bool_decide (is_Some (Label self)) && String.eqb (_cValue self) newValueStr
        then ret tt
        else
          aboutToSetValue;;
          set_cValue newValueStr;;
          hasSetValue
  end.

(** [std::string::c_str()] read as a C string: the text before the first
    NUL character. *)
Fixpoint c_str (s : string) : string :=
  match s with
  | EmptyString => EmptyString
  | String ch s' => if Ascii.eqb ch "000" then EmptyString else String ch (c_str s')
  end.

(** [setValue(const std::string&)] *)
Definition setValue_string (sString : string) : M t unit :=
  setValue (Some (c_str sString)).

End PropertyString.

(** ** The class hierarchy, and [Paste]

    The classes this file registers with [TYPESYSTEM_SOURCE], each with the
    class it derives from inside the file. *)

Inductive Class : Type :=
| cPropertyInteger | cPropertyPath | cPropertyEnumeration
| cPropertyIntegerConstraint | cPropertyPercent | cPropertyIntegerList
| cPropertyIntegerSet | cPropertyFloat | cPropertyFloatConstraint
| cPropertyPrecision | cPropertyFloatList | cPropertyString | cPropertyUUID
| cPropertyFont | cPropertyStringList | cPropertyMap | cPropertyBool
| cPropertyBoolList | cPropertyColor | cPropertyColorList | cPropertyMaterial
| cPropertyMaterialList | cPropertyPersistentObject.

#[global] Instance Class_eq_dec : EqDecision Class.
Proof. solve_decision. Defined.

(** The parent named in [TYPESYSTEM_SOURCE], when it is a class of this file
    ([App::Property] and [App::PropertyLists] are not). *)
Definition parent (k : Class) : option Class :=
  match k with
  | cPropertyIntegerConstraint => Some cPropertyInteger
  | cPropertyPercent => Some cPropertyIntegerConstraint
  | cPropertyFloatConstraint => Some cPropertyFloat
  | cPropertyPrecision => Some cPropertyFloatConstraint
  | cPropertyFont => Some cPropertyString
  | cPropertyPersistentObject => Some cPropertyString
  | _ => None
  end.

(** [k] is [base] or derives from it (the hierarchy is three levels deep). *)
Definition derives_from (k base : Class) : bool :=
  bool_decide (k = base)
  || bool_decide (parent k = Some base)
  || bool_decide (parent k ≫= parent = Some base).

(** A property object: its dynamic class and the fields of that class. *)
Inductive Property : Type :=
| PropertyInteger_ (_lValue : Z)
| PropertyPath_ (_cValue : string)
| PropertyEnumeration_ (_enum : Enumeration.t)
| PropertyIntegerConstraint_ (_lValue : Z) (_ConstStruct : option (Constraints Z))
| PropertyPercent_ (_lValue : Z) (_ConstStruct : option (Constraints Z))
| PropertyIntegerList_ (_lValueList : list Z)
| PropertyIntegerSet_ (_lValueSet : gset Z)
| PropertyFloat_ (_dValue : double)
| PropertyFloatConstraint_ (_dValue : double) (_ConstStruct : option (Constraints double))
| PropertyPrecision_ (_dValue : double) (_ConstStruct : option (Constraints double))
| PropertyFloatList_ (_lValueList : list double)
| PropertyString_ (f : PropertyString.Fields)
| PropertyUUID_ (_uuid : string)
| PropertyFont_ (f : PropertyString.Fields)
| PropertyStringList_ (_lValueList : list string)
| PropertyMap_ (_lValueList : gmap string string)
| PropertyBool_ (_lValue : bool)
| PropertyBoolList_ (_lValueList : list bool)
| PropertyColor_ (_cCol : Color)
| PropertyColorList_ (_lValueList : list Color)
| PropertyMaterial_ (_cMat : Material)
| PropertyMaterialList_ (f : PropertyMaterialList.Fields)
| PropertyPersistentObject_ (f : PropertyString.Fields) (_pObject : option Z).

Definition class_of (p : Property) : Class :=
  match p with
  | PropertyInteger_ _ => cPropertyInteger
  | PropertyPath_ _ => cPropertyPath
  | PropertyEnumeration_ _ => cPropertyEnumeration
  | PropertyIntegerConstraint_ _ _ => cPropertyIntegerConstraint
  | PropertyPercent_ _ _ => cPropertyPercent
  | PropertyIntegerList_ _ => cPropertyIntegerList
  | PropertyIntegerSet_ _ => cPropertyIntegerSet
  | PropertyFloat_ _ => cPropertyFloat
  | PropertyFloatConstraint_ _ _ => cPropertyFloatConstraint
  | PropertyPrecision_ _ _ => cPropertyPrecision
  | PropertyFloatList_ _ => cPropertyFloatList
  | PropertyString_ _ => cPropertyString
  | PropertyUUID_ _ => cPropertyUUID
  | PropertyFont_ _ => cPropertyFont
  | PropertyStringList_ _ => cPropertyStringList
  | PropertyMap_ _ => cPropertyMap
  | PropertyBool_ _ => cPropertyBool
  | PropertyBoolList_ _ => cPropertyBoolList
  | PropertyColor_ _ => cPropertyColor
  | PropertyColorList_ _ => cPropertyColorList
  | PropertyMaterial_ _ => cPropertyMaterial
  | PropertyMaterialList_ _ => cPropertyMaterialList
  | PropertyPersistentObject_ _ _ => cPropertyPersistentObject
  end.

(** The sub-objects of the base classes that have derived classes. *)
Definition as_PropertyInteger (p : Property) : option Z :=
  match p with
  | PropertyInteger_ v | PropertyIntegerConstraint_ v _ | PropertyPercent_ v _ => Some v
  | _ => None
  end.

Definition as_PropertyFloat (p : Property) : option double :=
  match p with
  | PropertyFloat_ v | PropertyFloatConstraint_ v _ | PropertyPrecision_ v _ => Some v
  | _ => None
  end.

Definition as_PropertyString (p : Property) : option PropertyString.Fields :=
  match p with
  | PropertyString_ f | PropertyFont_ f | PropertyPersistentObject_ f _ => Some f
  | _ => None
  end.

(** Assignment to a member of a base sub-object of [self]. *)
Definition with_lValue (v : Z) (self : Property) : Property :=
  match self with
  | PropertyInteger_ _ => PropertyInteger_ v
  | PropertyIntegerConstraint_ _ c => PropertyIntegerConstraint_ v c
  | PropertyPercent_ _ c => PropertyPercent_ v c
  | _ => self
  end.

Definition with_dValue (v : double) (self : Property) : Property :=
  match self with
  | PropertyFloat_ _ => PropertyFloat_ v
  | PropertyFloatConstraint_ _ c => PropertyFloatConstraint_ v c
  | PropertyPrecision_ _ c => PropertyPrecision_ v c
  | _ => self
  end.

Definition with_string (f : PropertyString.Fields) (self : Property) : Property :=
  match self with
  | PropertyString_ _ => PropertyString_ f
  | PropertyFont_ _ => PropertyFont_ f
  | PropertyPersistentObject_ _ o => PropertyPersistentObject_ f o
  | _ => self
  end.

(** What [dynamic_cast<const T&>(from)] gives access to, for the classes
    nothing derives from. *)
Definition as_PropertyPath (p : Property) : option string :=
  match p with PropertyPath_ v => Some v | _ => None end.
Definition as_PropertyEnumeration (p : Property) : option Enumeration.t :=
  match p with PropertyEnumeration_ v => Some v | _ => None end.
Definition as_PropertyIntegerList (p : Property) : option (list Z) :=
  match p with PropertyIntegerList_ v => Some v | _ => None end.
Definition as_PropertyIntegerSet (p : Property) : option (gset Z) :=
  match p with PropertyIntegerSet_ v => Some v | _ => None end.
Definition as_PropertyFloatList (p : Property) : option (list double) :=
  match p with PropertyFloatList_ v => Some v | _ => None end.
Definition as_PropertyUUID (p : Property) : option string :=
  match p with PropertyUUID_ v => Some v | _ => None end.
Definition as_PropertyStringList (p : Property) : option (list string) :=
  match p with PropertyStringList_ v => Some v | _ => None end.
Definition as_PropertyMap (p : Property) : option (gmap string string) :=
  match p with PropertyMap_ v => Some v | _ => None end.
Definition as_PropertyBool (p : Property) : option bool :=
  match p with PropertyBool_ v => Some v | _ => None end.
Definition as_PropertyBoolList (p : Property) : option (list bool) :=
  match p with PropertyBoolList_ v => Some v | _ => None end.
Definition as_PropertyColor (p : Property) : option Color :=
  match p with PropertyColor_ v => Some v | _ => None end.
Definition as_PropertyColorList (p : Property) : option (list Color) :=
  match p with PropertyColorList_ v => Some v | _ => None end.
Definition as_PropertyMaterial (p : Property) : option Material :=
  match p with PropertyMaterial_ v => Some v | _ => None end.
Definition as_PropertyMaterialList (p : Property) : option PropertyMaterialList.Fields :=
  match p with PropertyMaterialList_ v => Some v | _ => None end.
Definition as_PropertyPersistentObject (p : Property)
  : option (PropertyString.Fields * option Z) :=
  match p with PropertyPersistentObject_ f o => Some (f, o) | _ => None end.

Section PasteMethods.
Context `{External}.

(** The reference cast: [std::bad_cast] when [from] is not a [T]. *)
Definition dynamic_cast {V} (view : Property -> option V) (from : Property)
  : M (Cell Property) V :=
  match view from with
  | Some v => ret v
  | None => throw bad_cast
  end.

Definition assign (f : Property -> Property) : M (Cell Property) unit :=
  self ← getFields; setFields (f self).

(** A method of class [T] run on the [T] sub-object of the cell. *)
Definition on_subobject {V A} (view : Property -> option V)
    (store : V -> Property -> Property) (m : M (Cell V) A) : M (Cell Property) A :=
  fun c =>
    match view (fields c) with
    | Some v =>
        let '(res, c') := m (mkCell v (hooks c) (FullName c)) in
        (res, mkCell (store (fields c') (fields c)) (hooks c') (FullName c'))
    | None => (Throw Undefined, c)
    end.

(** [PropertyListsT<T>::setValues], on the list held by [self]. *)
Definition PropertyListsT_setValues (newValues : Property) : M (Cell Property) unit :=
  aboutToSetValue;;
  assign (fun _ => newValues);;
  hasSetValue.

Definition PropertyInteger_Paste (from : Property) : M (Cell Property) unit :=
  aboutToSetValue;;
  v ← dynamic_cast as_PropertyInteger from;
  assign (with_lValue v);;
  hasSetValue.

Definition PropertyPath_Paste (from : Property) : M (Cell Property) unit :=
  aboutToSetValue;;
  v ← dynamic_cast as_PropertyPath from;
  assign (fun _ => PropertyPath_ v);;
  hasSetValue.

Definition PropertyEnumeration_Paste (from : Property) : M (Cell Property) unit :=
  prop ← dynamic_cast as_PropertyEnumeration from;
  aboutToSetValue;;
  assign (fun _ => PropertyEnumeration_ prop);;
  hasSetValue.

Definition PropertyIntegerList_Paste (from : Property) : M (Cell Property) unit :=
  v ← dynamic_cast as_PropertyIntegerList from;
  PropertyListsT_setValues (PropertyIntegerList_ v).

Definition PropertyIntegerSet_Paste (from : Property) : M (Cell Property) unit :=
  aboutToSetValue;;
  v ← dynamic_cast as_PropertyIntegerSet from;
  assign (fun _ => PropertyIntegerSet_ v);;
  hasSetValue.

Definition PropertyFloat_Paste (from : Property) : M (Cell Property) unit :=
  aboutToSetValue;;
  v ← dynamic_cast as_PropertyFloat from;
  assign (with_dValue v);;
  hasSetValue.

Definition PropertyFloatList_Paste (from : Property) : M (Cell Property) unit :=
  v ← dynamic_cast as_PropertyFloatList from;
  PropertyListsT_setValues (PropertyFloatList_ v).

Definition PropertyString_Paste (from : Property) : M (Cell Property) unit :=
  f ← dynamic_cast as_PropertyString from;
  on_subobject as_PropertyString with_string
    (PropertyString.setValue_string (PropertyString._cValue f)).

Definition PropertyUUID_Paste (from : Property) : M (Cell Property) unit :=
  aboutToSetValue;;
  v ← dynamic_cast as_PropertyUUID from;
  assign (fun _ => PropertyUUID_ v);;
  hasSetValue.

Definition PropertyStringList_Paste (from : Property) : M (Cell Property) unit :=
  v ← dynamic_cast as_PropertyStringList from;
  PropertyListsT_setValues (PropertyStringList_ v).

Definition PropertyMap_Paste (from : Property) : M (Cell Property) unit :=
  aboutToSetValue;;
  v ← dynamic_cast as_PropertyMap from;
  assign (fun _ => PropertyMap_ v);;
  hasSetValue.

Definition PropertyBool_Paste (from : Property) : M (Cell Property) unit :=
  aboutToSetValue;;
  v ← dynamic_cast as_PropertyBool from;
  assign (fun _ => PropertyBool_ v);;
  hasSetValue.

Definition PropertyBoolList_Paste (from : Property) : M (Cell Property) unit :=
  v ← dynamic_cast as_PropertyBoolList from;
  PropertyListsT_setValues (PropertyBoolList_ v).

Definition PropertyColor_Paste (from : Property) : M (Cell Property) unit :=
  aboutToSetValue;;
  v ← dynamic_cast as_PropertyColor from;
  assign (fun _ => PropertyColor_ v);;
  hasSetValue.

Definition PropertyColorList_Paste (from : Property) : M (Cell Property) unit :=
  v ← dynamic_cast as_PropertyColorList from;
  PropertyListsT_setValues (PropertyColorList_ v).

Definition PropertyMaterial_Paste (from : Property) : M (Cell Property) unit :=
  aboutToSetValue;;
  v ← dynamic_cast as_PropertyMaterial from;
  assign (fun _ => PropertyMaterial_ v);;
  hasSetValue.

Definition PropertyMaterialList_Paste (from : Property) : M (Cell Property) unit :=
  f ← dynamic_cast as_PropertyMaterialList from;
  on_subobject as_PropertyMaterialList (fun f' _ => PropertyMaterialList_ f')
    (PropertyMaterialList.setValues (PropertyMaterialList._lValueList f)).

Definition PropertyPersistentObject_Paste (from : Property) : M (Cell Property) unit :=
  prop ← dynamic_cast as_PropertyPersistentObject from;
  self ← getFields;
  match self with
  | PropertyPersistentObject_ f _pObject =>
      if negb (String.eqb (PropertyString._cValue f) (PropertyString._cValue (fst prop)))
         || negb (bool_decide (_pObject = snd prop))
      then
        aboutToSetValue;;
        assign (fun _ => PropertyPersistentObject_
                           (PropertyString.mkFields (PropertyString._cValue (fst prop))
                                                    (PropertyString.Label f))
                           (snd prop));;
        hasSetValue
      else ret tt
  | _ => throw Undefined
  end.

(** The virtual call [self.Paste(from)]: the override of the dynamic class
    of [self], or the one it inherits. *)
Definition Paste (from : Property) : M (Cell Property) unit :=
  self ← getFields;
  match self with
  | PropertyInteger_ _ | PropertyIntegerConstraint_ _ _ | PropertyPercent_ _ _ =>
      PropertyInteger_Paste from
  | PropertyPath_ _ => PropertyPath_Paste from
  | PropertyEnumeration_ _ => PropertyEnumeration_Paste from
  | PropertyIntegerList_ _ => PropertyIntegerList_Paste from
  | PropertyIntegerSet_ _ => PropertyIntegerSet_Paste from
  | PropertyFloat_ _ | PropertyFloatConstraint_ _ _ | PropertyPrecision_ _ _ =>
      PropertyFloat_Paste from
  | PropertyFloatList_ _ => PropertyFloatList_Paste from
  | PropertyString_ _ | PropertyFont_ _ => PropertyString_Paste from
  | PropertyUUID_ _ => PropertyUUID_Paste from
  | PropertyStringList_ _ => PropertyStringList_Paste from
  | PropertyMap_ _ => PropertyMap_Paste from
  | PropertyBool_ _ => PropertyBool_Paste from
  | PropertyBoolList_ _ => PropertyBoolList_Paste from
  | PropertyColor_ _ => PropertyColor_Paste from
  | PropertyColorList_ _ => PropertyColorList_Paste from
  | PropertyMaterial_ _ => PropertyMaterial_Paste from
  | PropertyMaterialList_ _ => PropertyMaterialList_Paste from
  | PropertyPersistentObject_ _ _ => PropertyPersistentObject_Paste from
  end.

End PasteMethods.

(** ** [PropertyMaterialList]: the getters

    The getters are [const] methods: they read [_lValueList] and leave the
    cell as it is. *)

Section MaterialListGetters.
Context `{External}.

(** [_lValueList[index]] read: the behaviour is undefined for an index
    outside the vector. *)
Definition PropertyMaterialList_element (index : Z)
  : M PropertyMaterialList.t Material :=
  l ← PropertyMaterialList.getList;
  match (if 0 <=? index then l !! Z.to_nat index else None) with
  | Some m => ret m
  | None => throw Undefined
  end.

Definition PropertyMaterialList_getAmbientColor : M PropertyMaterialList.t Color :=
  m ← PropertyMaterialList_element 0; ret (ambientColor m).
Definition PropertyMaterialList_getAmbientColor_at (index : Z)
  : M PropertyMaterialList.t Color :=
  m ← PropertyMaterialList_element index; ret (ambientColor m).

Definition PropertyMaterialList_getDiffuseColor : M PropertyMaterialList.t Color :=
  m ← PropertyMaterialList_element 0; ret (diffuseColor m).
Definition PropertyMaterialList_getDiffuseColor_at (index : Z)
  : M PropertyMaterialList.t Color :=
  m ← PropertyMaterialList_element index; ret (diffuseColor m).

(** [for (auto& material : _lValueList) list.push_back(material.diffuseColor);] *)
Definition PropertyMaterialList_getDiffuseColors
  : M PropertyMaterialList.t (list Color) :=
  l ← PropertyMaterialList.getList; ret (diffuseColor <$> l).

Definition PropertyMaterialList_getSpecularColor : M PropertyMaterialList.t Color :=
  m ← PropertyMaterialList_element 0; ret (specularColor m).
Definition PropertyMaterialList_getSpecularColor_at (index : Z)
  : M PropertyMaterialList.t Color :=
  m ← PropertyMaterialList_element index; ret (specularColor m).

Definition PropertyMaterialList_getEmissiveColor : M PropertyMaterialList.t Color :=
  m ← PropertyMaterialList_element 0; ret (emissiveColor m).
Definition PropertyMaterialList_getEmissiveColor_at (index : Z)
  : M PropertyMaterialList.t Color :=
  m ← PropertyMaterialList_element index; ret (emissiveColor m).

Definition PropertyMaterialList_getShininess : M PropertyMaterialList.t float32 :=
  m ← PropertyMaterialList_element 0; ret (shininess m).
Definition PropertyMaterialList_getShininess_at (index : Z)
  : M PropertyMaterialList.t float32 :=
  m ← PropertyMaterialList_element index; ret (shininess m).

Definition PropertyMaterialList_getTransparency : M PropertyMaterialList.t float32 :=
  m ← PropertyMaterialList_element 0; ret (transparency m).
Definition PropertyMaterialList_getTransparency_at (index : Z)
  : M PropertyMaterialList.t float32 :=
  m ← PropertyMaterialList_element index; ret (transparency m).

Definition PropertyMaterialList_getTransparencies
  : M PropertyMaterialList.t (list float32) :=
  l ← PropertyMaterialList.getList; ret (transparency <$> l).

End MaterialListGetters.

(** ** [PropertyColorList]: binary persistence *)

Module PropertyColorList.
Section WithExternal.
Context `{External}.

(** The only field is [_lValueList]. *)
Definition t : Type := Cell (list Color).

(** Modelled from the spec: [getSize] and [setValues] are those of the list
    base class [PropertyListsT] (App/Property.h, outside these sources): the
    size of the vector, and the replacement of the elements inside one
    notification bracket. *)
Definition getSize (self : list Color) : Z := Z.of_nat (length self).

Definition setValues (newValues : list Color) : M t unit :=
  aboutToSetValue;;
  setFields newValues;;
  hasSetValue.

(** A [const] method: the state threaded is the output stream. *)
Definition SaveDocFile (self : list Color) : M Stream unit :=
  let uCt := getSize self mod 2 ^ 32 in
  write_uint32 uCt;;
  for_each (fun it => write_uint32 (getPackedValue it)) self.

(** The loop over the [uCt] elements of [values]: each one is assigned from
    the packed value read, whatever it held. *)
Fixpoint read_values (uCt : nat) : M Stream (list Color) :=
  match uCt with
  | O => ret []
  | S uCt' =>
      value ← read_uint32;
      values ← read_values uCt';
      ret (setPackedValue value :: values)
  end.

Definition RestoreDocFile : M (t * Stream) unit :=
  uCt ← on_snd read_uint32;
  values ← on_snd (read_values (Z.to_nat uCt));
  on_fst (setValues values).

End WithExternal.
End PropertyColorList.

(** ** Sequences and mappings among the dynamic values

    [PySequence_Check] holds of tuples, lists and strings, [PyMapping_Check]
    of these and of dictionaries. A [PyOther] stands for an object that
    offers neither protocol (a set, a function, a module, ...). The items of
    a string are its characters, taken here one per byte. *)

Definition PyUnicode_Check (o : PyObject) : bool :=
  match o with PyUnicode _ => true | _ => false end.

Definition PySequence_Check (o : PyObject) : bool :=
  match o with
  | PyTuple _ | PyList _ | PyUnicode _ => true
  | _ => false
  end.

Definition PyMapping_Check (o : PyObject) : bool :=
  match o with
  | PyDict _ | PyTuple _ | PyList _ | PyUnicode _ => true
  | _ => false
  end.

(** The items [Py::Sequence::getItem] hands out, in order. *)
Definition sequence_items (o : PyObject) : list PyObject :=
  match o with
  | PyTuple items | PyList items => items
  | PyUnicode s => (fun ch => PyUnicode (String ch EmptyString)) <$> list_ascii_of_string s
  | _ => []
  end.

(** [PyUnicode_AsUTF8] assigned to a [std::string]: the text is read as a C
    string, up to its first NUL character. *)
Definition PyUnicode_AsUTF8 (o : PyObject) : string :=
  match o with
  | PyUnicode s => PropertyString.c_str s
  | _ => EmptyString
  end.

(** ** [PropertyIntegerSet] *)

Module PropertyIntegerSet.

(** The only field is [_lValueSet], a [std::set<long>]. *)
Definition t : Type := Cell (gset Z).

Definition setValue (lValue : Z) : M t unit :=
  aboutToSetValue;;
  setFields ∅;;
  (_lValueSet ← getFields; setFields ({[lValue]} ∪ _lValueSet));;
  hasSetValue.

Definition setValues (values : gset Z) : M t unit :=
  aboutToSetValue;;
  setFields values;;
  hasSetValue.

Definition getValues (c : t) : gset Z := fields c.

(** The loop of [setPyObject] over the items, filling the local [values]. *)
Fixpoint collect (items : list PyObject) (values : gset Z) : M t (gset Z) :=
  match items with
  | [] => ret values
  | item :: items' =>
      if negb (PyLong_Check item) then
        throw (TypeError ("type in list must be int, not " ++ tp_name item))
      else collect items' ({[PyLong_AsLong item]} ∪ values)
  end.

Definition setPyObject (value : PyObject) : M t unit :=
  if PySequence_Check value then
    values ← collect (sequence_items value) ∅;
    setValues values
  else if PyLong_Check value then
    setValue (PyLong_AsLong value)
  else
    throw (TypeError ("type must be int or list of int, not " ++ tp_name value)).

End PropertyIntegerSet.

(** ** [PropertyMap] *)

Module PropertyMap.

(** The only field is [_lValueList], a [std::map<std::string, std::string>]. *)
Definition t : Type := Cell (gmap string string).

Definition getSize (c : t) : Z := Z.of_nat (size (fields c)).

Definition setValue (key value : string) : M t unit :=
  aboutToSetValue;;
  (_lValueList ← getFields; setFields (<[key := value]> _lValueList));;
  hasSetValue.

Definition setValues (map : gmap string string) : M t unit :=
  aboutToSetValue;;
  setFields map;;
  hasSetValue.

(** [operator[]]: the value under [key], the empty string when there is
    none. *)
Definition operator_index (key : string) (c : t) : string :=
  match fields c !! key with
  | Some second => second
  | None => EmptyString
  end.

(** The loop of [setPyObject] over the keys and the items of the mapping,
    filling the local [values]. *)
Fixpoint convert (items : list (PyObject * PyObject)) (values : gmap string string)
  : M t (gmap string string) :=
  match items with
  | [] => ret values
  | (key, item) :: items' =>
      if PyUnicode_Check key then
        let keyStr := PyUnicode_AsUTF8 key in
        if PyUnicode_Check item then
          convert items' (<[keyStr := PyUnicode_AsUTF8 item]> values)
        else
          throw (TypeError ("type in values must be string, not " ++ tp_name item))
      else
        throw (TypeError ("type of the key need to be string, not " ++ tp_name key))
  end.

(** For a mapping that is not a dictionary [PyMapping_Keys] fails and
    returns a null pointer, which [PyList_Size] dereferences. *)
Definition setPyObject (value : PyObject) : M t unit :=
  if PyMapping_Check value then
    match value with
    | PyDict items =>
        values ← convert items ∅;
        setValues values
    | _ => throw Undefined
    end
  else
    throw (TypeError ("type must be a dict or object with mapping protocol, not "
                      ++ tp_name value)).

End PropertyMap.

(** ** [PropertyString]: the dynamic setter

    [setPyObject] belongs to the class modelled in module [PropertyString]. *)

Definition PropertyString_setPyObject (value : PyObject) : M PropertyString.t unit :=
  if PyUnicode_Check value then
    let string := PyUnicode_AsUTF8 value in
    PropertyString.setValue_string string
  else
    throw (TypeError ("type must be str or unicode, not " ++ tp_name value)).

(** ** [PropertyBool] *)

Module PropertyBool.

(** The only field is [_lValue]. *)
Definition t : Type := Cell bool.

Definition setValue (lValue : bool) : M t unit :=
  aboutToSetValue;;
  setFields lValue;;
  hasSetValue.

Definition getValue (c : t) : bool := fields c.

(** [d != 0] on doubles: a NaN differs from zero, both zeros equal it. *)
Definition double_nonzero (d : double) : bool :=
  match d with
  | S754_zero _ => false
  | _ => true
  end.

(** The double [boost::math::round] returns converts to [true] unless it is
    zero. *)
Definition setPathValue (path : ObjectIdentifier) (value : any) : M t unit :=
  verifyPath path;;
  match value with
  | any_bool b => setValue b
  | any_int z | any_long z => setValue (negb (z =? 0))
  | any_double d | any_float d =>
      match round d with
      | Some z => setValue (negb (z =? 0))
      | None => throw rounding_error
      end
  | any_Quantity d => setValue (double_nonzero d)
  | _ => throw bad_cast
  end.

Definition getPathValue (path : ObjectIdentifier) : M t any :=
  verifyPath path;;
  _lValue ← getFields; ret (any_bool _lValue).

End PropertyBool.

(** ** [PropertyFloatConstraint]: the bounds reported

    [getMinimum] and [getMaximum] belong to the class modelled in module
    [PropertyFloatConstraint]. *)

Definition PropertyFloatConstraint_getMinimum (c : PropertyFloatConstraint.t) : double :=
  match PropertyFloatConstraint._ConstStruct (fields c) with
  | Some cs => LowerBound cs
  | None => DBL_LOWEST
  end.

Definition PropertyFloatConstraint_getMaximum (c : PropertyFloatConstraint.t) : double :=
  match PropertyFloatConstraint._ConstStruct (fields c) with
  | Some cs => UpperBound cs
  | None => DBL_MAX
  end.

(** ** [Copy]

    Each class of the file that overrides [Copy] builds a new object of its
    own class and assigns the value members; the constrained classes,
    [PropertyPercent], [PropertyPrecision] and [PropertyFont] inherit the
    [Copy] of their base class. The new object belongs to no container, so a
    string copy is no label. *)

Section CopyMethods.

(** What the header gives [formatVersion] in a new material list
    (App/PropertyStandard.h is outside these sources). *)
Variable formatVersion_new : Z.

Definition Copy (self : Property) : Property :=
  match self with
  | PropertyInteger_ v | PropertyIntegerConstraint_ v _ | PropertyPercent_ v _ =>
      PropertyInteger_ v
  | PropertyPath_ v => PropertyPath_ v
  | PropertyEnumeration_ v => PropertyEnumeration_ v
  | PropertyIntegerList_ v => PropertyIntegerList_ v
  | PropertyIntegerSet_ v => PropertyIntegerSet_ v
  | PropertyFloat_ v | PropertyFloatConstraint_ v _ | PropertyPrecision_ v _ =>
      PropertyFloat_ v
  | PropertyFloatList_ v => PropertyFloatList_ v
  | PropertyString_ f | PropertyFont_ f =>
      PropertyString_ (PropertyString.mkFields (PropertyString._cValue f) None)
  | PropertyUUID_ v => PropertyUUID_ v
  | PropertyStringList_ v => PropertyStringList_ v
  | PropertyMap_ v => PropertyMap_ v
  | PropertyBool_ v => PropertyBool_ v
  | PropertyBoolList_ v => PropertyBoolList_ v
  | PropertyColor_ v => PropertyColor_ v
  | PropertyColorList_ v => PropertyColorList_ v
  | PropertyMaterial_ v => PropertyMaterial_ v
  | PropertyMaterialList_ f =>
      PropertyMaterialList_
        (PropertyMaterialList.mkFields (PropertyMaterialList._lValueList f) formatVersion_new)
  | PropertyPersistentObject_ f o =>
      PropertyPersistentObject_
        (PropertyString.mkFields (PropertyString._cValue f) None) o
  end.

End CopyMethods.

(** ** Single-precision floats

    The conversion [double -> float] rounds to the nearest binary32 value,
    ties to even, overflowing to an infinity; the float is then held as its
    bit pattern (a NaN as the quiet NaN with an empty payload). *)

Definition float_of_double (x : double) : spec_float :=
  match x with
  | S754_finite s m e => binary_round 24 128 s m e
  | _ => x
  end.

Definition bits_of_float (x : spec_float) : float32 :=
  match x with
  | S754_zero s => if s then 2 ^ 31 else 0
  | S754_infinity s => (if s then 2 ^ 31 else 0) + 255 * 2 ^ 23
  | S754_nan => 255 * 2 ^ 23 + 2 ^ 22
  | S754_finite s m e =>
      (if s then 2 ^ 31 else 0)
      + (if Zpos m <? 2 ^ 23 then Zpos m else (e + 150) * 2 ^ 23 + (Zpos m - 2 ^ 23))
  end.

(** [(float)d], and [l / 255.0] assigned to a [float]. *)
Definition narrow (d : double) : float32 := bits_of_float (float_of_double d).

Definition over_255 (l : Z) : float32 :=
  narrow (SFdiv prec64 emax64 (double_of_long l) (double_of_long 255)).

(** [PyLong_AsUnsignedLong]: the value when it fits an [unsigned long]; on a
    negative or too large value CPython returns [(unsigned long)-1]. It is
    only called after [PyLong_Check]. *)
Definition PyLong_AsUnsignedLong (o : PyObject) : Z :=
  if (0 <=? int_value o) && (int_value o <? 2 ^ 64) then int_value o else 2 ^ 64 - 1.

(** [PyTuple_Size] and [PyTuple_GetItem], called on tuples and inside their
    bounds. *)
Definition PyTuple_Size (o : PyObject) : Z :=
  match o with
  | PyTuple items => Z.of_nat (length items)
  | _ => -1
  end.

Definition PyTuple_GetItem (o : PyObject) (pos : nat) : PyObject :=
  match o with
  | PyTuple items => default PyNone (items !! pos)
  | _ => PyNone
  end.

(** ** [PropertyColor] *)

Module PropertyColor.
Section WithExternal.
Context `{External}.

(** The default-constructed [Base::Color] (Base/Color.h is outside these
    sources). *)
Variable Color_new : Color.

(** The only field is [_cCol]. *)
Definition t : Type := Cell Color.

Definition setValue (col : Color) : M t unit :=
  aboutToSetValue;;
  setFields col;;
  hasSetValue.

(** The overload taking a packed [uint32_t]. *)
Definition setValue_packed (rgba : Z) : M t unit :=
  aboutToSetValue;;
  setFields (setPackedValue rgba);;
  hasSetValue.

Definition setValue_rgba (r g b a : float32) : M t unit :=
  aboutToSetValue;;
  setFields (mkColor r g b a);;
  hasSetValue.

Definition getValue (c : t) : Color := fields c.

(** One channel of a tuple of floats, resp. of ints. *)
Definition float_item (item : PyObject) : M t float32 :=
  if PyFloat_Check item then ret (narrow (PyFloat_AsDouble item))
  else throw (TypeError "Type in tuple must be consistent (float)").

Definition int_item (item : PyObject) : M t float32 :=
  if PyLong_Check item then ret (over_255 (PyLong_AsLong item))
  else throw (TypeError "Type in tuple must be consistent (integer)").

(** The tuple branch: the kind of the first item decides how the others are
    read; the fourth channel keeps its default when there are three items. *)
Definition of_tuple (value : PyObject) : M t Color :=
  let cCol := Color_new in
  let item := PyTuple_GetItem value 0 in
  if PyFloat_Check item then
    let r := narrow (PyFloat_AsDouble item) in
    g ← float_item (PyTuple_GetItem value 1);
    b ← float_item (PyTuple_GetItem value 2);
    a ← (if PyTuple_Size value =? 4 then float_item (PyTuple_GetItem value 3)
         else ret (a cCol));
    ret (mkColor r g b a)
  else if PyLong_Check item then
    let r := over_255 (PyLong_AsLong item) in
    g ← int_item (PyTuple_GetItem value 1);
    b ← int_item (PyTuple_GetItem value 2);
    a ← (if PyTuple_Size value =? 4 then int_item (PyTuple_GetItem value 3)
         else ret (a cCol));
    ret (mkColor r g b a)
  else
    throw (TypeError "Type in tuple must be float or integer").

Definition setPyObject (value : PyObject) : M t unit :=
  cCol ←
    (if PyTuple_Check value && ((PyTuple_Size value =? 3) || (PyTuple_Size value =? 4)) then
       of_tuple value
     else if PyLong_Check value then
       ret (setPackedValue (PyLong_AsUnsignedLong value mod 2 ^ 32))
     else
       throw (TypeError ("type must be integer or tuple of float or tuple integer, not "
                         ++ tp_name value)));
  setValue cCol.

End WithExternal.
End PropertyColor.

(** [PropertyColorList::getPyValue]: the item is assigned to a
    [PropertyColor] of its own, which belongs to no container, and the color
    it then holds is returned. *)
Definition PropertyColorList_getPyValue `{External} (Color_new : Color) (item : PyObject)
  : result Color :=
  let col := mkCell Color_new [] "?" in
  match PropertyColor.setPyObject Color_new item col with
  | (Return _, col') => Return (PropertyColor.getValue col')
  | (Throw e, _) => Throw e
  end.

(** ** [PropertyEnumeration]: the dynamic setter

    What [setPyObject] uses of [App::Enumeration] and of the PyCXX wrappers,
    and these sources do not define: selecting an index with the range
    check on ([setValue(long, true)], which may throw), selecting a label,
    [Py::Long] read as an [int] (a [Py::Exception] when the object is no
    int), and [Py::Object::as_string] of an object that is not a string. *)
Class EnumerationExternal : Type := {
  setValue_checked : Z -> Enumeration.t -> result Enumeration.t;
  setValue_label : string -> Enumeration.t -> Enumeration.t;
  Py_Long : PyObject -> result Z;
  py_str : PyObject -> result string
}.

(** Modelled from the spec: [Enumeration::contains]; a label string "must
    exist in [labels]". *)
Definition Enumeration_contains (value : string) (e : Enumeration.t) : bool :=
  bool_decide (value ∈ Enumeration.labels e).

Section EnumerationSetPyObject.
Context `{EnumerationExternal}.

(** A call into the external code, inside a method of the cell. *)
Definition external {A} (r : result A) : M PropertyEnumeration.t A := fun c => (r, c).

(** [Py::Object::as_string()]: a string gives its text. *)
Definition as_string (o : PyObject) : result string :=
  match o with
  | PyUnicode s => Return s
  | _ => py_str o
  end.

Fixpoint as_strings (seq : list PyObject) : result (list string) :=
  match seq with
  | [] => Return []
  | item :: seq' =>
      match as_string item with
      | Return s =>
          match as_strings seq' with
          | Return values => Return (s :: values)
          | Throw e => Throw e
          end
      | Throw e => Throw e
      end
  end.

(** The part of the sequence branch that can raise a [Py::Exception]: the
    index and the labels a sequence denotes. A sequence of two items whose
    first item is a sequence and no string is a pair (labels, index). *)
Definition labels_and_index (seq : list PyObject) : result (Z * list string) :=
  let plain :=
    match as_strings seq with
    | Return values => Return (-1, values)
    | Throw e => Throw e
    end in
  match seq with
  | [v; i] =>
      if negb (PyUnicode_Check v) && PySequence_Check v then
        match Py_Long i with
        | Return idx =>
            match as_strings (sequence_items v) with
            | Return values => Return (idx, values)
            | Throw e => Throw e
            end
        | Throw e => Throw e
        end
      else plain
  | _ => plain
  end.

(** The [FC_THROWM] that ends the method. *)
Definition expects : M PropertyEnumeration.t unit :=
  name ← getFullName;
  throw (TypeError ("PropertyEnumeration " ++ name
                    ++ " expects type to be int, string, or list(string), or list(list, int)")).

Definition PropertyEnumeration_setPyObject (value : PyObject)
  : M PropertyEnumeration.t unit :=
  if PyLong_Check value then
    let val := PyLong_AsLong value in
    _enum ← getFields;
    if Enumeration.isValid _enum then
      aboutToSetValue;;
      (_enum ← getFields; _enum' ← external (setValue_checked val _enum); setFields _enum');;
      hasSetValue
    else ret tt
  else if PyUnicode_Check value then
    let str := PyUnicode_AsUTF8 value in
    _enum ← getFields;
    if Enumeration_contains (PropertyString.c_str str) _enum then
      aboutToSetValue;;
      setFields (setValue_label str _enum);;
      hasSetValue
    else
      name ← getFullName;
      throw (ValueError ("'" ++ str ++ "' is not part of the enumeration in " ++ name))
  else if PySequence_Check value then
    match labels_and_index (sequence_items value) with
    | Return (idx, values) =>
        aboutToSetValue;;
        (_enum ← getFields; setFields (Enumeration.setEnums values _enum));;
        (if 0 <=? idx then
           _enum ← getFields; _enum' ← external (setValue_checked idx _enum); setFields _enum'
         else ret tt);;
        hasSetValue
    | Throw _ => expects
    end
  else expects.

End EnumerationSetPyObject.

(** ** Floats and doubles in a binary stream

    A [float] read from its bit pattern, and widened to a [double] (the
    conversion is exact); a [double] as its 64-bit pattern and back. The
    stream holds the eight bytes of a double least significant first. *)

Definition float_of_bits (v : float32) : spec_float :=
  let s := 256 <=? v / 2 ^ 23 in
  let ex := (v / 2 ^ 23) mod 256 in
  let frac := v mod 2 ^ 23 in
  if ex =? 255 then
    if frac =? 0 then S754_infinity s else S754_nan
  else if ex =? 0 then
    match frac with
    | Zpos m => S754_finite s m (-149)
    | _ => S754_zero s
    end
  else
    match 2 ^ 23 + frac with
    | Zpos m => S754_finite s m (ex - 150)
    | _ => S754_nan
    end.

Definition double_of_float (x : spec_float) : double :=
  match x with
  | S754_finite s m e => binary_round prec64 emax64 s m e
  | _ => x
  end.

Definition bits_of_double (x : double) : Z :=
  match x with
  | S754_zero s => (if s then 2048 else 0) * 2 ^ 52
  | S754_infinity s => ((if s then 2048 else 0) + 2047) * 2 ^ 52
  | S754_nan => 2047 * 2 ^ 52 + 2 ^ 51
  | S754_finite s m e =>
      if Zpos m <? 2 ^ 52 then (if s then 2048 else 0) * 2 ^ 52 + Zpos m
      else ((if s then 2048 else 0) + (e + 1075)) * 2 ^ 52 + (Zpos m - 2 ^ 52)
  end.

Definition double_of_bits (v : Z) : double :=
  let s := 2048 <=? v / 2 ^ 52 in
  let ex := (v / 2 ^ 52) mod 2048 in
  let frac := v mod 2 ^ 52 in
  if ex =? 2047 then
    if frac =? 0 then S754_infinity s else S754_nan
  else if ex =? 0 then
    match frac with
    | Zpos m => S754_finite s m (-1074)
    | _ => S754_zero s
    end
  else
    match 2 ^ 52 + frac with
    | Zpos m => S754_finite s m (ex - 1075)
    | _ => S754_nan
    end.

(** [str << d] and [str >> d] for [double]. *)
Definition write_double (d : double) : M Stream unit :=
  let v := bits_of_double d in
  write_bytes (encode_uint32 (v mod 2 ^ 32) ++ encode_uint32 (v / 2 ^ 32)).

Definition read_double : M Stream double :=
  lo ← read_uint32;
  hi ← read_uint32;
  ret (double_of_bits (lo + 2 ^ 32 * hi)).

(** ** [PropertyFloatList] *)

Module PropertyFloatList.

(** [_lValueList], and the status bit [isSinglePrecision()] tests (it
    belongs to the base class and is set by the owner of the cell). *)
Record Fields : Type := mkFields {
  _lValueList : list double;
  SinglePrecision : bool
}.

Definition t : Type := Cell Fields.

Definition isSinglePrecision (self : Fields) : bool := SinglePrecision self.

(** Modelled from the spec: [getSize] and [setValues] are those of the list
    base class [PropertyListsT] (App/Property.h, outside these sources). *)
Definition getSize (self : Fields) : Z := Z.of_nat (length (_lValueList self)).

Definition setValues (newValues : list double) : M t unit :=
  aboutToSetValue;;
  (self ← getFields; setFields (mkFields newValues (SinglePrecision self)));;
  hasSetValue.

Definition getPyValue (item : PyObject) : result double :=
  if PyFloat_Check item then Return (PyFloat_AsDouble item)
  else if PyLong_Check item then Return (double_of_long (PyLong_AsLong item))
  else Throw (TypeError ("type in list must be float, not " ++ tp_name item)).

(** A [const] method: the state threaded is the output stream. *)
Definition SaveDocFile (self : Fields) : M Stream unit :=
  let uCt := getSize self mod 2 ^ 32 in
  write_uint32 uCt;;
  if negb (isSinglePrecision self) then
    for_each (fun it => write_double it) (_lValueList self)
  else
    for_each (fun it => let v := narrow it in write_float v) (_lValueList self).

(** The loops over the [uCt] elements of [values]: each one is assigned what
    is read. *)
Fixpoint read_values (read : M Stream double) (uCt : nat) : M Stream (list double) :=
  match uCt with
  | O => ret []
  | S uCt' =>
      it ← read;
      values ← read_values read uCt';
      ret (it :: values)
  end.

Definition RestoreDocFile : M (t * Stream) unit :=
  uCt ← on_snd read_uint32;
  self ← on_fst getFields;
  values ←
    on_snd (if negb (isSinglePrecision self) then
              read_values read_double (Z.to_nat uCt)
            else
              read_values (val ← read_float; ret (double_of_float (float_of_bits val)))
                          (Z.to_nat uCt));
  on_fst (setValues values).

End PropertyFloatList.

(** ** [Mod/Fem/Gui/ViewProviderFemConstraintFluidBoundary.cpp]

    [updateData] reads the properties of the constraint object, colors the
    [ShapeAppearance] material list by the boundary type, and rebuilds or
    re-orients one separator per point under [pShapeSep]. The build without
    [USE_MULTIPLE_COPY] is modelled (the macro is commented out). *)

Module ViewProviderFemConstraintFluidBoundary.
Section WithExternal.
Context `{External}.

(** What [updateData] uses and these sources do not define: the vectors
    and rotations of Base and Coin3D with the tests and operations applied
    to them, the separators FemGuiTools fills with a placement and a glyph,
    the sizes scaled by the [Scale] property, the alpha
    [setDiffuseColor(r, g, b)] takes by default, and the state and the
    [updateData] of the base class. *)
Context (Vector3d SbVec3f SbRotation SoSeparator ScaleValue BaseClass : Type).
Context (shorter_than_Confusion : Vector3d -> bool)
        (opposite : Vector3d -> Vector3d)
        (to_SbVec3f : Vector3d -> SbVec3f)
        (rotation_from_y : bool -> SbVec3f -> SbRotation)
        (angle_below_half_pi : Vector3d -> Vector3d -> bool)
        (advanced : SbVec3f -> SbVec3f -> float32 -> SbVec3f)
        (times : Z -> ScaleValue -> float32)
        (head_radius : ScaleValue -> float32)
        (new_arrow : SbVec3f -> SbRotation -> float32 -> float32 -> SoSeparator)
        (new_fixed : SbVec3f -> SbRotation -> float32 -> float32 -> SoSeparator)
        (update_arrow : SoSeparator -> SbVec3f -> SbRotation -> float32 -> float32
                        -> SoSeparator)
        (alpha_default : float32).

(** The properties of the constraint object the method reads. *)
Record ConstraintFluidBoundary : Type := mkConstraint {
  Scale : ScaleValue;
  BoundaryType : PropertyEnumeration.t;
  Points : list Vector3d;
  Normals : list Vector3d;
  NormalDirection : Vector3d;
  DirectionVector : Vector3d
}.

(** The property [prop] points at, as far as the method tells them apart. *)
Inductive Changed : Type :=
| prop_BoundaryType | prop_Points | prop_DirectionVector | prop_other.

(** The view provider: the material list, the children of [pShapeSep], and
    the rest of the base class. *)
Record t : Type := mk {
  ShapeAppearance : PropertyMaterialList.t;
  pShapeSep : list SoSeparator;
  base_class : BaseClass
}.

Context (ViewProviderFemConstraint_updateData
           : Changed -> ConstraintFluidBoundary -> M t unit).

(** A method of the material list run on [ShapeAppearance]. *)
Definition on_ShapeAppearance {A} (m : M PropertyMaterialList.t A) : M t A :=
  fun self =>
    let '(res, cell) := m (ShapeAppearance self) in
    (res, mk cell (pShapeSep self) (base_class self)).

Definition set_pShapeSep (children : list SoSeparator) : M t unit :=
  modify (fun self => mk (ShapeAppearance self) children (base_class self)).

(** The floats [0.0] and [1.0]. *)
Definition float_0 : float32 := 0.
Definition float_1 : float32 := 1065353216.

Definition ARROWLENGTH : Z := 4.
Definition WIDTH : Z := 2.
Definition HEIGHT : Z := 1.

(** The loop that re-orients the child at [idx] for each point;
    [getChild] past the last child gives no separator to update. *)
Fixpoint reorient (place : Vector3d -> SbVec3f) (rot : SbRotation)
    (scaledlength scaledheadradius : float32) (idx : nat) (points : list Vector3d)
  : M t unit :=
  match points with
  | [] => ret tt
  | point :: points' =>
      self ← get;
      match pShapeSep self !! idx with
      | Some sep =>
          set_pShapeSep
            (<[idx := update_arrow sep (place point) rot scaledlength scaledheadradius]>
               (pShapeSep self));;
          reorient place rot scaledlength scaledheadradius (S idx) points'
      | None => throw Undefined
      end
  end.

(** The method up to its last statement; the result tells whether it left
    through the early [return]. *)
Definition redraw (pcConstraint : ConstraintFluidBoundary) (prop : Changed) : M t bool :=
  let scaledwidth := times WIDTH (Scale pcConstraint) in
  let scaledheight := times HEIGHT (Scale pcConstraint) in
  let scaledheadradius := head_radius (Scale pcConstraint) in
  let scaledlength := times ARROWLENGTH (Scale pcConstraint) in
  boundaryType ←
    match PropertyEnumeration.getValueAsString (BoundaryType pcConstraint) with
    | (Return (Some s), _) => ret s
    | (Return None, _) => throw Undefined
    | (Throw e, _) => throw e
    end;
  let equals s := String.eqb boundaryType s in
  (match prop with
   | prop_BoundaryType =>
       on_ShapeAppearance
         (if equals "wall" then
            PropertyMaterialList.setDiffuseColor_rgba float_0 float_1 float_1 alpha_default
          else if equals "interface" then
            PropertyMaterialList.setDiffuseColor_rgba float_0 float_1 float_0 alpha_default
          else if equals "freestream" then
            PropertyMaterialList.setDiffuseColor_rgba float_1 float_1 float_0 alpha_default
          else if equals "inlet" then
            PropertyMaterialList.setDiffuseColor_rgba float_1 float_0 float_0 alpha_default
          else
            PropertyMaterialList.setDiffuseColor_rgba float_0 float_0 float_1 alpha_default)
   | _ => ret tt
   end);;
  if equals "inlet" || equals "outlet" then
    match prop with
    | prop_Points =>
        let points := Points pcConstraint in
        set_pShapeSep [];;
        let normal := NormalDirection pcConstraint in
        let forceDirection := DirectionVector pcConstraint in
        let forceDirection :=
          if shorter_than_Confusion forceDirection then normal else forceDirection in
        let dir := to_SbVec3f forceDirection in
        let rot := rotation_from_y true dir in
        for_each (fun point =>
                    let base := to_SbVec3f point in
                    let base := if angle_below_half_pi forceDirection normal
                                then advanced base dir scaledlength else base in
                    self ← get;
                    set_pShapeSep (pShapeSep self
                                   ++ [new_arrow base rot scaledlength scaledheadradius]))
                 points;;
        ret false
    | prop_DirectionVector =>
        let normal := NormalDirection pcConstraint in
        let forceDirection := DirectionVector pcConstraint in
        let forceDirection :=
          if shorter_than_Confusion forceDirection then
            if equals "inlet" then opposite normal else normal
          else forceDirection in
        let dir := to_SbVec3f forceDirection in
        let rot := rotation_from_y true dir in
        let points := Points pcConstraint in
        reorient (fun point =>
                    let base := to_SbVec3f point in
                    if angle_below_half_pi forceDirection normal
                    then advanced base dir scaledlength else base)
                 rot scaledlength scaledheadradius 0 points;;
        ret false
    | _ => ret false
    end
  else
    match prop with
    | prop_Points =>
        let points := Points pcConstraint in
        let normals := Normals pcConstraint in
        if negb (length points =? length normals)%nat then ret true
        else
          set_pShapeSep [];;
          for_each (fun pn =>
                      let base := to_SbVec3f (fst pn) in
                      let dir := to_SbVec3f (snd pn) in
                      let rot := rotation_from_y false dir in
                      self ← get;
                      set_pShapeSep (pShapeSep self
                                     ++ [new_fixed base rot scaledheight scaledwidth]))
                   (zip points normals);;
          ret false
    | _ => ret false
    end.

Definition updateData (pcConstraint : ConstraintFluidBoundary) (prop : Changed) : M t unit :=
  bind (redraw pcConstraint prop)
       (fun returned : bool =>
          if returned then ret tt
          else ViewProviderFemConstraint_updateData prop pcConstraint).

End WithExternal.

Arguments mkConstraint {Vector3d ScaleValue}.
Arguments Scale {Vector3d ScaleValue}.
Arguments BoundaryType {Vector3d ScaleValue}.
Arguments Points {Vector3d ScaleValue}.
Arguments Normals {Vector3d ScaleValue}.
Arguments NormalDirection {Vector3d ScaleValue}.
Arguments DirectionVector {Vector3d ScaleValue}.
Arguments mk {SoSeparator BaseClass}.
Arguments ShapeAppearance {SoSeparator BaseClass}.
Arguments pShapeSep {SoSeparator BaseClass}.
Arguments base_class {SoSeparator BaseClass}.
Arguments on_ShapeAppearance {SoSeparator BaseClass A}.
Arguments set_pShapeSep {SoSeparator BaseClass}.
Arguments reorient {Vector3d SbVec3f SbRotation SoSeparator BaseClass}.
Arguments redraw {H Vector3d SbVec3f SbRotation SoSeparator ScaleValue BaseClass}.
Arguments updateData {H Vector3d SbVec3f SbRotation SoSeparator ScaleValue BaseClass}.

End ViewProviderFemConstraintFluidBoundary.

(** ** Vocabulary of the specification *)

(** The specification's [clamp(x, lo, hi)], on integers and (after
    [std::clamp]) on doubles. *)
Definition clamp (x lo hi : Z) : Z := Z.max lo (Z.min x hi).

Definition dclamp (x lo hi : double) : double :=
  if dlt x lo then lo else if dlt hi x then hi else x.

(** The double a plain numeric dynamic value denotes. *)
Definition numeric_as_double (x : PyObject) : double :=
  match x with
  | PyFloat d => d
  | _ => double_of_long (int_value x)
  end.

(** A plain numeric dynamic value of the cell's range: a float, or an
    integer that fits a C [long]. *)
Definition plain_int (x : PyObject) : Prop :=
  PyLong_Check x = true /\ in_long (int_value x) = true.

Definition plain_numeric (x : PyObject) : Prop :=
  PyFloat_Check x = true \/ plain_int x.

(** The magnitude [round] returns for [m * 2^e]: the nearest integer, the
    halfway case going up in magnitude, that is away from zero. *)
Definition nearest_half_up (m : positive) (e : Z) (mag : Z) : Prop :=
  if 0 <=? e then mag = Zpos m * 2 ^ e
  else 2 * mag * 2 ^ (- e) - 2 ^ (- e) <= 2 * Zpos m < 2 * mag * 2 ^ (- e) + 2 ^ (- e).

(** The root path: no sub-path. *)
Definition root_path : ObjectIdentifier := {| getSubPathStr := "" |}.

(** The [(value, min, max, step)] a dict or tuple hands to the constrained
    cells, when it parses. *)
Definition descriptor_args_l (value : PyObject) : option (Z * Z * Z * Z) :=
  match value with
  | PyDict d => parse_keywords parse_l d (0, INT_MIN, INT_MAX, 1)
  | PyTuple items => parse_tuple4 parse_l items
  | _ => None
  end.

Definition descriptor_args_d (value : PyObject)
  : option (double * double * double * double) :=
  match value with
  | PyDict d => parse_keywords parse_d d (double_zero, DBL_LOWEST, DBL_MAX, double_one)
  | PyTuple items => parse_tuple4 parse_d items
  | _ => None
  end.

(** A cell is unattached when its qualified name begins with ['?']. *)
Definition unattached {V} (c : Cell V) : bool :=
  match FullName c with
  | String a _ => Ascii.eqb a "?"
  | EmptyString => false
  end.

(** How many times a hook occurs in a record of fired hooks. *)
Definition count_hook (h : Hook) (l : list Hook) : nat :=
  length (filter (fun h' => h' = h) l).

(** The label the selection of an enumeration cell points at. *)
Definition labels_lookup (c : PropertyEnumeration.t) : option string :=
  Enumeration.labels (fields c) !! Z.to_nat (Enumeration._index (fields c)).

(** The field-level setters of the material list come in fourteen forms,
    told apart by the field and by how the value is supplied; each form has
    a broadcast setter and an index-qualified one. *)
Inductive FieldSetter : Type :=
| AmbientColor (col : Color)
| AmbientColor_rgba (r g b a : float32)
| AmbientColor_packed (rgba : Z)
| DiffuseColor (col : Color)
| DiffuseColor_rgba (r g b a : float32)
| DiffuseColor_packed (rgba : Z)
| SpecularColor (col : Color)
| SpecularColor_rgba (r g b a : float32)
| SpecularColor_packed (rgba : Z)
| EmissiveColor (col : Color)
| EmissiveColor_rgba (r g b a : float32)
| EmissiveColor_packed (rgba : Z)
| Shininess (val : float32)
| Transparency (val : float32).

Definition call_indexed `{External} (s : FieldSetter) (index : Z)
  : M PropertyMaterialList.t unit :=
  match s with
  | AmbientColor col => PropertyMaterialList.setAmbientColor_at index col
  | AmbientColor_rgba r g b a => PropertyMaterialList.setAmbientColor_at_rgba index r g b a
  | AmbientColor_packed rgba => PropertyMaterialList.setAmbientColor_at_packed index rgba
  | DiffuseColor col => PropertyMaterialList.setDiffuseColor_at index col
  | DiffuseColor_rgba r g b a => PropertyMaterialList.setDiffuseColor_at_rgba index r g b a
  | DiffuseColor_packed rgba => PropertyMaterialList.setDiffuseColor_at_packed index rgba
  | SpecularColor col => PropertyMaterialList.setSpecularColor_at index col
  | SpecularColor_rgba r g b a => PropertyMaterialList.setSpecularColor_at_rgba index r g b a
  | SpecularColor_packed rgba => PropertyMaterialList.setSpecularColor_at_packed index rgba
  | EmissiveColor col => PropertyMaterialList.setEmissiveColor_at index col
  | EmissiveColor_rgba r g b a => PropertyMaterialList.setEmissiveColor_at_rgba index r g b a
  | EmissiveColor_packed rgba => PropertyMaterialList.setEmissiveColor_at_packed index rgba
  | Shininess val => PropertyMaterialList.setShininess_at index val
  | Transparency val => PropertyMaterialList.setTransparency_at index val
  end.

Definition call_broadcast `{External} (s : FieldSetter) : M PropertyMaterialList.t unit :=
  match s with
  | AmbientColor col => PropertyMaterialList.setAmbientColor col
  | AmbientColor_rgba r g b a => PropertyMaterialList.setAmbientColor_rgba r g b a
  | AmbientColor_packed rgba => PropertyMaterialList.setAmbientColor_packed rgba
  | DiffuseColor col => PropertyMaterialList.setDiffuseColor col
  | DiffuseColor_rgba r g b a => PropertyMaterialList.setDiffuseColor_rgba r g b a
  | DiffuseColor_packed rgba => PropertyMaterialList.setDiffuseColor_packed rgba
  | SpecularColor col => PropertyMaterialList.setSpecularColor col
  | SpecularColor_rgba r g b a => PropertyMaterialList.setSpecularColor_rgba r g b a
  | SpecularColor_packed rgba => PropertyMaterialList.setSpecularColor_packed rgba
  | EmissiveColor col => PropertyMaterialList.setEmissiveColor col
  | EmissiveColor_rgba r g b a => PropertyMaterialList.setEmissiveColor_rgba r g b a
  | EmissiveColor_packed rgba => PropertyMaterialList.setEmissiveColor_packed rgba
  | Shininess val => PropertyMaterialList.setShininess val
  | Transparency val => PropertyMaterialList.setTransparency val
  end.

(** The targeted field of [m] equals the supplied value. *)
Definition targeted_field_set `{External} (s : FieldSetter) (m : Material) : Prop :=
  match s with
  | AmbientColor col => ambientColor m = col
  | AmbientColor_rgba r g b a => ambientColor m = mkColor r g b a
  | AmbientColor_packed rgba => ambientColor m = setPackedValue rgba
  | DiffuseColor col => diffuseColor m = col
  | DiffuseColor_rgba r g b a => diffuseColor m = mkColor r g b a
  | DiffuseColor_packed rgba => diffuseColor m = setPackedValue rgba
  | SpecularColor col => specularColor m = col
  | SpecularColor_rgba r g b a => specularColor m = mkColor r g b a
  | SpecularColor_packed rgba => specularColor m = setPackedValue rgba
  | EmissiveColor col => emissiveColor m = col
  | EmissiveColor_rgba r g b a => emissiveColor m = mkColor r g b a
  | EmissiveColor_packed rgba => emissiveColor m = setPackedValue rgba
  | Shininess val => shininess m = val
  | Transparency val => transparency m = val
  end.

(** The elements of a material-list cell, and their number. *)
Definition elements `{External} (c : PropertyMaterialList.t) : list Material :=
  PropertyMaterialList._lValueList (fields c).

Definition size `{External} (c : PropertyMaterialList.t) : Z :=
  Z.of_nat (length (elements c)).

(** A material-list cell seen as a property object, and [Paste] called on
    it. *)
Definition as_Property (c : PropertyMaterialList.t) : Cell Property :=
  mkCell (PropertyMaterialList_ (fields c)) (hooks c) (FullName c).

Definition call_Paste `{External} (from : Property) : M PropertyMaterialList.t unit :=
  fun c =>
    let '(res, c') := Paste from (as_Property c) in
    (res, match fields c' with
          | PropertyMaterialList_ f => mkCell f (hooks c') (FullName c')
          | _ => c
          end).

(** [RestoreDocFile] called on the cell with a reader holding [reader]. *)
Definition call_RestoreDocFile `{External} (reader : Stream)
  : M PropertyMaterialList.t unit :=
  fun c =>
    let '(res, (c', _)) := PropertyMaterialList.RestoreDocFile (c, reader) in (res, c').

(** The mutators of the material list, with their arguments. *)
Inductive Mutator : Type :=
| call_setValues (newValues : list Material)
| call_setValue
| call_setValue_mat (mat : Material)
| call_setValue_at (index : Z) (mat : Material)
| call_field (s : FieldSetter)
| call_field_at (s : FieldSetter) (index : Z)
| call_setDiffuseColors (colors : list Color)
| call_setTransparencies (transparencies : list float32)
| call_Paste_from (from : Property)
| call_RestoreDocFile_on (reader : Stream).

Definition call `{External} (mu : Mutator) : M PropertyMaterialList.t unit :=
  match mu with
  | call_setValues newValues => PropertyMaterialList.setValues newValues
  | call_setValue => PropertyMaterialList.setValue
  | call_setValue_mat mat => PropertyMaterialList.setValue_mat mat
  | call_setValue_at index mat => PropertyMaterialList.setValue_at index mat
  | call_field s => call_broadcast s
  | call_field_at s index => call_indexed s index
  | call_setDiffuseColors colors => PropertyMaterialList.setDiffuseColors colors
  | call_setTransparencies transparencies =>
      PropertyMaterialList.setTransparencies transparencies
  | call_Paste_from from => call_Paste from
  | call_RestoreDocFile_on reader => call_RestoreDocFile reader
  end.

(** A bulk setter handed an empty collection. *)
Definition empty_bulk (mu : Mutator) : bool :=
  match mu with
  | call_setDiffuseColors [] | call_setTransparencies [] => true
  | _ => false
  end.

(** An instance of [External] to run the definitions on: a channel is kept
    as an 8-bit level, a packed color is its four levels, and a new material
    is black. *)
Definition levels_External : External :=
  {| getPackedValue col :=
       (r col mod 256) * 2 ^ 24 + (g col mod 256) * 2 ^ 16
       + (b col mod 256) * 2 ^ 8 + a col mod 256;
     setPackedValue v :=
       mkColor (v / 2 ^ 24 mod 256) (v / 2 ^ 16 mod 256) (v / 2 ^ 8 mod 256) (v mod 256);
     default_ambient := mkColor 0 0 0 255;
     default_diffuse := mkColor 0 0 0 255;
     default_specular := mkColor 0 0 0 255;
     default_emissive := mkColor 0 0 0 255;
     default_shininess := 0;
     default_transparency := 0 |}.

(** The bytes [SaveDocFile] is specified to write for one element: the six
    fixed-size fields, and the three length-prefixed strings. *)
Definition fixed_record `{External} (it : Material) : list Byte.byte :=
  encode_uint32 (getPackedValue (ambientColor it))
  ++ encode_uint32 (getPackedValue (diffuseColor it))
  ++ encode_uint32 (getPackedValue (specularColor it))
  ++ encode_uint32 (getPackedValue (emissiveColor it))
  ++ encode_uint32 (shininess it)
  ++ encode_uint32 (transparency it).

Definition length_prefixed (s : string) : list Byte.byte :=
  encode_uint32 (string_size s) ++ list_byte_of_string s.

Definition string_record (it : Material) : list Byte.byte :=
  length_prefixed (image it) ++ length_prefixed (imagePath it) ++ length_prefixed (uuid it).

(** The three strings of a material. *)
Definition strings (it : Material) : string * string * string :=
  (image it, imagePath it, uuid it).

(** The counts the format stores in 32 bits can hold the list and its
    strings. *)
Definition fits_uint32 (n : Z) : Prop := 0 <= n < 2 ^ 32.

Definition storable (l : list Material) : Prop :=
  fits_uint32 (Z.of_nat (length l)) /\
  Forall (fun it => fits_uint32 (string_size (image it)) /\
                    fits_uint32 (string_size (imagePath it)) /\
                    fits_uint32 (string_size (uuid it))) l.

(** The output of [SaveDocFile] on an empty stream. *)
Definition saved `{External} (self : PropertyMaterialList.Fields) : Stream :=
  exec (PropertyMaterialList.SaveDocFile self) [].

(** What the reader makes of the fixed-size fields written for [it], read
    into the element [d]: 32-bit fields come back reduced modulo [2^32],
    colors through their packed form; the strings of [d] stay. *)
Definition reread_fixed `{External} (it d : Material) : Material :=
  mkMaterial
    (setPackedValue (getPackedValue (ambientColor it) mod 2 ^ 32))
    (setPackedValue (getPackedValue (diffuseColor it) mod 2 ^ 32))
    (setPackedValue (getPackedValue (specularColor it) mod 2 ^ 32))
    (setPackedValue (getPackedValue (emissiveColor it) mod 2 ^ 32))
    (shininess it mod 2 ^ 32) (transparency it mod 2 ^ 32)
    (image d) (imagePath d) (uuid d).

(** [v] with the three strings of [it]. *)
Definition with_strings (it v : Material) : Material :=
  set_uuid (uuid it) (set_imagePath (imagePath it) (set_image (image it) v)).

(** The three strings are empty. *)
Definition no_strings (it : Material) : Prop := strings it = ("", "", "").

(** The class whose [Paste] a cell of class [k] runs, which is the class
    that [Paste] casts its argument to: the integer, float and string
    families inherit the [Paste] of their base class, except
    [PropertyPersistentObject], which overrides it. *)
Definition paste_class (k : Class) : Class :=
  match k with
  | cPropertyIntegerConstraint | cPropertyPercent => cPropertyInteger
  | cPropertyFloatConstraint | cPropertyPrecision => cPropertyFloat
  | cPropertyFont => cPropertyString
  | k => k
  end.

(** The value a cell holds, apart from its descriptor, its format version
    and its container. *)
Inductive Value : Type :=
| VLong (v : Z)
| VDouble (v : double)
| VText (v : string)
| VEnumeration (v : Enumeration.t)
| VLongs (v : list Z)
| VLongSet (v : gset Z)
| VDoubles (v : list double)
| VTexts (v : list string)
| VMap (v : gmap string string)
| VBool (v : bool)
| VBools (v : list bool)
| VColor (v : Color)
| VColors (v : list Color)
| VMaterial (v : Material)
| VMaterials (v : list Material)
| VObject (type : string) (object : option Z).

Definition value_of (p : Property) : Value :=
  match p with
  | PropertyInteger_ v | PropertyIntegerConstraint_ v _ | PropertyPercent_ v _ => VLong v
  | PropertyPath_ v | PropertyUUID_ v => VText v
  | PropertyEnumeration_ v => VEnumeration v
  | PropertyIntegerList_ v => VLongs v
  | PropertyIntegerSet_ v => VLongSet v
  | PropertyFloat_ v | PropertyFloatConstraint_ v _ | PropertyPrecision_ v _ => VDouble v
  | PropertyFloatList_ v => VDoubles v
  | PropertyString_ f | PropertyFont_ f => VText (PropertyString._cValue f)
  | PropertyStringList_ v => VTexts v
  | PropertyMap_ v => VMap v
  | PropertyBool_ v => VBool v
  | PropertyBoolList_ v => VBools v
  | PropertyColor_ v => VColor v
  | PropertyColorList_ v => VColors v
  | PropertyMaterial_ v => VMaterial v
  | PropertyMaterialList_ f => VMaterials (PropertyMaterialList._lValueList f)
  | PropertyPersistentObject_ f o => VObject (PropertyString._cValue f) o
  end.

(** The cells whose [Paste] compares before it assigns. *)
Definition compares_first (p : Property) : bool :=
  match p with
  | PropertyString_ _ | PropertyFont_ _ | PropertyPersistentObject_ _ _ => true
  | _ => false
  end.

(** The cell is not the [Label] of a document object. *)
Definition unlabelled (p : Property) : Prop :=
  match p with
  | PropertyString_ f | PropertyFont_ f => PropertyString.Label f = None
  | _ => True
  end.

(** The text of a string cell has no embedded NUL character. *)
Definition nul_free (p : Property) : Prop :=
  match p with
  | PropertyString_ f | PropertyFont_ f =>
      PropertyString.c_str (PropertyString._cValue f) = PropertyString._cValue f
  | _ => True
  end.

(** The cell is the [Label] of a document object whose hook is [h]. *)
Definition labelled (p : Property) (h : string -> string) : Prop :=
  match p with
  | PropertyString_ f | PropertyFont_ f => PropertyString.Label f = Some h
  | _ => False
  end.

(** The field of a material a field setter targets. *)
Inductive FieldName : Type :=
| fAmbientColor | fDiffuseColor | fSpecularColor | fEmissiveColor
| fShininess | fTransparency.

Definition target (s : FieldSetter) : FieldName :=
  match s with
  | AmbientColor _ | AmbientColor_rgba _ _ _ _ | AmbientColor_packed _ => fAmbientColor
  | DiffuseColor _ | DiffuseColor_rgba _ _ _ _ | DiffuseColor_packed _ => fDiffuseColor
  | SpecularColor _ | SpecularColor_rgba _ _ _ _ | SpecularColor_packed _ => fSpecularColor
  | EmissiveColor _ | EmissiveColor_rgba _ _ _ _ | EmissiveColor_packed _ => fEmissiveColor
  | Shininess _ => fShininess
  | Transparency _ => fTransparency
  end.

(** [m'] agrees with [m] on every field other than [fn]. *)
Definition same_but (fn : FieldName) (m m' : Material) : Prop :=
  (fn <> fAmbientColor -> ambientColor m' = ambientColor m) /\
  (fn <> fDiffuseColor -> diffuseColor m' = diffuseColor m) /\
  (fn <> fSpecularColor -> specularColor m' = specularColor m) /\
  (fn <> fEmissiveColor -> emissiveColor m' = emissiveColor m) /\
  (fn <> fShininess -> shininess m' = shininess m) /\
  (fn <> fTransparency -> transparency m' = transparency m) /\
  strings m' = strings m.

(** A color the packed 32-bit form represents exactly, and a material whose
    fixed-size fields the binary format represents exactly: its colors are
    such, and its two floats are 32-bit patterns. *)
Definition pack_stable `{External} (col : Color) : Prop :=
  setPackedValue (getPackedValue col mod 2 ^ 32) = col.

Definition exactly_representable `{External} (it : Material) : Prop :=
  pack_stable (ambientColor it) /\ pack_stable (diffuseColor it) /\
  pack_stable (specularColor it) /\ pack_stable (emissiveColor it) /\
  fits_uint32 (shininess it) /\ fits_uint32 (transparency it).

(** The entries a dictionary of strings hands to the map cell: each key and
    each value as the C string the conversion keeps. *)
Definition map_entries (items : list (PyObject * PyObject)) : list (string * string) :=
  (fun kv => (PyUnicode_AsUTF8 (fst kv), PyUnicode_AsUTF8 (snd kv))) <$> items.

(** Both the key and the value of an item are strings. *)
Definition str_item (kv : PyObject * PyObject) : Prop :=
  PyUnicode_Check (fst kv) = true /\ PyUnicode_Check (snd kv) = true.

(** The color a tuple of three or four items denotes, each channel being
    read by [read]; the fourth channel is that of [dflt] when the tuple has
    three items. *)
Definition color_of_items (read : PyObject -> float32) (dflt : Color)
    (items : list PyObject) : Color :=
  match items with
  | [item0; item1; item2] => mkColor (read item0) (read item1) (read item2) (a dflt)
  | [item0; item1; item2; item3] =>
      mkColor (read item0) (read item1) (read item2) (read item3)
  | _ => dflt
  end.

(** A tuple has the size of a color: three or four items. *)
Definition color_sized (items : list PyObject) : Prop :=
  length items = 3%nat \/ length items = 4%nat.

(** An instance of [EnumerationExternal] to run the definitions on: the
    range check refuses an index outside the labels, a label selects its
    first position, only an int converts to an index and only a string to a
    label. *)
Definition checked_EnumerationExternal : EnumerationExternal :=
  {| setValue_checked idx e :=
       if (0 <=? idx) && (idx <? Z.of_nat (length (Enumeration.labels e)))
       then Return (Enumeration.mk idx (Enumeration.labels e) (Enumeration.isCustom e))
       else Throw (ValueError "Out of range");
     setValue_label s e :=
       Enumeration.mk
         (default 0 (Z.of_nat <$> list_find (fun l => l = s) (Enumeration.labels e) ≫= Some ∘ fst))
         (Enumeration.labels e) (Enumeration.isCustom e);
     Py_Long o := if PyLong_Check o then Return (int_value o) else Throw PyException;
     py_str _ := Throw PyException |}.

(** The text of each item of a list of strings. *)
Definition texts (items : list PyObject) : list string :=
  (fun item => match item with PyUnicode s => s | _ => EmptyString end) <$> items.

(** A double in canonical form: its mantissa and exponent are those of a
    binary64 number. *)
Definition valid_double (x : double) : Prop := valid_binary prec64 emax64 x = true.

(** What comes back of a double written in single precision: the four
    bytes of the narrowed value, read as a float and widened. *)
Definition through_single (d : double) : double :=
  double_of_float (float_of_bits (narrow d mod 2 ^ 32)).

(** The bytes [SaveDocFile] writes for one element of a float list, and the
    double [RestoreDocFile] makes of them, in single or in full precision. *)
Definition element_record (single : bool) (it : double) : list Byte.byte :=
  if single then encode_uint32 (narrow it)
  else encode_uint32 (bits_of_double it mod 2 ^ 32) ++ encode_uint32 (bits_of_double it / 2 ^ 32).

Definition element_read_back (single : bool) (it : double) : double :=
  if single then through_single it
  else double_of_bits (bits_of_double it mod 2 ^ 64).

(** The value a field setter supplies, and the getters of the material
    list by the field they read. *)
Inductive FieldValue : Type :=
| ColorValue (col : Color)
| FloatValue (val : float32).

Definition supplied `{External} (s : FieldSetter) : FieldValue :=
  match s with
  | AmbientColor col | DiffuseColor col | SpecularColor col | EmissiveColor col =>
      ColorValue col
  | AmbientColor_rgba r g b a | DiffuseColor_rgba r g b a
  | SpecularColor_rgba r g b a | EmissiveColor_rgba r g b a => ColorValue (mkColor r g b a)
  | AmbientColor_packed rgba | DiffuseColor_packed rgba
  | SpecularColor_packed rgba | EmissiveColor_packed rgba => ColorValue (setPackedValue rgba)
  | Shininess val | Transparency val => FloatValue val
  end.

Definition field_of (fn : FieldName) (m : Material) : FieldValue :=
  match fn with
  | fAmbientColor => ColorValue (ambientColor m)
  | fDiffuseColor => ColorValue (diffuseColor m)
  | fSpecularColor => ColorValue (specularColor m)
  | fEmissiveColor => ColorValue (emissiveColor m)
  | fShininess => FloatValue (shininess m)
  | fTransparency => FloatValue (transparency m)
  end.

Definition call_getter `{External} (fn : FieldName) : M PropertyMaterialList.t FieldValue :=
  match fn with
  | fAmbientColor => col ← PropertyMaterialList_getAmbientColor; ret (ColorValue col)
  | fDiffuseColor => col ← PropertyMaterialList_getDiffuseColor; ret (ColorValue col)
  | fSpecularColor => col ← PropertyMaterialList_getSpecularColor; ret (ColorValue col)
  | fEmissiveColor => col ← PropertyMaterialList_getEmissiveColor; ret (ColorValue col)
  | fShininess => val ← PropertyMaterialList_getShininess; ret (FloatValue val)
  | fTransparency => val ← PropertyMaterialList_getTransparency; ret (FloatValue val)
  end.

Definition call_getter_at `{External} (fn : FieldName) (index : Z)
  : M PropertyMaterialList.t FieldValue :=
  match fn with
  | fAmbientColor => col ← PropertyMaterialList_getAmbientColor_at index; ret (ColorValue col)
  | fDiffuseColor => col ← PropertyMaterialList_getDiffuseColor_at index; ret (ColorValue col)
  | fSpecularColor => col ← PropertyMaterialList_getSpecularColor_at index; ret (ColorValue col)
  | fEmissiveColor => col ← PropertyMaterialList_getEmissiveColor_at index; ret (ColorValue col)
  | fShininess => val ← PropertyMaterialList_getShininess_at index; ret (FloatValue val)
  | fTransparency => val ← PropertyMaterialList_getTransparency_at index; ret (FloatValue val)
  end.

(** The diffuse color [updateData] gives the glyphs of a boundary type; any
    type other than the four named ones is colored as an outlet. *)
Definition boundary_color (alpha : float32) (boundaryType : string) : Color :=
  let zero := ViewProviderFemConstraintFluidBoundary.float_0 in
  let one := ViewProviderFemConstraintFluidBoundary.float_1 in
  if String.eqb boundaryType "wall" then mkColor zero one one alpha
  else if String.eqb boundaryType "interface" then mkColor zero one zero alpha
  else if String.eqb boundaryType "freestream" then mkColor one one zero alpha
  else if String.eqb boundaryType "inlet" then mkColor one zero zero alpha
  else mkColor zero zero one alpha.

(** The boundary types drawn as arrows; the others are drawn as fixed
    markers. *)
Definition drawn_as_arrows (boundaryType : string) : bool :=
  String.eqb boundaryType "inlet" || String.eqb boundaryType "outlet".

(** A scene on a line, to run [updateData] on: vectors, rotations and
    glyphs are integers, the boundary type is one of two labels, and the base
    class keeps no state. *)
Definition line_appearance : PropertyMaterialList.t :=
  mkCell (PropertyMaterialList.mkFields [] 3) [] "Doc#Inlet.ShapeAppearance".

Definition line_boundary (index : Z) : PropertyEnumeration.t :=
  mkCell (Enumeration.mk index ["wall"; "inlet"] false) [] "Doc#Inlet.BoundaryType".

Definition line_constraint (index : Z) (points normals : list Z)
  : ViewProviderFemConstraintFluidBoundary.ConstraintFluidBoundary Z Z :=
  ViewProviderFemConstraintFluidBoundary.mkConstraint
    2 (line_boundary index) points normals 1 0.

Definition line_view (children : list Z) : ViewProviderFemConstraintFluidBoundary.t Z unit :=
  ViewProviderFemConstraintFluidBoundary.mk line_appearance children tt.

Definition line_updateData
  : ViewProviderFemConstraintFluidBoundary.ConstraintFluidBoundary Z Z ->
    ViewProviderFemConstraintFluidBoundary.Changed ->
    M (ViewProviderFemConstraintFluidBoundary.t Z unit) unit :=
  ViewProviderFemConstraintFluidBoundary.updateData (H := levels_External)
    (fun d : Z => d =? 0) Z.opp (fun p : Z => p)
    (fun (up : bool) (d : Z) => if up then d else - d)
    (fun a b : Z => 0 <? a * b) (fun base dir len : Z => base + dir * len)
    Z.mul (fun scale : Z => scale)
    (fun base rot len radius : Z => base) (fun base rot height width : Z => - base)
    (fun sep base rot len radius : Z => sep + base) 1065353216
    (fun _ _ => ret tt).

(** The mutator that reads the cell from a binary stream. *)
Definition reads_stream (mu : Mutator) : bool :=
  match mu with
  | call_RestoreDocFile_on _ => true
  | _ => false
  end.

(** * Properties *)

(** Runs the monadic plumbing of a method on an explicit cell. *)
Ltac run_method :=
  cbv beta iota zeta delta
    [mbind M_bind bind ret throw get put modify aboutToSetValue hasSetValue
     getFields setFields getFullName fire fst snd negb fields hooks FullName].

(** The same, for methods of the material list. *)
Ltac run_list :=
  cbv beta iota zeta delta
    [mbind M_bind bind ret throw get put modify aboutToSetValue hasSetValue
     getFields setFields getFullName fire fst snd negb fields hooks FullName
     PropertyMaterialList._lValueList PropertyMaterialList.formatVersion].

(** ** Order lemmas on doubles *)

Lemma SFcompare_lt_gt (x y z : double) :
  SFltb x y = true -> SFltb y z = true -> SFleb z x = false.
Proof.
  unfold SFltb, SFleb.
  destruct x as [sx|sx| |sx mx ex], y as [sy|sy| |sy my ey], z as [sz|sz| |sz mz ez];
    simpl; try discriminate; try reflexivity;
    repeat match goal with b : bool |- _ => destruct b end;
    simpl; try discriminate; try reflexivity.
  all: change (Pos.compare_cont Eq) with Pos.compare.
  all: destruct (Z.compare_spec ex ey), (Z.compare_spec ey ez), (Z.compare_spec ez ex);
    simpl; try discriminate; try reflexivity; try lia.
  all: subst.
  all: destruct (Pos.compare_spec mx my), (Pos.compare_spec my mz), (Pos.compare_spec mz mx);
    simpl; try discriminate; try reflexivity; try lia.
Qed.

(** ** Clamping in the constrained cells *)

Lemma PyLong_AsLong_plain (x : PyObject) :
  plain_int x -> PyLong_AsLong x = int_value x.
Proof. intros [_ H]. unfold PyLong_AsLong. now rewrite H. Qed.

Lemma dclamp_code (x lo hi : double) :
  dle lo hi = true ->
  (if dlt hi x then hi else if dlt x lo then lo else x) = dclamp x lo hi.
Proof.
  intros Hle. unfold dclamp.
  destruct (dlt hi x) eqn:Hhi, (dlt x lo) eqn:Hlo; try reflexivity.
  pose proof (SFcompare_lt_gt _ _ _ Hhi Hlo) as Hc.
  unfold dle in Hle. congruence.
Qed.

Lemma clamp_code (x lo hi : Z) :
  lo <= hi ->
  (if hi <? x then hi else if x <? lo then lo else x) = clamp x lo hi.
Proof.
  intros Hle. unfold clamp.
  destruct (Z.ltb_spec hi x), (Z.ltb_spec x lo); lia.
Qed.

Lemma IntegerConstraint_setPyObject_long (x : PyObject) (c : PropertyIntegerConstraint.t) :
  PyLong_Check x = true ->
  PropertyIntegerConstraint.setPyObject x c =
  (Return tt,
   mkCell (PropertyIntegerConstraint.mkFields
             (match PropertyIntegerConstraint._ConstStruct (fields c) with
              | Some cs =>
                  if UpperBound cs <? PyLong_AsLong x then UpperBound cs
                  else if PyLong_AsLong x <? LowerBound cs then LowerBound cs
                  else PyLong_AsLong x
              | None => PyLong_AsLong x
              end)
             (PropertyIntegerConstraint._ConstStruct (fields c)))
          ((hooks c ++ [AboutToSetValue]) ++ [HasSetValue]) (FullName c)).
Proof.
  intros Hx. unfold PropertyIntegerConstraint.setPyObject. rewrite Hx.
  destruct c as [[v cs] hs fn]. reflexivity.
Qed.

Lemma FloatConstraint_setPyObject_numeric (x : PyObject) (c : PropertyFloatConstraint.t) :
  PyFloat_Check x = true \/ PyLong_Check x = true ->
  let temp := if PyFloat_Check x then PyFloat_AsDouble x
              else double_of_long (PyLong_AsLong x) in
  PropertyFloatConstraint.setPyObject x c =
  (Return tt,
   mkCell (PropertyFloatConstraint.mkFields
             (match PropertyFloatConstraint._ConstStruct (fields c) with
              | Some cs =>
                  if dlt (UpperBound cs) temp then UpperBound cs
                  else if dlt temp (LowerBound cs) then LowerBound cs
                  else temp
              | None => temp
              end)
             (PropertyFloatConstraint._ConstStruct (fields c)))
          ((hooks c ++ [AboutToSetValue]) ++ [HasSetValue]) (FullName c)).
Proof.
  intros Hx temp. subst temp. unfold PropertyFloatConstraint.setPyObject.
  destruct c as [[v cs] hs fn].
  destruct (PyFloat_Check x) eqn:Hf.
  - reflexivity.
  - destruct Hx as [Hx|Hx]; [discriminate|]. rewrite Hx. reflexivity.
Qed.

Lemma numeric_as_double_code (x : PyObject) :
  plain_numeric x ->
  (if PyFloat_Check x then PyFloat_AsDouble x else double_of_long (PyLong_AsLong x))
  = numeric_as_double x.
Proof.
  intros [Hf|Hi].
  - rewrite Hf. destruct x; try discriminate. reflexivity.
  - rewrite (PyLong_AsLong_plain _ Hi). destruct Hi as [Hl _].
    destruct x; try discriminate; reflexivity.
Qed.

(** C1, as the code has it. With a descriptor [lo, hi] installed
    ([lo <= hi]), [setPyObject] returns normally and leaves the cell's value
    equal to [clamp(x, lo, hi)] for an int [x] on the integer cell, and for
    a float or an int [x] on the floating cell (an int being one that fits a C
    [long]); with no descriptor installed the value is stored unchanged. A
    float assigned to the integer cell, with or without a descriptor, is
    rejected with a type error naming the type, and the cell is left as it
    was. *)
Theorem constrained_setPyObject_clamps :
  (forall (c : PropertyIntegerConstraint.t) (cs : Constraints Z) (x : PyObject),
      PropertyIntegerConstraint._ConstStruct (fields c) = Some cs ->
      LowerBound cs <= UpperBound cs ->
      plain_int x ->
      returns (PropertyIntegerConstraint.setPyObject x) c /\
      PropertyIntegerConstraint.getValue (exec (PropertyIntegerConstraint.setPyObject x) c)
      = clamp (int_value x) (LowerBound cs) (UpperBound cs)) /\
  (forall (c : PropertyIntegerConstraint.t) (x : PyObject),
      PropertyIntegerConstraint._ConstStruct (fields c) = None ->
      plain_int x ->
      returns (PropertyIntegerConstraint.setPyObject x) c /\
      PropertyIntegerConstraint.getValue (exec (PropertyIntegerConstraint.setPyObject x) c)
      = int_value x) /\
  (forall (c : PropertyFloatConstraint.t) (cs : Constraints double) (x : PyObject),
      PropertyFloatConstraint._ConstStruct (fields c) = Some cs ->
      dle (LowerBound cs) (UpperBound cs) = true ->
      plain_numeric x ->
      returns (PropertyFloatConstraint.setPyObject x) c /\
      PropertyFloatConstraint.getValue (exec (PropertyFloatConstraint.setPyObject x) c)
      = dclamp (numeric_as_double x) (LowerBound cs) (UpperBound cs)) /\
  (forall (c : PropertyFloatConstraint.t) (x : PyObject),
      PropertyFloatConstraint._ConstStruct (fields c) = None ->
      plain_numeric x ->
      returns (PropertyFloatConstraint.setPyObject x) c /\
      PropertyFloatConstraint.getValue (exec (PropertyFloatConstraint.setPyObject x) c)
      = numeric_as_double x) /\
  (forall (c : PropertyIntegerConstraint.t) (x : PyObject),
      PyFloat_Check x = true ->
      throws (PropertyIntegerConstraint.setPyObject x) c
             (TypeError "type must be int, dict or tuple, not float") /\
      exec (PropertyIntegerConstraint.setPyObject x) c = c).
Proof.
  split; [|split; [|split; [|split]]].
  - intros c cs x Hcs Hle Hx. unfold returns, exec, PropertyIntegerConstraint.getValue.
    rewrite (IntegerConstraint_setPyObject_long _ _ (proj1 Hx)). cbn [fst snd fields].
    split; [now exists tt|]. cbn [PropertyIntegerConstraint._lValue].
    rewrite Hcs, (PyLong_AsLong_plain _ Hx). now apply clamp_code.
  - intros c x Hcs Hx. unfold returns, exec, PropertyIntegerConstraint.getValue.
    rewrite (IntegerConstraint_setPyObject_long _ _ (proj1 Hx)). cbn [fst snd fields].
    split; [now exists tt|]. cbn [PropertyIntegerConstraint._lValue].
    now rewrite Hcs, (PyLong_AsLong_plain _ Hx).
  - intros c cs x Hcs Hle Hx. unfold returns, exec, PropertyFloatConstraint.getValue.
    rewrite FloatConstraint_setPyObject_numeric by (destruct Hx as [?|[? _]]; auto).
    cbn [fst snd fields]. split; [now exists tt|]. cbn [PropertyFloatConstraint._dValue].
    rewrite Hcs, (numeric_as_double_code _ Hx). now apply dclamp_code.
  - intros c x Hcs Hx. unfold returns, exec, PropertyFloatConstraint.getValue.
    rewrite FloatConstraint_setPyObject_numeric by (destruct Hx as [?|[? _]]; auto).
    cbn [fst snd fields]. split; [now exists tt|]. cbn [PropertyFloatConstraint._dValue].
    now rewrite Hcs, (numeric_as_double_code _ Hx).
  - intros c x Hx. destruct x; try discriminate Hx.
    unfold throws, exec. split; reflexivity.
Qed.

Lemma constrained_setPyObject_clamps_witness :
  let ci := mkCell (PropertyIntegerConstraint.mkFields 7
                      (Some PropertyIntegerConstraint.percent)) [] "Box.Transparency" in
  let cn := mkCell (PropertyIntegerConstraint.mkFields 7 None) [] "Box.Count" in
  let cf := mkCell (PropertyFloatConstraint.mkFields double_zero
                      (Some (mkConstraints double_zero double_one double_one true))) [] "Box.Ratio" in
  let cm := mkCell (PropertyFloatConstraint.mkFields double_zero None) [] "Box.Free" in
  PropertyIntegerConstraint.getValue
    (exec (PropertyIntegerConstraint.setPyObject (PyLong 150)) ci) = clamp 150 0 100 /\
  PropertyIntegerConstraint.getValue
    (exec (PropertyIntegerConstraint.setPyObject (PyLong 150)) cn) = 150 /\
  PropertyFloatConstraint.getValue
    (exec (PropertyFloatConstraint.setPyObject (PyLong 3)) cf)
  = dclamp (double_of_long 3) double_zero double_one /\
  PropertyFloatConstraint.getValue
    (exec (PropertyFloatConstraint.setPyObject (PyFloat DBL_EPSILON)) cm) = DBL_EPSILON /\
  exec (PropertyIntegerConstraint.setPyObject (PyFloat DBL_EPSILON)) ci = ci.
Proof.
  intros ci cn cf cm.
  destruct constrained_setPyObject_clamps as (Hi & Hin & Hf & Hfn & Hfloat).
  split; [|split; [|split; [|split]]].
  - apply (Hi ci PropertyIntegerConstraint.percent (PyLong 150)).
    + reflexivity.
    + simpl. lia.
    + split; reflexivity.
  - apply (Hin cn (PyLong 150)).
    + reflexivity.
    + split; reflexivity.
  - apply (Hf cf (mkConstraints double_zero double_one double_one true) (PyLong 3)).
    + reflexivity.
    + reflexivity.
    + right. split; reflexivity.
  - apply (Hfn cm (PyFloat DBL_EPSILON)).
    + reflexivity.
    + left. reflexivity.
  - apply (Hfloat ci (PyFloat DBL_EPSILON)). reflexivity.
Defined.

(** C1 as stated fails on the integer cell: with the descriptor [0, 100]
    installed, [setPyObject] rejects the float [2.5], a plain numeric value
    within the bounds, with a type error and leaves the value where it was,
    instead of storing it clamped. *)
Lemma constrained_integer_setPyObject_rejects_float :
  let c := mkCell (PropertyIntegerConstraint.mkFields 7
                     (Some PropertyIntegerConstraint.percent)) [] "Box.Transparency" in
  let x := PyFloat (S754_finite false 5629499534213120 (-51)) in
  plain_numeric x /\
  round (S754_finite false 5629499534213120 (-51)) = Some 3 /\
  PropertyIntegerConstraint._ConstStruct (fields c)
  = Some (mkConstraints 0 100 1 false) /\
  throws (PropertyIntegerConstraint.setPyObject x) c
         (TypeError "type must be int, dict or tuple, not float") /\
  ~ returns (PropertyIntegerConstraint.setPyObject x) c /\
  PropertyIntegerConstraint.getValue (exec (PropertyIntegerConstraint.setPyObject x) c) = 7.
Proof.
  cbv zeta. split; [left; reflexivity|].
  split; [reflexivity|]. split; [reflexivity|]. split; [reflexivity|].
  split; [|reflexivity].
  intros [a Ha]. discriminate Ha.
Qed.

(** ** Numeric kinds accepted by the scalar cells *)

Lemma Integer_setPyObject_long (x : PyObject) (c : PropertyInteger.t) :
  PyLong_Check x = true ->
  PropertyInteger.setPyObject x c =
  (Return tt, mkCell (PyLong_AsLong x) ((hooks c ++ [AboutToSetValue]) ++ [HasSetValue])
                     (FullName c)).
Proof.
  intros Hx. unfold PropertyInteger.setPyObject. rewrite Hx. now destruct c.
Qed.

Lemma Integer_setPyObject_other (x : PyObject) (c : PropertyInteger.t) :
  PyLong_Check x = false ->
  PropertyInteger.setPyObject x c = (Throw (TypeError ("type must be int, not " ++ tp_name x)), c).
Proof.
  intros Hx. unfold PropertyInteger.setPyObject. now rewrite Hx.
Qed.

Lemma Float_setPyObject_numeric (x : PyObject) (c : PropertyFloat.t) :
  plain_numeric x ->
  PropertyFloat.setPyObject x c =
  (Return tt, mkCell (numeric_as_double x) ((hooks c ++ [AboutToSetValue]) ++ [HasSetValue])
                     (FullName c)).
Proof.
  intros Hx. rewrite <- (numeric_as_double_code _ Hx).
  unfold PropertyFloat.setPyObject. destruct (PyFloat_Check x) eqn:Hf.
  - now destruct c.
  - destruct Hx as [Hx|[Hx _]]; [congruence|]. rewrite Hx. now destruct c.
Qed.

Lemma Float_setPyObject_other (x : PyObject) (c : PropertyFloat.t) :
  PyFloat_Check x = false -> PyLong_Check x = false ->
  PropertyFloat.setPyObject x c
  = (Throw (TypeError ("type must be float or int, not " ++ tp_name x)), c).
Proof.
  intros Hf Hl. unfold PropertyFloat.setPyObject. now rewrite Hf, Hl.
Qed.

Lemma round_half_away_from_zero (s : bool) (m : positive) (e : Z) :
  exists mag, round (S754_finite s m e) = Some (if s then - mag else mag) /\
              nearest_half_up m e mag.
Proof.
  unfold round, nearest_half_up. destruct e as [|p|p]; simpl (0 <=? _).
  - exists (Zpos m). split; [reflexivity|]. now rewrite Z.pow_0_r, Z.mul_1_r.
  - exists (Zpos m * 2 ^ Zpos p). now split.
  - exists ((2 * Zpos m + 2 ^ Zpos p) / (2 * 2 ^ Zpos p)).
    split; [reflexivity|].
    change (- Zneg p) with (Zpos p).
    assert (Hd : 0 < 2 ^ Zpos p) by (apply Z.pow_pos_nonneg; lia).
    generalize dependent (2 ^ Zpos p). intros d Hd.
    pose proof (Z.div_mod (2 * Zpos m + d) (2 * d) ltac:(lia)) as Hdm.
    pose proof (Z.mod_pos_bound (2 * Zpos m + d) (2 * d) ltac:(lia)) as Hb.
    generalize dependent ((2 * Zpos m + d) / (2 * d)).
    generalize dependent ((2 * Zpos m + d) mod (2 * d)).
    intros r Hr q Hq. change (0 <=? Z.neg p) with false. cbv iota. lia.
Qed.

Lemma Integer_setPathValue_double (d : double) (z : Z) (c : PropertyInteger.t) :
  round d = Some z -> in_long z = true ->
  PropertyInteger.setPathValue {| getSubPathStr := "" |} (any_double d) c =
  (Return tt, mkCell z ((hooks c ++ [AboutToSetValue]) ++ [HasSetValue]) (FullName c)).
Proof.
  intros Hr Hz. unfold PropertyInteger.setPathValue, verifyPath. cbn.
  rewrite Hr. unfold long_of_integral. cbn. rewrite Hz. now destruct c.
Qed.

(** C2, as the code has it. The float cell's [setPyObject] accepts a float
    and an integer (widened to double); the integer cell's [setPyObject]
    accepts an integer only; each rejects every other dynamic value, leaving
    the cell untouched, with a type error whose message ends in the name of
    the offending type. A double reaches the integer cell through
    [setPathValue], which stores it rounded half away from zero. *)
Theorem scalar_setters_numeric_kinds :
  (forall (c : PropertyFloat.t) (x : PyObject),
      plain_numeric x ->
      returns (PropertyFloat.setPyObject x) c /\
      PropertyFloat.getValue (exec (PropertyFloat.setPyObject x) c) = numeric_as_double x) /\
  (forall (c : PropertyFloat.t) (x : PyObject),
      PyFloat_Check x = false -> PyLong_Check x = false ->
      throws (PropertyFloat.setPyObject x) c
             (TypeError ("type must be float or int, not " ++ tp_name x)) /\
      exec (PropertyFloat.setPyObject x) c = c) /\
  (forall (c : PropertyInteger.t) (x : PyObject),
      plain_int x ->
      returns (PropertyInteger.setPyObject x) c /\
      PropertyInteger.getValue (exec (PropertyInteger.setPyObject x) c) = int_value x) /\
  (forall (c : PropertyInteger.t) (x : PyObject),
      PyLong_Check x = false ->
      throws (PropertyInteger.setPyObject x) c
             (TypeError ("type must be int, not " ++ tp_name x)) /\
      exec (PropertyInteger.setPyObject x) c = c) /\
  (forall (c : PropertyInteger.t) (s : bool) (m : positive) (e : Z),
      exists mag : Z,
        nearest_half_up m e mag /\
        (in_long (if s then - mag else mag) = true ->
         returns (PropertyInteger.setPathValue root_path (any_double (S754_finite s m e))) c /\
         PropertyInteger.getValue
           (exec (PropertyInteger.setPathValue root_path (any_double (S754_finite s m e))) c)
         = (if s then - mag else mag))).
Proof.
  split; [|split; [|split; [|split]]].
  - intros c x Hx. unfold returns, exec, PropertyFloat.getValue.
    rewrite (Float_setPyObject_numeric _ _ Hx). split; [now exists tt|reflexivity].
  - intros c x Hf Hl. unfold throws, exec.
    rewrite (Float_setPyObject_other _ _ Hf Hl). now split.
  - intros c x Hx. unfold returns, exec, PropertyInteger.getValue.
    rewrite (Integer_setPyObject_long _ _ (proj1 Hx)). cbn.
    split; [now exists tt|now apply PyLong_AsLong_plain].
  - intros c x Hl. unfold throws, exec.
    rewrite (Integer_setPyObject_other _ _ Hl). now split.
  - intros c s m e. destruct (round_half_away_from_zero s m e) as (mag & Hr & Hn).
    exists mag. split; [exact Hn|]. intros Hz.
    unfold returns, exec, PropertyInteger.getValue, root_path.
    rewrite (Integer_setPathValue_double _ _ _ Hr Hz). split; [now exists tt|reflexivity].
Qed.

Lemma scalar_setters_numeric_kinds_witness :
  PropertyFloat.getValue (exec (PropertyFloat.setPyObject (PyLong 3)) (mkCell double_zero [] "Box.Length"))
  = double_of_long 3 /\
  throws (PropertyFloat.setPyObject (PyUnicode "3")) (mkCell double_zero [] "Box.Length")
         (TypeError "type must be float or int, not str") /\
  PropertyInteger.getValue (exec (PropertyInteger.setPyObject (PyLong 3)) (mkCell 0 [] "Box.Count"))
  = 3 /\
  throws (PropertyInteger.setPyObject (PyFloat double_one)) (mkCell 0 [] "Box.Count")
         (TypeError "type must be int, not float") /\
  PropertyInteger.getValue
    (exec (PropertyInteger.setPathValue root_path
             (any_double (S754_finite true 5629499534213120 (-51)))) (mkCell 0 [] "Box.Count"))
  = -3.
Proof.
  destruct scalar_setters_numeric_kinds as (Hf & Hfo & Hi & Hio & Hp).
  split; [|split; [|split; [|split]]].
  - apply (Hf (mkCell double_zero [] "Box.Length") (PyLong 3)).
    right. split; reflexivity.
  - apply (Hfo (mkCell double_zero [] "Box.Length") (PyUnicode "3")); reflexivity.
  - apply (Hi (mkCell 0 [] "Box.Count") (PyLong 3)). split; reflexivity.
  - apply (Hio (mkCell 0 [] "Box.Count") (PyFloat double_one)). reflexivity.
  - destruct (Hp (mkCell 0 [] "Box.Count") true 5629499534213120%positive (-51))
      as (mag & Hn & Hv).
    unfold nearest_half_up in Hn. change (0 <=? -51) with false in Hn. cbv iota in Hn.
    change (- -51) with 51 in Hn.
    assert (Hm : mag = 3) by lia. subst mag.
    apply Hv. reflexivity.
Defined.

(** C2 as stated fails on the integer cell: [setPyObject] rejects the float
    [2.5] with a type error and leaves the value where it was, instead of
    storing [3]. *)
Lemma integer_setPyObject_rejects_float :
  let c := mkCell 0 [] "Box.Count" in
  let x := PyFloat (S754_finite false 5629499534213120 (-51)) in
  plain_numeric x /\
  round (S754_finite false 5629499534213120 (-51)) = Some 3 /\
  throws (PropertyInteger.setPyObject x) c (TypeError "type must be int, not float") /\
  ~ returns (PropertyInteger.setPyObject x) c /\
  PropertyInteger.getValue (exec (PropertyInteger.setPyObject x) c) = 0.
Proof.
  cbv zeta. split; [left; reflexivity|].
  split; [reflexivity|]. split; [reflexivity|]. split; [|reflexivity].
  intros [a Ha]. discriminate Ha.
Qed.

(** ** Step validation when a descriptor is installed *)

Lemma IntegerConstraint_setPyObject_args (value : PyObject) (v0 lo hi step : Z)
    (c : PropertyIntegerConstraint.t) :
  descriptor_args_l value = Some (v0, lo, hi, step) ->
  PropertyIntegerConstraint.setPyObject value c =
  (Return tt,
   mkCell (PropertyIntegerConstraint.mkFields
             (if hi <? v0 then hi else if v0 <? lo then lo else v0)
             (Some (mkConstraints lo hi (Z.max 1 step) true)))
          ((hooks c ++ [AboutToSetValue]) ++ [HasSetValue]) (FullName c)).
Proof.
  intros Hargs. destruct c as [[v cs] hs fn].
  unfold PropertyIntegerConstraint.setPyObject.
  destruct value; try discriminate Hargs; unfold descriptor_args_l in Hargs;
    cbv beta iota delta [PyLong_Check mbind M_bind bind]; rewrite Hargs; reflexivity.
Qed.

Lemma FloatConstraint_setPyObject_args (value : PyObject) (v0 lo hi step : double)
    (c : PropertyFloatConstraint.t) :
  descriptor_args_d value = Some (v0, lo, hi, step) ->
  PropertyFloatConstraint.setPyObject value c =
  if dlt step DBL_EPSILON then
    (Throw (ValueError "Step size must be greater than zero"), c)
  else
    (Return tt,
     mkCell (PropertyFloatConstraint.mkFields
               (if dlt hi v0 then hi else if dlt v0 lo then lo else v0)
               (Some (mkConstraints lo hi step true)))
            ((hooks c ++ [AboutToSetValue]) ++ [HasSetValue]) (FullName c)).
Proof.
  intros Hargs. destruct c as [[v cs] hs fn].
  unfold PropertyFloatConstraint.setPyObject.
  destruct value; try discriminate Hargs; unfold descriptor_args_d in Hargs;
    cbv beta iota delta [PyLong_Check PyFloat_Check mbind M_bind bind]; rewrite Hargs;
    cbv beta iota zeta delta [ret]; destruct (dlt step DBL_EPSILON); reflexivity.
Qed.

Lemma nonpositive_below_epsilon (step : double) :
  dle step double_zero = true -> dlt step DBL_EPSILON = true.
Proof.
  unfold dle, dlt, SFleb, SFltb, double_zero, DBL_EPSILON.
  destruct step as [[]|[]| |[] m e]; intros H; try reflexivity; discriminate H.
Qed.

(** C8, as the code has it. When a dict or tuple [(value, min, max, step)]
    parses: the floating cell throws the validation error exactly when
    [step < DBL_EPSILON] (so every step [<= 0] is rejected, and so is a
    positive step below [2^-52]), leaves the cell untouched in that case, and
    otherwise installs the owned descriptor with that step; the integer cell
    never rejects the step and installs [max(1, step)]. *)
Theorem descriptor_step_validation :
  (forall (c : PropertyFloatConstraint.t) (value : PyObject) (v0 lo hi step : double),
      descriptor_args_d value = Some (v0, lo, hi, step) ->
      is_nan step = false ->
      (throws (PropertyFloatConstraint.setPyObject value) c
              (ValueError "Step size must be greater than zero")
       <-> dlt step DBL_EPSILON = true) /\
      (dle step double_zero = true -> dlt step DBL_EPSILON = true) /\
      (dlt step DBL_EPSILON = true ->
       exec (PropertyFloatConstraint.setPyObject value) c = c) /\
      (dlt step DBL_EPSILON = false ->
       returns (PropertyFloatConstraint.setPyObject value) c /\
       PropertyFloatConstraint._ConstStruct
         (fields (exec (PropertyFloatConstraint.setPyObject value) c))
       = Some (mkConstraints lo hi step true))) /\
  (forall (c : PropertyIntegerConstraint.t) (value : PyObject) (v0 lo hi step : Z),
      descriptor_args_l value = Some (v0, lo, hi, step) ->
      returns (PropertyIntegerConstraint.setPyObject value) c /\
      PropertyIntegerConstraint._ConstStruct
        (fields (exec (PropertyIntegerConstraint.setPyObject value) c))
      = Some (mkConstraints lo hi (Z.max 1 step) true) /\
      1 <= PropertyIntegerConstraint.getStepSize
             (exec (PropertyIntegerConstraint.setPyObject value) c)).
Proof.
  split.
  - intros c value v0 lo hi step Hargs _.
    unfold throws, returns, exec.
    rewrite (FloatConstraint_setPyObject_args _ _ _ _ _ _ Hargs).
    split; [|split; [|split]].
    + destruct (dlt step DBL_EPSILON); cbn; split; congruence.
    + apply nonpositive_below_epsilon.
    + now intros ->.
    + intros ->. cbn. split; [now exists tt|reflexivity].
  - intros c value v0 lo hi step Hargs.
    unfold returns, exec, PropertyIntegerConstraint.getStepSize.
    rewrite (IntegerConstraint_setPyObject_args _ _ _ _ _ _ Hargs). cbn.
    split; [now exists tt|]. split; [reflexivity|lia].
Qed.

Lemma descriptor_step_validation_witness :
  let half := S754_finite false 4503599627370496 (-53) in
  let cf := mkCell (PropertyFloatConstraint.mkFields double_zero None) [] "Box.Ratio" in
  let ci := mkCell (PropertyIntegerConstraint.mkFields 0 None) [] "Box.Count" in
  PropertyFloatConstraint._ConstStruct
    (fields (exec (PropertyFloatConstraint.setPyObject
                     (PyTuple [PyFloat half; PyLong 0; PyLong 1; PyFloat half])) cf))
  = Some (mkConstraints double_zero double_one half true) /\
  PropertyIntegerConstraint._ConstStruct
    (fields (exec (PropertyIntegerConstraint.setPyObject
                     (PyDict [(PyUnicode "value", PyLong 5); (PyUnicode "step", PyLong (-2))]))
                  ci))
  = Some (mkConstraints INT_MIN INT_MAX (Z.max 1 (-2)) true).
Proof.
  intros half cf ci.
  destruct descriptor_step_validation as [Hf Hi]. split.
  - apply (Hf cf (PyTuple [PyFloat half; PyLong 0; PyLong 1; PyFloat half])
              half double_zero double_one half); reflexivity.
  - apply (Hi ci (PyDict [(PyUnicode "value", PyLong 5); (PyUnicode "step", PyLong (-2))])
              5 INT_MIN INT_MAX (-2)). reflexivity.
Defined.

(** C8 as stated fails on the floating cell: the step [2^-60] is greater than
    zero and is rejected all the same. *)
Lemma float_step_below_epsilon_rejected :
  let step := S754_finite false 4503599627370496 (-112) in
  let value := PyTuple [PyFloat double_zero; PyFloat double_zero; PyFloat double_one; PyFloat step] in
  let c := mkCell (PropertyFloatConstraint.mkFields double_zero None) [] "Box.Ratio" in
  dlt double_zero step = true /\
  descriptor_args_d value = Some (double_zero, double_zero, double_one, step) /\
  throws (PropertyFloatConstraint.setPyObject value) c
         (ValueError "Step size must be greater than zero").
Proof. cbv zeta. repeat split; reflexivity. Qed.

(** ** The enumeration cell *)

Lemma fired_app {V} (c : Cell V) (v : V) (l : list Hook) :
  fired c (mkCell v (hooks c ++ l) (FullName c)) = l.
Proof. unfold fired. cbn. now rewrite drop_app_length. Qed.

Lemma starts_with_unattached {V} (c : Cell V) :
  PropertyEnumeration.starts_with (FullName c) "?" = unattached c.
Proof.
  unfold PropertyEnumeration.starts_with, unattached.
  destruct (FullName c) as [|a s]; [reflexivity|].
  cbn [String.prefix]. destruct (Ascii.ascii_dec "?" a) as [<-|Hne].
  - now destruct s.
  - symmetry. apply Ascii.eqb_neq. congruence.
Qed.

Lemma setEnumVector_run (values : list string) (c : PropertyEnumeration.t) :
  PropertyEnumeration.setEnumVector values c =
  (Return tt,
   mkCell (Enumeration.setEnums values (fields c))
          (hooks c ++ (if unattached c then [] else [AboutToSetValue; HasSetValue]))
          (FullName c)).
Proof.
  unfold PropertyEnumeration.setEnumVector.
  cbv beta iota zeta delta [mbind M_bind bind getFullName].
  rewrite starts_with_unattached. destruct c as [e hs fn].
  destruct (unattached _); run_method; now rewrite <- ?app_assoc, ?app_nil_r.
Qed.

Lemma setEnums_run (plEnums : option (list string)) (c : PropertyEnumeration.t) :
  PropertyEnumeration.setEnums plEnums c =
  (Return tt,
   mkCell (Enumeration.setEnums_table plEnums (fields c))
          (hooks c ++ (if unattached c then [] else [AboutToSetValue; HasSetValue]))
          (FullName c)).
Proof.
  unfold PropertyEnumeration.setEnums.
  cbv beta iota zeta delta [mbind M_bind bind getFullName].
  rewrite starts_with_unattached. destruct c as [e hs fn].
  destruct (unattached _); run_method; now rewrite <- ?app_assoc, ?app_nil_r.
Qed.

(** C9. Each label-set replacement ([setEnums] on a static table, [setEnums]
    on a vector, [setEnumVector]) returns normally; on an unattached cell
    (qualified name beginning with ['?']) it fires no hook, on an attached
    cell it fires the pre-change hook and then the post-change hook; so the
    two hooks are never fired one without the other. *)
Theorem enumeration_label_hooks_paired :
  forall (c : PropertyEnumeration.t) (m : M PropertyEnumeration.t unit),
    (exists plEnums, m = PropertyEnumeration.setEnums plEnums) \/
    (exists values, m = PropertyEnumeration.setEnums_vector values) \/
    (exists values, m = PropertyEnumeration.setEnumVector values) ->
    returns m c /\
    fired c (exec m c) = (if unattached c then [] else [AboutToSetValue; HasSetValue]) /\
    count_hook AboutToSetValue (fired c (exec m c))
    = count_hook HasSetValue (fired c (exec m c)).
Proof.
  intros c m Hm.
  assert (Hrun : exists e', m c =
            (Return tt, mkCell e' (hooks c ++ (if unattached c then []
                                            else [AboutToSetValue; HasSetValue]))
                               (FullName c))).
  { destruct Hm as [[p ->]|[[v ->]|[v ->]]].
    - eexists. apply setEnums_run.
    - eexists. apply setEnumVector_run.
    - eexists. apply setEnumVector_run. }
  destruct Hrun as [e' Hrun]. unfold returns, exec. rewrite Hrun. cbn [fst snd].
  rewrite fired_app. split; [now exists tt|]. split; [reflexivity|].
  now destruct (unattached c).
Qed.

Lemma enumeration_label_hooks_paired_witness :
  let detached := mkCell (Enumeration.mk (-1) [] false) [] "?.Mode" in
  let attached := mkCell (Enumeration.mk 0 ["Flat"] true) [] "Doc#Box.Mode" in
  fired detached (exec (PropertyEnumeration.setEnumVector ["A"; "B"]) detached) = [] /\
  fired attached (exec (PropertyEnumeration.setEnums (Some ["A"; "B"])) attached)
  = [AboutToSetValue; HasSetValue].
Proof.
  intros detached attached. split.
  - apply (enumeration_label_hooks_paired detached (PropertyEnumeration.setEnumVector ["A"; "B"])).
    right. right. now exists ["A"; "B"].
  - apply (enumeration_label_hooks_paired attached
             (PropertyEnumeration.setEnums (Some ["A"; "B"]))).
    left. now exists (Some ["A"; "B"]).
Defined.

(** C10. On an enumeration cell with no valid selection [getPyObject]
    returns [None] and leaves the cell as it is, while [getValueAsString]
    throws a runtime error; with a valid selection [getPyObject] returns the
    selected label as a string. *)
Theorem enumeration_getPyObject_invalid_is_None :
  forall c : PropertyEnumeration.t,
    (PropertyEnumeration.isValid c = false ->
     PropertyEnumeration.getPyObject c = (Return PyNone, c) /\
     throws PropertyEnumeration.getValueAsString c
            (RuntimeError "Cannot get value from invalid enumeration")) /\
    (PropertyEnumeration.isValid c = true ->
     exists label : string,
       labels_lookup c = Some label /\
       PropertyEnumeration.getPyObject c = (Return (PyUnicode label), c) /\
       PropertyEnumeration.getValueAsString c = (Return (Some label), c)).
Proof.
  intros [e hs fn]. unfold PropertyEnumeration.isValid, labels_lookup. cbn [fields].
  unfold PropertyEnumeration.getPyObject, PropertyEnumeration.getValueAsString, throws.
  cbv beta iota zeta delta [mbind M_bind bind getFields]. cbn [fields].
  split; intros Hv.
  - rewrite Hv. now split.
  - rewrite Hv. cbn. unfold Enumeration.getCStr. rewrite Hv.
    unfold Enumeration.isValid in Hv. apply andb_prop in Hv as [Hlo Hhi].
    destruct (lookup_lt_is_Some_2 (Enumeration.labels e) (Z.to_nat (Enumeration._index e)))
      as [label Hl]; [lia|].
    exists label. rewrite Hl. now repeat split.
Qed.

Lemma enumeration_getPyObject_invalid_is_None_witness :
  let unset := mkCell (Enumeration.mk (-1) ["Flat"; "Shaded"] true) [] "Doc#Box.Mode" in
  let shaded := mkCell (Enumeration.mk 1 ["Flat"; "Shaded"] true) [] "Doc#Box.Mode" in
  (PropertyEnumeration.getPyObject unset = (Return PyNone, unset) /\
   throws PropertyEnumeration.getValueAsString unset
          (RuntimeError "Cannot get value from invalid enumeration")) /\
  exists label : string,
    labels_lookup shaded = Some label /\
    PropertyEnumeration.getPyObject shaded = (Return (PyUnicode label), shaded) /\
    PropertyEnumeration.getValueAsString shaded = (Return (Some label), shaded).
Proof.
  intros unset shaded. split.
  - apply (enumeration_getPyObject_invalid_is_None unset). reflexivity.
  - apply (enumeration_getPyObject_invalid_is_None shaded). reflexivity.
Defined.

(** ** The material list: index-qualified setters *)

Section MaterialListSetters.
Context `{External}.

Lemma resize_one_more (l : list Material) (d : Material) :
  resize (Z.to_nat (Z.of_nat (length l) + 1)) d l = l ++ [d].
Proof.
  replace (Z.to_nat (Z.of_nat (length l) + 1)) with (length l + 1)%nat by lia.
  rewrite resize_ge by lia.
  now replace (length l + 1 - length l)%nat with 1%nat by lia.
Qed.

Lemma alter_last (f : Material -> Material) (l : list Material) (d : Material) :
  alter f (Z.to_nat (Z.of_nat (length l))) (l ++ [d]) = l ++ [f d].
Proof.
  rewrite Nat2Z.id, alter_app_r_alt by lia.
  now rewrite Nat.sub_diag.
Qed.

Lemma indexed_run (index : Z) (f : Material -> Material) (c : PropertyMaterialList.t) :
  let l := PropertyMaterialList._lValueList (fields c) in
  let n := Z.of_nat (length l) in
  PropertyMaterialList.indexed index f c =
  if (index <? -1) || (n <? index) then
    (Throw (RuntimeError "index out of bound"), c)
  else
    (Return tt,
     mkCell (PropertyMaterialList.mkFields
               (if (index =? -1) || (index =? n) then l ++ [f Material_new]
                else alter f (Z.to_nat index) l)
               (PropertyMaterialList.formatVersion (fields c)))
            ((hooks c ++ [AboutToSetValue]) ++ [HasSetValue]) (FullName c)).
Proof.
  destruct c as [[l v] hs fn].
  unfold PropertyMaterialList.indexed, PropertyMaterialList.verifyIndex,
    PropertyMaterialList.resizeByOneIfNeeded, PropertyMaterialList.getSize,
    PropertyMaterialList.setSize, PropertyMaterialList.at_index,
    PropertyMaterialList.getList, PropertyMaterialList.setList.
  run_list.
  destruct ((index <? -1) || (Z.of_nat (length l) <? index)); [reflexivity|].
  destruct ((index =? -1) || (index =? Z.of_nat (length l))).
  - run_list. now rewrite resize_one_more, alter_last.
  - reflexivity.
Qed.

Lemma call_indexed_run (s : FieldSetter) (index : Z) (c : PropertyMaterialList.t) :
  exists f : Material -> Material,
    call_indexed s index = PropertyMaterialList.indexed index f /\
    forall m, targeted_field_set s (f m).
Proof.
  destruct s; cbn [call_indexed targeted_field_set]; eexists; split;
    try reflexivity; reflexivity.
Qed.

(** C3. On a material list of [n] elements, an index-qualified field
    setter called with index [-1] or [n] appends exactly one element, whose
    targeted field is the supplied value, and leaves the [n] elements before
    it as they were; with an index in [[0, n)] it changes the element at that
    index only; with any other index it throws the bounds error and leaves
    the cell as it was. *)
Theorem indexed_setter_frame :
  forall (s : FieldSetter) (index : Z) (c : PropertyMaterialList.t),
    let c' := exec (call_indexed s index) c in
    (index = -1 \/ index = size c ->
     returns (call_indexed s index) c /\
     size c' = size c + 1 /\
     exists m, elements c' = elements c ++ [m] /\ targeted_field_set s m) /\
    (0 <= index < size c ->
     returns (call_indexed s index) c /\
     size c' = size c /\
     (forall j : nat, j <> Z.to_nat index -> elements c' !! j = elements c !! j) /\
     exists m, elements c' !! Z.to_nat index = Some m /\ targeted_field_set s m) /\
    (index < -1 \/ size c < index ->
     throws (call_indexed s index) c (RuntimeError "index out of bound") /\
     c' = c).
Proof.
  intros s index c c'. subst c'.
  destruct (call_indexed_run s index c) as (f & -> & Hf).
  unfold returns, throws, exec, size, elements.
  rewrite indexed_run. cbv zeta.
  set (l := PropertyMaterialList._lValueList (fields c)).
  split; [|split]; intros Hindex.
  - replace ((index <? -1) || (Z.of_nat (length l) <? index)) with false
      by (symmetry; apply orb_false_iff; lia).
    replace ((index =? -1) || (index =? Z.of_nat (length l))) with true
      by (symmetry; apply orb_true_iff; lia).
    cbn [fst snd fields PropertyMaterialList._lValueList].
    split; [now exists tt|]. split.
    + rewrite length_app. cbn [length]. lia.
    + exists (f Material_new). split; [reflexivity|apply Hf].
  - replace ((index <? -1) || (Z.of_nat (length l) <? index)) with false
      by (symmetry; apply orb_false_iff; lia).
    replace ((index =? -1) || (index =? Z.of_nat (length l))) with false
      by (symmetry; apply orb_false_iff; lia).
    cbn [fst snd fields PropertyMaterialList._lValueList].
    split; [now exists tt|]. split; [now rewrite length_alter|]. split.
    + intros j Hj. now apply list_lookup_alter_ne.
    + destruct (lookup_lt_is_Some_2 l (Z.to_nat index)) as [m Hm]; [lia|].
      exists (f m). split; [|apply Hf].
      now rewrite list_lookup_alter_eq, Hm.
  - replace ((index <? -1) || (Z.of_nat (length l) <? index)) with true
      by (symmetry; apply orb_true_iff; lia).
    now split.
Qed.

End MaterialListSetters.

(** ** The material list: the non-empty invariant *)

Section MaterialListInvariant.
Context `{External}.

Ltac unfold_list :=
  unfold PropertyMaterialList.setValues, PropertyMaterialList.PropertyListsT_setValues,
    PropertyMaterialList.setValue, PropertyMaterialList.setValue_mat,
    PropertyMaterialList.broadcast, PropertyMaterialList.setMinimumSizeOne,
    PropertyMaterialList.for_all, PropertyMaterialList.front,
    PropertyMaterialList.setSize_def,
    PropertyMaterialList.getSize, PropertyMaterialList.setSize,
    PropertyMaterialList.at_index, PropertyMaterialList.getList,
    PropertyMaterialList.setList.

Lemma setValues_run (newValues : list Material) (c : PropertyMaterialList.t) :
  PropertyMaterialList.setValues newValues c =
  (Return tt,
   mkCell (PropertyMaterialList.mkFields
             (if bool_decide (newValues = []) then resize 1 Material_new (elements c)
              else newValues)
             (PropertyMaterialList.formatVersion (fields c)))
          ((hooks c ++ [AboutToSetValue]) ++ [HasSetValue]) (FullName c)).
Proof.
  destruct c as [[l v] hs fn]. unfold_list; unfold elements.
  destruct (bool_decide (newValues = [])); reflexivity.
Qed.

Lemma setValue_mat_run (mat : Material) (c : PropertyMaterialList.t) :
  PropertyMaterialList.setValue_mat mat c =
  (Return tt,
   mkCell (PropertyMaterialList.mkFields
             ((fun _ => mat) <$> resize 1 Material_new (elements c))
             (PropertyMaterialList.formatVersion (fields c)))
          ((hooks c ++ [AboutToSetValue]) ++ [HasSetValue]) (FullName c)).
Proof. destruct c as [[l v] hs fn]. reflexivity. Qed.

Lemma broadcast_run (f : Material -> Material) (c : PropertyMaterialList.t) :
  PropertyMaterialList.broadcast f c =
  (Return tt,
   mkCell (PropertyMaterialList.mkFields
             (f <$> (if size c <? 1 then resize 1 Material_new (elements c)
                     else elements c))
             (PropertyMaterialList.formatVersion (fields c)))
          ((hooks c ++ [AboutToSetValue]) ++ [HasSetValue]) (FullName c)).
Proof.
  destruct c as [[l v] hs fn]. unfold_list; unfold size, elements; run_list.
  destruct (Z.of_nat (length l) <? 1); reflexivity.
Qed.

Lemma call_broadcast_run (s : FieldSetter) :
  exists f : Material -> Material, call_broadcast s = PropertyMaterialList.broadcast f.
Proof. destruct s; eexists; reflexivity. Qed.

(** The assignment loop of the bulk setters returns and keeps the size. *)
Lemma assign_from_run {A} (f : A -> Material -> Material) (xs : list A) :
  forall (i : Z) (l : list Material) (v : Z) (hs : list Hook) (fn : string),
    exists l',
      PropertyMaterialList.assign_from f i xs
        (mkCell (PropertyMaterialList.mkFields l v) hs fn)
      = (Return tt, mkCell (PropertyMaterialList.mkFields l' v) hs fn) /\
      length l' = length l.
Proof.
  induction xs as [|x xs IH]; intros i l v hs fn.
  - exists l. now split.
  - cbn [PropertyMaterialList.assign_from]. unfold_list. run_list.
    destruct (IH (i + 1) (alter (f x) (Z.to_nat i) l) v hs fn) as (l' & Hrun & Hlen).
    exists l'. rewrite Hrun. split; [reflexivity|].
    now rewrite Hlen, length_alter.
Qed.

Lemma bulk_run {A} (f : A -> Material -> Material) (xs : list A)
    (c : PropertyMaterialList.t) :
  let bulk :=
    (aboutToSetValue;;
     def ← PropertyMaterialList.front;
     PropertyMaterialList.setSize_def (Z.of_nat (length xs)) def;;
     PropertyMaterialList.assign_from f 0 xs;;
     hasSetValue) : M PropertyMaterialList.t unit in
  returns bulk c -> size (exec bulk c) = Z.of_nat (length xs).
Proof.
  destruct c as [[l v] hs fn]. cbv zeta. unfold returns, exec, size, elements.
  unfold_list. run_list. destruct l as [|m l].
  - intros [x Hx]. discriminate Hx.
  - intros _. rewrite Nat2Z.id.
    destruct (assign_from_run f xs 0 (resize (length xs) m (m :: l)) v
                (hs ++ [AboutToSetValue]) fn) as (l' & Hrun & Hlen).
    rewrite Hrun. run_list. now rewrite Hlen, length_resize.
Qed.

Lemma on_subobject_setValues (newValues : list Material) (c : PropertyMaterialList.t) :
  on_subobject as_PropertyMaterialList (fun f' _ => PropertyMaterialList_ f')
    (PropertyMaterialList.setValues newValues) (as_Property c)
  = (Return tt, as_Property (exec (PropertyMaterialList.setValues newValues) c)).
Proof.
  unfold on_subobject, as_Property, exec. cbn [fields hooks FullName as_PropertyMaterialList].
  destruct c as [f hs fn]. cbn [fields hooks FullName].
  now rewrite setValues_run.
Qed.

Lemma call_Paste_run (from : Property) (c : PropertyMaterialList.t) :
  call_Paste from c =
  match as_PropertyMaterialList from with
  | Some f => PropertyMaterialList.setValues (PropertyMaterialList._lValueList f) c
  | None => (Throw bad_cast, c)
  end.
Proof.
  unfold call_Paste, Paste, PropertyMaterialList_Paste, dynamic_cast.
  cbv beta iota zeta delta [mbind M_bind bind getFields].
  cbn [fields as_Property].
  destruct (as_PropertyMaterialList from) as [f|].
  - cbv beta iota zeta delta [ret]. rewrite on_subobject_setValues.
    unfold exec. rewrite setValues_run. reflexivity.
  - destruct c as [f hs fn]. reflexivity.
Qed.

Lemma returns_size_setValues (newValues : list Material) (c : PropertyMaterialList.t) :
  1 <= size (exec (PropertyMaterialList.setValues newValues) c).
Proof.
  unfold exec, size. rewrite setValues_run. unfold elements at 1.
  cbn [snd fields PropertyMaterialList._lValueList].
  case_bool_decide as Hnil.
  - rewrite length_resize. lia.
  - destruct newValues; [congruence|]. cbn [length]. lia.
Qed.

Lemma on_fst_setValues (values : list Material) (c : PropertyMaterialList.t) (rd : Stream) :
  on_fst (PropertyMaterialList.setValues values) (c, rd)
  = (Return tt, (exec (PropertyMaterialList.setValues values) c, rd)).
Proof. unfold on_fst, exec. cbn [fst snd]. now rewrite setValues_run. Qed.

Lemma RestoreDocFileV0_run (count : Z) (c : PropertyMaterialList.t) (rd : Stream) :
  PropertyMaterialList.RestoreDocFileV0 count (c, rd) =
  match for_each_ref PropertyMaterialList.read_fixed
          (replicate (Z.to_nat count) Material_new) rd with
  | (Return values, rd') =>
      (Return tt, (exec (PropertyMaterialList.setValues values) c, rd'))
  | (Throw e, rd') => (Throw e, (c, rd'))
  end.
Proof.
  unfold PropertyMaterialList.RestoreDocFileV0.
  cbv beta iota zeta delta [mbind M_bind bind]. unfold on_snd at 1. cbn [fst snd].
  destruct (for_each_ref _ _ rd) as [[values|e] rd']; [|reflexivity].
  apply on_fst_setValues.
Qed.

Lemma RestoreDocFileV3_run (c : PropertyMaterialList.t) (rd : Stream) :
  PropertyMaterialList.RestoreDocFileV3 (c, rd) =
  match (count ← read_uint32;
         values ← for_each_ref PropertyMaterialList.read_fixed
                    (replicate (Z.to_nat count) Material_new);
         for_each_ref PropertyMaterialList.read_strings values) rd with
  | (Return values, rd') =>
      (Return tt, (exec (PropertyMaterialList.setValues values) c, rd'))
  | (Throw e, rd') => (Throw e, (c, rd'))
  end.
Proof.
  unfold PropertyMaterialList.RestoreDocFileV3.
  cbv beta iota zeta delta [mbind M_bind bind]. unfold on_snd. cbn [fst snd].
  destruct (read_uint32 rd) as [[count|e] rd1]; [|reflexivity]. cbn [fst snd].
  destruct (for_each_ref PropertyMaterialList.read_fixed _ rd1) as [[values|e] rd2];
    [|reflexivity]. cbn [fst snd].
  destruct (for_each_ref PropertyMaterialList.read_strings _ rd2) as [[values'|e] rd3];
    [|reflexivity].
  apply on_fst_setValues.
Qed.

Lemma RestoreDocFile_run (c : PropertyMaterialList.t) (rd : Stream) :
  let version := PropertyMaterialList.formatVersion (fields c) in
  PropertyMaterialList.RestoreDocFile (c, rd) =
  if version =? PropertyMaterialList.Version_2 then
    match read_uint32 rd with
    | (Return count, rd') => PropertyMaterialList.RestoreDocFileV0 count (c, rd')
    | (Throw e, rd') => (Throw e, (c, rd'))
    end
  else if version =? PropertyMaterialList.Version_3 then
    PropertyMaterialList.RestoreDocFileV3 (c, rd)
  else
    match read_int32 rd with
    | (Return tag, rd') =>
        if tag <? 0 then
          match read_uint32 rd' with
          | (Return count, rd'') => PropertyMaterialList.RestoreDocFileV0 count (c, rd'')
          | (Throw e, rd'') => (Throw e, (c, rd''))
          end
        else PropertyMaterialList.RestoreDocFileV0 tag (c, rd')
    | (Throw e, rd') => (Throw e, (c, rd'))
    end.
Proof.
  cbv zeta. unfold PropertyMaterialList.RestoreDocFile.
  cbv beta iota zeta delta [mbind M_bind bind on_fst getFields]. cbn [fst snd].
  destruct (_ =? PropertyMaterialList.Version_2).
  { unfold on_snd at 1. cbn [fst snd].
    now destruct (read_uint32 rd) as [[count|e] rd']. }
  destruct (_ =? PropertyMaterialList.Version_3); [reflexivity|].
  unfold on_snd at 1. cbn [fst snd].
  destruct (read_int32 rd) as [[tag|e] rd']; [|reflexivity].
  destruct (tag <? 0); [|reflexivity].
  unfold on_snd at 1. cbn [fst snd].
  now destruct (read_uint32 rd') as [[count|e] rd''].
Qed.

Lemma RestoreDocFile_returns (c : PropertyMaterialList.t) (rd : Stream) :
  returns PropertyMaterialList.RestoreDocFile (c, rd) ->
  exists values,
    fst (exec PropertyMaterialList.RestoreDocFile (c, rd))
    = exec (PropertyMaterialList.setValues values) c.
Proof.
  unfold returns at 1, exec at 1. rewrite RestoreDocFile_run. cbv zeta.
  assert (HV0 : forall count rd0,
             (exists a, fst (PropertyMaterialList.RestoreDocFileV0 count (c, rd0)) = Return a) ->
             exists values,
               fst (snd (PropertyMaterialList.RestoreDocFileV0 count (c, rd0)))
               = exec (PropertyMaterialList.setValues values) c).
  { intros count rd0. rewrite RestoreDocFileV0_run.
    destruct (for_each_ref _ _ rd0) as [[values|e] rd1]; cbn [fst snd].
    - intros _. now exists values.
    - intros [x Hx]. discriminate Hx. }
  destruct (_ =? PropertyMaterialList.Version_2).
  { destruct (read_uint32 rd) as [[count|e] rd']; [apply HV0|].
    intros [x Hx]. discriminate Hx. }
  destruct (_ =? PropertyMaterialList.Version_3).
  { rewrite RestoreDocFileV3_run.
    match goal with |- context [match ?p with _ => _ end] => destruct p as [[values|e] rd1] end;
      cbn [fst snd].
    - intros _. now exists values.
    - intros [x Hx]. discriminate Hx. }
  destruct (read_int32 rd) as [[tag|e] rd']; [|intros [x Hx]; discriminate Hx].
  destruct (tag <? 0); [|apply HV0].
  destruct (read_uint32 rd') as [[count|e] rd'']; [apply HV0|].
  intros [x Hx]. discriminate Hx.
Qed.

Lemma indexed_size (index : Z) (f : Material -> Material) (c : PropertyMaterialList.t) :
  returns (PropertyMaterialList.indexed index f) c ->
  1 <= size (exec (PropertyMaterialList.indexed index f) c).
Proof.
  unfold returns, exec, size, elements. rewrite indexed_run. cbv zeta.
  set (l := PropertyMaterialList._lValueList (fields c)).
  destruct ((index <? -1) || (Z.of_nat (length l) <? index)) eqn:Hout;
    [intros [x Hx]; discriminate Hx|intros _].
  cbn [snd fields PropertyMaterialList._lValueList].
  destruct ((index =? -1) || (index =? Z.of_nat (length l))) eqn:Happ.
  - rewrite length_app. cbn [length]. lia.
  - rewrite length_alter. apply orb_false_iff in Hout, Happ. lia.
Qed.

(** Every mutator other than a bulk setter handed an empty collection
    leaves at least one element when it returns. *)
Lemma mutators_keep_one_element (mu : Mutator) (c : PropertyMaterialList.t) :
  empty_bulk mu = false ->
  returns (call mu) c ->
  1 <= size (exec (call mu) c).
Proof.
  intros Hmu Hret. destruct mu as [nv| |mat|index mat|s|s index|colors|ts|from|rd];
    cbn [call] in *.
  - apply returns_size_setValues.
  - unfold PropertyMaterialList.setValue, exec, size, elements.
    rewrite setValue_mat_run. cbn [snd fields PropertyMaterialList._lValueList].
    rewrite length_fmap, length_resize. lia.
  - unfold exec, size, elements.
    rewrite setValue_mat_run. cbn [snd fields PropertyMaterialList._lValueList].
    rewrite length_fmap, length_resize. lia.
  - now apply indexed_size.
  - destruct (call_broadcast_run s) as [f ->].
    unfold exec, size at 1, elements at 1. rewrite broadcast_run.
    cbn [snd fields PropertyMaterialList._lValueList]. rewrite length_fmap.
    destruct (size c <? 1) eqn:Hs.
    + rewrite length_resize. lia.
    + unfold size in Hs. lia.
  - destruct (call_indexed_run s index c) as (f & Hf & _). rewrite Hf in *.
    now apply indexed_size.
  - unfold PropertyMaterialList.setDiffuseColors in *.
    rewrite (bulk_run set_diffuseColor colors c Hret).
    destruct colors; [discriminate Hmu|]. cbn [length]. lia.
  - unfold PropertyMaterialList.setTransparencies in *.
    rewrite (bulk_run set_transparency ts c Hret).
    destruct ts; [discriminate Hmu|]. cbn [length]. lia.
  - revert Hret. unfold returns, exec. rewrite call_Paste_run.
    destruct (as_PropertyMaterialList from) as [f|]; [|intros [x Hx]; discriminate Hx].
    intros _. apply returns_size_setValues.
  - revert Hret. unfold returns at 1, exec at 1, call_RestoreDocFile.
    pose proof (RestoreDocFile_returns c rd) as Hr.
    unfold returns, exec in Hr.
    destruct (PropertyMaterialList.RestoreDocFile (c, rd)) as [res [c' rd']].
    cbn [fst snd] in *. intros Hret. destruct (Hr Hret) as [values ->].
    apply returns_size_setValues.
Qed.

End MaterialListInvariant.

Lemma indexed_setter_frame_witness :
  let E := levels_External in
  let red := mkColor 255 0 0 255 in
  let c := mkCell (PropertyMaterialList.mkFields [Material_new] 3) [] "Doc#Box.Materials" in
  (size (exec (call_indexed (DiffuseColor red) (-1)) c) = size c + 1 /\
   exists m, elements (exec (call_indexed (DiffuseColor red) (-1)) c) = elements c ++ [m] /\
             diffuseColor m = red) /\
  (size (exec (call_indexed (DiffuseColor red) 0) c) = size c /\
   exists m, elements (exec (call_indexed (DiffuseColor red) 0) c) !! 0%nat = Some m /\
             diffuseColor m = red) /\
  throws (call_indexed (DiffuseColor red) 2) c (RuntimeError "index out of bound").
Proof.
  intros E red c.
  destruct (indexed_setter_frame (DiffuseColor red) (-1) c) as (Happend & _ & _).
  destruct (indexed_setter_frame (DiffuseColor red) 0 c) as (_ & Hinside & _).
  destruct (indexed_setter_frame (DiffuseColor red) 2 c) as (_ & _ & Houtside).
  split; [|split].
  - apply Happend. left. reflexivity.
  - destruct Hinside as (_ & Hsize & _ & Hm); [unfold size; cbn; lia|]. now split.
  - apply Houtside. right. unfold size. cbn. lia.
Defined.

(** C4 fails on the bulk setters: on a list that holds elements,
    [setDiffuseColors] and [setTransparencies] called with an empty vector
    return normally and leave the list empty, where [setValues] called with
    an empty vector leaves one element. *)
Theorem bulk_setter_empty_breaks_invariant :
  forall (E : External) (m : Material) (l : list Material) (v : Z) (hs : list Hook)
         (fn : string),
    let c := mkCell (PropertyMaterialList.mkFields (m :: l) v) hs fn in
    (returns (call (call_setDiffuseColors [])) c /\
     size (exec (call (call_setDiffuseColors [])) c) = 0) /\
    (returns (call (call_setTransparencies [])) c /\
     size (exec (call (call_setTransparencies [])) c) = 0) /\
    size (exec (call (call_setValues [])) c) = 1.
Proof.
  intros E m l v hs fn c. split; [|split].
  - split; [now exists tt|reflexivity].
  - split; [now exists tt|reflexivity].
  - unfold size, exec, elements. cbn [call]. rewrite setValues_run.
    cbn [snd fields PropertyMaterialList._lValueList bool_decide decide_rel decide
         list_eq_nil_dec].
    now rewrite length_resize.
Qed.

(** ** Binary streams *)

Lemma Z_of_byte_of_Z (z : Z) : Z_of_byte (byte_of_Z z) = z mod 256.
Proof.
  unfold Z_of_byte, byte_of_Z.
  pose proof (Z.mod_pos_bound z 256 ltac:(lia)) as Hb.
  pose proof (Byte.to_of_N_option_map (Z.to_N (z mod 256))) as Hn.
  destruct (Byte.of_N (Z.to_N (z mod 256))) as [y|];
    cbn [option_map default from_option id] in *.
  - destruct (N.leb_spec (Z.to_N (z mod 256)) 255) as [_|Hgt]; [|discriminate Hn].
    injection Hn as ->. lia.
  - destruct (N.leb_spec (Z.to_N (z mod 256)) 255) as [_|Hgt]; [discriminate Hn|lia].
Qed.

Lemma decode_encode_uint32 (v : Z) : decode_uint32 (encode_uint32 v) = v mod 2 ^ 32.
Proof.
  unfold decode_uint32, encode_uint32. rewrite !Z_of_byte_of_Z.
  change (2 ^ 8) with 256. change (2 ^ 16) with 65536.
  change (2 ^ 24) with 16777216. change (2 ^ 32) with 4294967296.
  Z.to_euclidean_division_equations. lia.
Qed.

Lemma read_bytes_app (bs rest : Stream) :
  read_bytes (length bs) (bs ++ rest) = (Return bs, rest).
Proof.
  unfold read_bytes. rewrite length_app.
  destruct (Nat.leb_spec (length bs) (length bs + length rest)) as [_|Hlt]; [|lia].
  now rewrite take_app_length, drop_app_length.
Qed.

Lemma read_uint32_encode (v : Z) (rest : Stream) :
  read_uint32 (encode_uint32 v ++ rest) = (Return (v mod 2 ^ 32), rest).
Proof.
  unfold read_uint32. cbv beta iota zeta delta [mbind M_bind bind].
  change 4%nat with (length (encode_uint32 v)).
  rewrite read_bytes_app. unfold ret. now rewrite decode_encode_uint32.
Qed.

Lemma write_uint32_run (v : Z) (s : Stream) :
  write_uint32 v s = (Return tt, s ++ encode_uint32 v).
Proof. reflexivity. Qed.

(** ** The material list: binary persistence *)

Section Persistence.
Context `{External}.

Lemma for_each_writes {A} (body : A -> M Stream unit) (enc : A -> list Byte.byte)
    (l : list A) :
  Forall (fun it => forall st, body it st = (Return tt, st ++ enc it)) l ->
  forall st, for_each body l st = (Return tt, st ++ concat (map enc l)).
Proof.
  induction 1 as [|it l Hit _ IH]; intros st; cbn [for_each map concat].
  - unfold ret. now rewrite app_nil_r.
  - cbv beta iota zeta delta [mbind M_bind bind]. rewrite Hit, IH.
    now rewrite <- app_assoc.
Qed.

Lemma write_fixed_run (it : Material) (st : Stream) :
  (write_uint32 (getPackedValue (ambientColor it));;
   write_uint32 (getPackedValue (diffuseColor it));;
   write_uint32 (getPackedValue (specularColor it));;
   write_uint32 (getPackedValue (emissiveColor it));;
   write_float (shininess it);;
   write_float (transparency it)) st
  = (Return tt, st ++ fixed_record it).
Proof.
  unfold write_float. cbv beta iota zeta delta [mbind M_bind bind].
  rewrite !write_uint32_run. unfold fixed_record. now rewrite <- !app_assoc.
Qed.

Lemma writeString_run (s : string) (st : Stream) :
  fits_uint32 (string_size s) ->
  PropertyMaterialList.writeString s st = (Return tt, st ++ length_prefixed s).
Proof.
  intros Hfit. unfold PropertyMaterialList.writeString, length_prefixed, fits_uint32 in *.
  rewrite Z.mod_small by exact Hfit.
  cbv beta iota zeta delta [mbind M_bind bind]. rewrite write_uint32_run.
  unfold write_bytes, modify, string_size. rewrite Nat2Z.id.
  rewrite firstn_all. now rewrite <- app_assoc.
Qed.

Lemma write_strings_run (it : Material) (st : Stream) :
  fits_uint32 (string_size (image it)) /\
  fits_uint32 (string_size (imagePath it)) /\
  fits_uint32 (string_size (uuid it)) ->
  (PropertyMaterialList.writeString (image it);;
   PropertyMaterialList.writeString (imagePath it);;
   PropertyMaterialList.writeString (uuid it)) st
  = (Return tt, st ++ string_record it).
Proof.
  intros (H1 & H2 & H3). cbv beta iota zeta delta [mbind M_bind bind].
  rewrite (writeString_run _ _ H1), (writeString_run _ _ H2), (writeString_run _ _ H3).
  unfold string_record. now rewrite <- !app_assoc.
Qed.

(** The layout of the version-3 buffer: the count, the fixed-size fields of
    every element, then the strings of every element. *)
Lemma SaveDocFile_layout (self : PropertyMaterialList.Fields) (st : Stream) :
  let l := PropertyMaterialList._lValueList self in
  storable l ->
  PropertyMaterialList.SaveDocFile self st =
  (Return tt,
   st ++ encode_uint32 (Z.of_nat (length l))
      ++ concat (map fixed_record l) ++ concat (map string_record l)).
Proof.
  intros l [Hlen Hstr]. unfold PropertyMaterialList.SaveDocFile. fold l.
  unfold fits_uint32 in Hlen. rewrite Z.mod_small by exact Hlen.
  cbv beta iota zeta delta [mbind M_bind bind]. rewrite write_uint32_run.
  rewrite (for_each_writes _ fixed_record).
  2:{ apply Forall_forall. intros it _ st'. apply write_fixed_run. }
  rewrite (for_each_writes _ string_record).
  2:{ eapply Forall_impl; [exact Hstr|]. intros it Hit st'. now apply write_strings_run. }
  now rewrite <- !app_assoc.
Qed.

Lemma read_fixed_run (it d : Material) (rest : Stream) :
  PropertyMaterialList.read_fixed d (fixed_record it ++ rest)
  = (Return (reread_fixed it d), rest).
Proof.
  unfold PropertyMaterialList.read_fixed, read_float, fixed_record.
  cbv beta iota zeta delta [mbind M_bind bind]. rewrite <- !app_assoc.
  now rewrite !read_uint32_encode.
Qed.

Lemma for_each_read_fixed (d : Material) (l : list Material) (rest : Stream) :
  for_each_ref PropertyMaterialList.read_fixed (replicate (length l) d)
    (concat (map fixed_record l) ++ rest)
  = (Return (map (fun it => reread_fixed it d) l), rest).
Proof.
  revert rest. induction l as [|it l IH]; intros rest; [reflexivity|].
  cbn [length replicate map concat for_each_ref].
  cbv beta iota zeta delta [mbind M_bind bind]. rewrite <- app_assoc.
  now rewrite read_fixed_run, IH.
Qed.

Lemma readString_run (s : string) (rest : Stream) :
  fits_uint32 (string_size s) ->
  PropertyMaterialList.readString (length_prefixed s ++ rest) = (Return s, rest).
Proof.
  intros Hfit. unfold PropertyMaterialList.readString, length_prefixed.
  cbv beta iota zeta delta [mbind M_bind bind]. rewrite <- app_assoc.
  rewrite read_uint32_encode. unfold fits_uint32 in Hfit.
  rewrite Z.mod_small by exact Hfit. unfold string_size. rewrite Nat2Z.id.
  rewrite read_bytes_app. unfold ret. now rewrite string_of_list_byte_of_string.
Qed.

Lemma read_strings_run (it v : Material) (rest : Stream) :
  fits_uint32 (string_size (image it)) /\
  fits_uint32 (string_size (imagePath it)) /\
  fits_uint32 (string_size (uuid it)) ->
  PropertyMaterialList.read_strings v (string_record it ++ rest)
  = (Return (with_strings it v), rest).
Proof.
  intros (H1 & H2 & H3). unfold PropertyMaterialList.read_strings, string_record.
  cbv beta iota zeta delta [mbind M_bind bind]. rewrite <- !app_assoc.
  now rewrite (readString_run _ _ H1), (readString_run _ _ H2), (readString_run _ _ H3).
Qed.

Lemma for_each_read_strings (g : Material -> Material) (l : list Material)
    (rest : Stream) :
  Forall (fun it => fits_uint32 (string_size (image it)) /\
                    fits_uint32 (string_size (imagePath it)) /\
                    fits_uint32 (string_size (uuid it))) l ->
  for_each_ref PropertyMaterialList.read_strings (map g l)
    (concat (map string_record l) ++ rest)
  = (Return (map (fun it => with_strings it (g it)) l), rest).
Proof.
  intros Hl. revert rest. induction Hl as [|it l Hit _ IH]; intros rest; [reflexivity|].
  cbn [map concat for_each_ref].
  cbv beta iota zeta delta [mbind M_bind bind]. rewrite <- app_assoc.
  now rewrite (read_strings_run _ _ _ Hit), IH.
Qed.



Lemma parse_saved (l : list Material) :
  storable l ->
  (count ← read_uint32;
   values ← for_each_ref PropertyMaterialList.read_fixed
              (replicate (Z.to_nat count) Material_new);
   for_each_ref PropertyMaterialList.read_strings values)
    (encode_uint32 (Z.of_nat (length l))
       ++ concat (map fixed_record l) ++ concat (map string_record l))
  = (Return (map (fun it => with_strings it (reread_fixed it Material_new)) l), []).
Proof.
  intros [Hlen Hstr]. cbv beta iota zeta delta [mbind M_bind bind].
  rewrite read_uint32_encode. unfold fits_uint32 in Hlen.
  rewrite Z.mod_small by exact Hlen. rewrite Nat2Z.id.
  rewrite for_each_read_fixed.
  rewrite <- (app_nil_r (concat (map string_record l))).
  now rewrite (for_each_read_strings _ _ _ Hstr).
Qed.



End Persistence.



(** ** The material list: restoring without a known version *)

Lemma read_int32_encode (v : Z) (rest : Stream) :
  - 2 ^ 31 <= v < 2 ^ 31 ->
  read_int32 (encode_uint32 v ++ rest) = (Return v, rest).
Proof.
  intros Hv. unfold read_int32. cbv beta iota zeta delta [mbind M_bind bind].
  rewrite read_uint32_encode. unfold ret. f_equal. f_equal.
  change (2 ^ 31) with 2147483648 in *. change (2 ^ 32) with 4294967296.
  destruct (Z.ltb_spec (v mod 4294967296) 2147483648);
    Z.to_euclidean_division_equations; lia.
Qed.

(** C6, as the code has it. When the restore runs with a format version that
    is neither 2 nor 3, a negative 32-bit value at the head of the stream is
    a version tag: it is skipped, and the unsigned 32-bit value that follows
    it is the version-0 element count; a non-negative value at the head is
    itself the version-0 element count. *)
Theorem restore_without_version :
  forall (E : External) (c : PropertyMaterialList.t) (rest : Stream),
    PropertyMaterialList.formatVersion (fields c) <> PropertyMaterialList.Version_2 ->
    PropertyMaterialList.formatVersion (fields c) <> PropertyMaterialList.Version_3 ->
    (forall tag count : Z,
        - 2 ^ 31 <= tag < 0 -> fits_uint32 count ->
        PropertyMaterialList.RestoreDocFile
          (c, encode_uint32 tag ++ encode_uint32 count ++ rest)
        = PropertyMaterialList.RestoreDocFileV0 count (c, rest)) /\
    (forall count : Z,
        0 <= count < 2 ^ 31 ->
        PropertyMaterialList.RestoreDocFile (c, encode_uint32 count ++ rest)
        = PropertyMaterialList.RestoreDocFileV0 count (c, rest)).
Proof.
  intros E c rest H2 H3.
  assert (Hv2 : (PropertyMaterialList.formatVersion (fields c)
                 =? PropertyMaterialList.Version_2) = false) by now apply Z.eqb_neq.
  assert (Hv3 : (PropertyMaterialList.formatVersion (fields c)
                 =? PropertyMaterialList.Version_3) = false) by now apply Z.eqb_neq.
  split.
  - intros tag count Htag Hcount. rewrite RestoreDocFile_run. cbv zeta.
    rewrite Hv2, Hv3, read_int32_encode by lia.
    replace (tag <? 0) with true by (symmetry; apply Z.ltb_lt; lia).
    rewrite read_uint32_encode. unfold fits_uint32 in Hcount.
    now rewrite Z.mod_small by exact Hcount.
  - intros count Hcount. rewrite RestoreDocFile_run. cbv zeta.
    rewrite Hv2, Hv3, read_int32_encode by lia.
    now replace (count <? 0) with false by (symmetry; apply Z.ltb_ge; lia).
Qed.

Lemma restore_without_version_witness :
  let E := levels_External in
  let c := mkCell (PropertyMaterialList.mkFields [Material_new] 0) [] "Doc#Box.Materials" in
  let rest := fixed_record Material_new in
  PropertyMaterialList.RestoreDocFile (c, encode_uint32 (-3) ++ encode_uint32 1 ++ rest)
  = PropertyMaterialList.RestoreDocFileV0 1 (c, rest) /\
  PropertyMaterialList.RestoreDocFile (c, encode_uint32 1 ++ rest)
  = PropertyMaterialList.RestoreDocFileV0 1 (c, rest).
Proof.
  intros E c rest.
  destruct (restore_without_version E c rest) as [Htag Hcount];
    [discriminate|discriminate|].
  split.
  - apply Htag; unfold fits_uint32; lia.
  - apply Hcount. lia.
Defined.

(** C6 as stated fails: at the head of the stream the value [-1] is read;
    the restore then takes the next word, [2], as the element count and
    restores two elements; [-1] is not reinterpreted as a count (as an
    unsigned 32-bit value it is 4294967295). *)
Lemma negative_tag_is_not_the_count :
  let E := levels_External in
  let c := mkCell (PropertyMaterialList.mkFields [Material_new] 0) [] "Doc#Box.Materials" in
  let reader := encode_uint32 (-1) ++ encode_uint32 2
                  ++ fixed_record Material_new ++ fixed_record Material_new in
  fst (read_int32 reader) = Return (-1) /\
  returns PropertyMaterialList.RestoreDocFile (c, reader) /\
  size (fst (exec PropertyMaterialList.RestoreDocFile (c, reader))) = 2 /\
  2 <> (-1) mod 2 ^ 32.
Proof.
  cbv zeta. split; [vm_compute; reflexivity|].
  split; [exists tt; vm_compute; reflexivity|].
  split; [vm_compute; reflexivity|].
  change ((-1) mod 2 ^ 32) with 4294967295. lia.
Qed.

(** ** [Paste] *)

Section PasteProperties.
Context `{External}.

Ltac unfold_paste :=
  unfold Paste, PropertyInteger_Paste, PropertyPath_Paste, PropertyEnumeration_Paste,
    PropertyIntegerList_Paste, PropertyIntegerSet_Paste, PropertyFloat_Paste,
    PropertyFloatList_Paste, PropertyString_Paste, PropertyUUID_Paste,
    PropertyStringList_Paste, PropertyMap_Paste, PropertyBool_Paste,
    PropertyBoolList_Paste, PropertyColor_Paste, PropertyColorList_Paste,
    PropertyMaterial_Paste, PropertyMaterialList_Paste, PropertyPersistentObject_Paste,
    PropertyListsT_setValues, dynamic_cast, assign.

Lemma fired_bracket {V} (d d' : V) (hs : list Hook) (fn fn' : string) :
  fired (mkCell d hs fn) (mkCell d' ((hs ++ [AboutToSetValue]) ++ [HasSetValue]) fn')
  = [AboutToSetValue; HasSetValue].
Proof. unfold fired. cbn [hooks]. now rewrite <- app_assoc, drop_app_length. Qed.

Lemma fired_nothing {V} (d d' : V) (hs : list Hook) (fn fn' : string) :
  fired (mkCell d hs fn) (mkCell d' hs fn') = [].
Proof. unfold fired. cbn [hooks]. now rewrite drop_all. Qed.

Lemma Paste_rejected (c : Cell Property) (from : Property) :
  derives_from (class_of from) (paste_class (class_of (fields c))) = false ->
  throws (Paste from) c bad_cast /\ fields (exec (Paste from) c) = fields c.
Proof.
  destruct c as [dest hs fn]. cbn [fields].
  destruct dest, from; intros Hd; vm_compute in Hd; try discriminate Hd;
    split; reflexivity.
Qed.

Ltac unfold_typed :=
  unfold on_subobject, PropertyString.setValue_string, PropertyString.setValue,
    PropertyString.set_cValue, PropertyMaterialList.setValues,
    PropertyMaterialList.PropertyListsT_setValues, PropertyMaterialList.setSize,
    PropertyMaterialList.getList, PropertyMaterialList.setList.

Ltac case_tests :=
  repeat match goal with
         | |- context [String.eqb ?x ?y] => destruct (String.eqb_spec x y)
         | |- context [bool_decide ?P] => destruct (bool_decide_reflect P)
         | |- context [PropertyString.Label ?f] =>
             destruct (PropertyString.Label f) eqn:?
         end.

Lemma Paste_accepted (c : Cell Property) (from : Property) :
  derives_from (class_of from) (paste_class (class_of (fields c))) = true ->
  returns (Paste from) c.
Proof.
  destruct c as [dest hs fn]. cbn [fields].
  destruct dest, from; intros Hd; vm_compute in Hd; try discriminate Hd; clear Hd;
    unfold returns; unfold_paste; unfold_typed; run_list;
    cbn [as_PropertyString as_PropertyMaterialList as_PropertyPersistentObject
         PropertyString._cValue PropertyString.Label fst snd negb orb andb];
    case_tests; try (exists tt; reflexivity).
Qed.

Ltac destruct_fields :=
  repeat match goal with
         | f : PropertyMaterialList.Fields |- _ => destruct f
         | f : PropertyString.Fields |- _ => destruct f
         end.

Ltac run_paste :=
  unfold exec; unfold_paste; unfold_typed; run_list;
  cbn [as_PropertyString as_PropertyMaterialList as_PropertyPersistentObject
       PropertyString._cValue PropertyString.Label fst snd negb orb andb
       fields hooks FullName value_of with_string with_lValue with_dValue
       PropertyMaterialList._lValueList].

Lemma Paste_same_class_value (c : Cell Property) (from : Property) :
  class_of from = class_of (fields c) ->
  value_of from <> VMaterials [] ->
  unlabelled (fields c) ->
  nul_free from ->
  value_of (fields (exec (Paste from) c)) = value_of from.
Proof.
  destruct c as [dest hs fn]. cbn [fields].
  destruct dest, from; intros Hk; try discriminate Hk; clear Hk; destruct_fields;
    cbn [value_of unlabelled nul_free PropertyString._cValue PropertyString.Label
         PropertyMaterialList._lValueList]; intros Hne Hl Hnf; run_paste;
    rewrite ?Hnf; case_tests; run_paste; subst; try reflexivity; try congruence.
Qed.

Ltac solve_fired :=
  first [ apply fired_bracket | apply fired_nothing | congruence
        | exfalso; congruence ].

Lemma Paste_same_class_bracket (c : Cell Property) (from : Property) :
  class_of from = class_of (fields c) ->
  compares_first (fields c) = false ->
  fired c (exec (Paste from) c) = [AboutToSetValue; HasSetValue].
Proof.
  destruct c as [dest hs fn]. cbn [fields].
  destruct dest, from; intros Hk; try discriminate Hk; clear Hk; destruct_fields;
    intros Hc; try discriminate Hc; clear Hc; run_paste; case_tests; run_paste;
    solve_fired.
Qed.

Lemma Paste_same_class_equal (c : Cell Property) (from : Property) :
  class_of from = class_of (fields c) ->
  compares_first (fields c) = true ->
  nul_free from ->
  value_of (fields c) = value_of from ->
  fired c (exec (Paste from) c) = [].
Proof.
  destruct c as [dest hs fn]. cbn [fields].
  destruct dest, from; intros Hk; try discriminate Hk; clear Hk; destruct_fields;
    intros Hc; try discriminate Hc; clear Hc;
    cbn [value_of nul_free PropertyString._cValue]; intros Hnf [= Hv]; subst;
    run_paste; rewrite ?Hnf; case_tests; run_paste; solve_fired.
Qed.

Lemma Paste_same_class_differs (c : Cell Property) (from : Property) :
  class_of from = class_of (fields c) ->
  compares_first (fields c) = true ->
  unlabelled (fields c) ->
  nul_free from ->
  value_of (fields c) <> value_of from ->
  fired c (exec (Paste from) c) = [AboutToSetValue; HasSetValue].
Proof.
  destruct c as [dest hs fn]. cbn [fields].
  destruct dest, from; intros Hk; try discriminate Hk; clear Hk; destruct_fields;
    intros Hc; try discriminate Hc; clear Hc;
    cbn [value_of unlabelled nul_free PropertyString._cValue PropertyString.Label];
    intros Hl Hnf Hv; run_paste; rewrite ?Hnf; case_tests; run_paste; subst; solve_fired.
Qed.

Lemma Paste_labelled (c : Cell Property) (from : Property) (h : string -> string)
    (cur src : string) :
  class_of from = class_of (fields c) ->
  labelled (fields c) h ->
  nul_free from ->
  value_of (fields c) = VText cur ->
  value_of from = VText src ->
  value_of (fields (exec (Paste from) c))
  = VText (if String.eqb cur src then cur else h src).
Proof.
  destruct c as [dest hs fn]. cbn [fields].
  destruct dest, from; intros Hk; try discriminate Hk; clear Hk; destruct_fields;
    cbn [labelled nul_free value_of PropertyString._cValue PropertyString.Label];
    intros Hl; try contradiction; intros Hnf [= Hcur] [= Hsrc]; subst;
    run_paste; rewrite ?Hnf; case_tests; run_paste; subst;
    try reflexivity; try congruence.
Qed.

Lemma Paste_empty_materials (c : Cell Property) (from : Property) :
  class_of from = class_of (fields c) ->
  value_of from = VMaterials [] ->
  exists m : Material, value_of (fields (exec (Paste from) c)) = VMaterials [m].
Proof.
  destruct c as [dest hs fn]. cbn [fields].
  destruct dest, from; intros Hk; try discriminate Hk; clear Hk; destruct_fields;
    cbn [value_of PropertyMaterialList._lValueList]; intros [= Hv]; subst.
  run_paste. cbn.
  change (Z.to_nat 1) with 1%nat.
  match goal with |- context [resize _ _ ?l] => destruct l as [|m0 l0] end.
  - now exists Material_new.
  - exists m0. cbn. now rewrite resize_0.
Qed.

Lemma Paste_labelled_fired (c : Cell Property) (from : Property) (h : string -> string)
    (cur src : string) :
  class_of from = class_of (fields c) ->
  labelled (fields c) h ->
  nul_free from ->
  value_of (fields c) = VText cur ->
  value_of from = VText src ->
  fired c (exec (Paste from) c)
  = if String.eqb cur src || String.eqb cur (h src) then []
    else [AboutToSetValue; HasSetValue].
Proof.
  destruct c as [dest hs fn]. cbn [fields].
  destruct dest, from; intros Hk; try discriminate Hk; clear Hk; destruct_fields;
    cbn [labelled nul_free value_of PropertyString._cValue PropertyString.Label];
    intros Hl; try contradiction; intros Hnf [= Hcur] [= Hsrc]; subst;
    run_paste; rewrite ?Hnf; case_tests; run_paste; subst; try solve_fired;
    exfalso; match goal with Hno : ~ is_Some (Some _) |- _ => apply Hno; eauto end.
Qed.

End PasteProperties.

(** C7, as the code has it. [Paste(from)] throws [std::bad_cast], leaving
    the destination's fields as they were, exactly when [from] is not an
    instance of the class the destination's [Paste] casts to; it returns
    normally for every instance of that class, a derived one included. When
    [from] has the destination's own class (and, for a string cell, its text
    has no embedded NUL): the destination's value becomes the source's (for a
    cell that is not an object's label, and except that a material list
    pasted from an empty list is left with one element); a cell that does not
    compare first fires one pre-hook/post-hook bracket; a string or
    persistent-object cell fires none when the value is already the
    source's, and one bracket when it differs (label cells apart); and the
    label cell ends with the text its hook settles on, firing no hook when
    it already holds the source's text or the text the hook settles on, and
    one bracket otherwise. *)
Theorem Paste_by_class :
  forall (E : External) (c : Cell Property) (from : Property),
    let c' := exec (Paste from) c in
    (derives_from (class_of from) (paste_class (class_of (fields c))) = false ->
     throws (Paste from) c bad_cast /\ fields c' = fields c) /\
    (derives_from (class_of from) (paste_class (class_of (fields c))) = true ->
     returns (Paste from) c) /\
    (class_of from = class_of (fields c) -> nul_free from ->
     returns (Paste from) c /\
     (value_of from <> VMaterials [] -> unlabelled (fields c) ->
      value_of (fields c') = value_of from) /\
     (value_of from = VMaterials [] ->
      exists m : Material, value_of (fields c') = VMaterials [m]) /\
     (compares_first (fields c) = false ->
      fired c c' = [AboutToSetValue; HasSetValue]) /\
     (compares_first (fields c) = true -> value_of (fields c) = value_of from ->
      fired c c' = []) /\
     (compares_first (fields c) = true -> unlabelled (fields c) ->
      value_of (fields c) <> value_of from ->
      fired c c' = [AboutToSetValue; HasSetValue]) /\
     (forall (h : string -> string) (cur src : string),
         labelled (fields c) h ->
         value_of (fields c) = VText cur -> value_of from = VText src ->
         value_of (fields c') = VText (if String.eqb cur src then cur else h src) /\
         fired c c' = if String.eqb cur src || String.eqb cur (h src) then []
                      else [AboutToSetValue; HasSetValue])).
Proof.
  intros E c from c'. subst c'. split; [|split].
  - apply Paste_rejected.
  - apply Paste_accepted.
  - intros Hk Hnf. split; [|split; [|split; [|split; [|split; [|split]]]]].
    + apply Paste_accepted. rewrite Hk.
      now destruct (class_of (fields c)).
    + intros Hne Hl. now apply Paste_same_class_value.
    + intros Hempty. now apply Paste_empty_materials.
    + intros Hc. now apply Paste_same_class_bracket.
    + intros Hc Hv. now apply Paste_same_class_equal.
    + intros Hc Hl Hv. now apply Paste_same_class_differs.
    + intros h cur src Hl Hcur Hsrc.
      split; [now apply (Paste_labelled c from h)|now apply (Paste_labelled_fired c from h)].
Qed.

Lemma Paste_by_class_witness :
  let E := levels_External in
  let count := mkCell (PropertyInteger_ 7) [] "Doc#Box.Count" in
  let name := mkCell (PropertyString_ (PropertyString.mkFields "Box" None)) [] "Doc#Box.Name" in
  (throws (Paste (PropertyFloat_ double_one)) count bad_cast /\
   fields (exec (Paste (PropertyFloat_ double_one)) count) = fields count) /\
  returns (Paste (PropertyPercent_ 42 None)) count /\
  (value_of (fields (exec (Paste (PropertyInteger_ 42)) count)) = VLong 42 /\
   fired count (exec (Paste (PropertyInteger_ 42)) count) = [AboutToSetValue; HasSetValue]) /\
  fired name (exec (Paste (PropertyString_ (PropertyString.mkFields "Lid" None))) name)
  = [AboutToSetValue; HasSetValue] /\
  let numbered := fun s : string => String.append s "001" in
  let label := mkCell (PropertyString_ (PropertyString.mkFields "Lid001" (Some numbered)))
                      [] "Doc#Box.Label" in
  fired label (exec (Paste (PropertyString_ (PropertyString.mkFields "Lid" None))) label)
  = [].
Proof.
  intros E count name. split; [|split; [|split; [|split]]].
  - destruct (Paste_by_class E count (PropertyFloat_ double_one)) as (Hrejected & _ & _).
    apply Hrejected. reflexivity.
  - destruct (Paste_by_class E count (PropertyPercent_ 42 None)) as (_ & Haccepted & _).
    apply Haccepted. reflexivity.
  - destruct (Paste_by_class E count (PropertyInteger_ 42)) as (_ & _ & Hsame).
    destruct Hsame as (_ & Hvalue & _ & Hbracket & _); [reflexivity|exact I|].
    split.
    + apply Hvalue; [discriminate|exact I].
    + apply Hbracket. reflexivity.
  - destruct (Paste_by_class E name (PropertyString_ (PropertyString.mkFields "Lid" None)))
      as (_ & _ & Hsame).
    destruct Hsame as (_ & _ & _ & _ & _ & Hdiffers & _); [reflexivity|reflexivity|].
    apply Hdiffers; [reflexivity|reflexivity|discriminate].
  - intros numbered label.
    destruct (Paste_by_class E label (PropertyString_ (PropertyString.mkFields "Lid" None)))
      as (_ & _ & Hsame).
    destruct Hsame as (_ & _ & _ & _ & _ & _ & Hlabel); [reflexivity|reflexivity|].
    apply (Hlabel numbered "Lid001" "Lid"); reflexivity.
Defined.

(** C7 as stated fails twice. A source of a different concrete kind is
    accepted when its class derives from the class the destination casts to:
    a [PropertyPercent] pasted into a [PropertyInteger] returns and its value
    is copied. And a same-kind [Paste] fires no hook at all on a string cell
    that already holds the source's text. *)
Lemma Paste_derived_accepted_and_equal_string_silent :
  let E := levels_External in
  let count := mkCell (PropertyInteger_ 7) [] "Doc#Box.Count" in
  let percent := PropertyPercent_ 42 (Some PropertyIntegerConstraint.percent) in
  let name := mkCell (PropertyString_ (PropertyString.mkFields "Box" None)) [] "Doc#Box.Name" in
  let same := PropertyString_ (PropertyString.mkFields "Box" None) in
  (class_of percent <> class_of (fields count) /\
   returns (Paste percent) count /\
   fields (exec (Paste percent) count) = PropertyInteger_ 42) /\
  (class_of same = class_of (fields name) /\
   returns (Paste same) name /\
   fired name (exec (Paste same) name) = []).
Proof.
  cbv zeta. split.
  - split; [discriminate|]. split; [now exists tt|reflexivity].
  - split; [reflexivity|]. split; [now exists tt|reflexivity].
Qed.

(** * Further properties of the cells *)

(** ** The material list: broadcast and bulk setters, and the getters *)

Section MaterialListBroadcast.
Context `{External}.

Lemma call_broadcast_frame (s : FieldSetter) :
  exists f : Material -> Material,
    call_broadcast s = PropertyMaterialList.broadcast f /\
    forall m, targeted_field_set s (f m) /\ same_but (target s) m (f m).
Proof.
  destruct s; eexists; (split; [reflexivity|]); intros m;
    (split; [reflexivity|]); unfold same_but; cbn; repeat split; congruence.
Qed.

(** X1. A field setter called without an index returns, fires one
    notification bracket, and leaves every element with the targeted field
    equal to the supplied value and its other fields as they were. The number
    of elements is kept, except that an empty list first receives one
    default material. *)
Theorem broadcast_setter_sets_every_element :
  forall (s : FieldSetter) (c : PropertyMaterialList.t),
    let c' := exec (call_broadcast s) c in
    returns (call_broadcast s) c /\
    fired c c' = [AboutToSetValue; HasSetValue] /\
    size c' = Z.max 1 (size c) /\
    Forall (targeted_field_set s) (elements c') /\
    (forall (i : nat) (m : Material),
        elements c !! i = Some m ->
        exists m', elements c' !! i = Some m' /\ same_but (target s) m m') /\
    (elements c = [] ->
     exists m', elements c' = [m'] /\ same_but (target s) Material_new m').
Proof.
  intros s c. destruct (call_broadcast_frame s) as (f & -> & Hf).
  cbv zeta. unfold returns, exec. rewrite broadcast_run. cbn [fst snd].
  split; [now exists tt|]. split.
  { destruct c as [d hs fn]. apply fired_bracket. }
  unfold size, elements. cbn [fields PropertyMaterialList._lValueList].
  set (l := PropertyMaterialList._lValueList (fields c)).
  destruct (Z.of_nat (length l) <? 1) eqn:Hs.
  - assert (Hnil : l = []) by (apply Z.ltb_lt in Hs; apply nil_length_inv; lia).
    rewrite Hnil. cbn. repeat split.
    + constructor; [apply Hf|constructor].
    + intros i m Hi. now rewrite lookup_nil in Hi.
    + intros _. eexists. split; [reflexivity|apply Hf].
  - apply Z.ltb_ge in Hs. rewrite length_fmap. repeat split.
    + lia.
    + apply Forall_fmap, Forall_forall. intros m _. apply Hf.
    + intros i m Hi. exists (f m). rewrite list_lookup_fmap, Hi. split; [reflexivity|apply Hf].
    + intros Hnil. rewrite Hnil in Hs. cbn in Hs. lia.
Qed.

End MaterialListBroadcast.

Section MaterialListBulk.
Context `{External}.

(** The assignment loop of the bulk setters, on the elements [mid] that
    follow the first [length pre] ones. *)
Lemma assign_from_zip {A} (f : A -> Material -> Material) (xs : list A) :
  forall (pre mid post : list Material) (v : Z) (hs : list Hook) (fn : string),
    length mid = length xs ->
    PropertyMaterialList.assign_from f (Z.of_nat (length pre)) xs
      (mkCell (PropertyMaterialList.mkFields (pre ++ mid ++ post) v) hs fn)
    = (Return tt,
       mkCell (PropertyMaterialList.mkFields (pre ++ zip_with f xs mid ++ post) v) hs fn).
Proof.
  induction xs as [|x xs IH]; intros pre mid post v hs fn Hlen.
  - destruct mid; [reflexivity|discriminate].
  - destruct mid as [|y mid]; [discriminate|]. injection Hlen as Hlen.
    cbn [PropertyMaterialList.assign_from].
    unfold PropertyMaterialList.at_index, PropertyMaterialList.getList,
      PropertyMaterialList.setList.
    run_list. rewrite Nat2Z.id.
    replace (alter (f x) (length pre) (pre ++ (y :: mid) ++ post))
      with ((pre ++ [f x y]) ++ mid ++ post).
    2:{ rewrite <- (Nat.add_0_r (length pre)) at 1. rewrite alter_app_r.
        cbn. now rewrite <- app_assoc. }
    replace (Z.of_nat (length pre) + 1) with (Z.of_nat (length (pre ++ [f x y])))
      by (rewrite length_app; cbn [length]; lia).
    rewrite (IH _ _ _ _ _ _ Hlen). cbn [zip_with]. now rewrite <- app_assoc.
Qed.

Lemma bulk_zip {A} (f : A -> Material -> Material) (xs : list A)
    (m : Material) (l : list Material) (v : Z) (hs : list Hook) (fn : string) :
  (aboutToSetValue;;
   def ← PropertyMaterialList.front;
   PropertyMaterialList.setSize_def (Z.of_nat (length xs)) def;;
   PropertyMaterialList.assign_from f 0 xs;;
   hasSetValue) (mkCell (PropertyMaterialList.mkFields (m :: l) v) hs fn)
  = (Return tt,
     mkCell (PropertyMaterialList.mkFields
               (zip_with f xs (resize (length xs) m (m :: l))) v)
            ((hs ++ [AboutToSetValue]) ++ [HasSetValue]) fn).
Proof.
  unfold PropertyMaterialList.front, PropertyMaterialList.setSize_def,
    PropertyMaterialList.getList, PropertyMaterialList.setList.
  run_list. rewrite Nat2Z.id.
  pose proof (assign_from_zip f xs [] (resize (length xs) m (m :: l)) [] v
                (hs ++ [AboutToSetValue]) fn) as Hrun.
  cbn [length app] in Hrun. change (Z.of_nat 0) with 0 in Hrun.
  rewrite !app_nil_r in Hrun.
  rewrite Hrun by apply length_resize. reflexivity.
Qed.

Lemma bulk_element {A} (f : A -> Material -> Material) (fld : FieldName)
    (xs : list A) (m0 : Material) (l : list Material) (i : nat) (m' : Material) :
  (forall x m, same_but fld m (f x m)) ->
  zip_with f xs (resize (length xs) m0 l) !! i = Some m' ->
  same_but fld (default m0 (l !! i)) m'.
Proof.
  intros Hf Hi. apply lookup_zip_with_Some in Hi as (x & y & -> & Hx & Hy).
  apply lookup_lt_Some in Hx as Hlt.
  destruct (decide (i < length l)%nat) as [Hin|Hout].
  - rewrite lookup_resize in Hy by assumption. rewrite Hy. apply Hf.
  - rewrite lookup_resize_new in Hy by lia. injection Hy as <-.
    rewrite lookup_ge_None_2 by lia. apply Hf.
Qed.

(** X2. On a list that is not empty, [setDiffuseColors] and
    [setTransparencies] return and fire one bracket; [getDiffuseColors]
    (resp. [getTransparencies]) then returns exactly the collection that was
    set. Every other field of an element is kept, the elements added when the
    list grows being copies of the former first element. *)
Theorem bulk_setters_round_trip :
  forall (c : PropertyMaterialList.t) (m0 : Material),
    elements c !! 0%nat = Some m0 ->
    (forall colors : list Color,
        let c' := exec (PropertyMaterialList.setDiffuseColors colors) c in
        returns (PropertyMaterialList.setDiffuseColors colors) c /\
        fired c c' = [AboutToSetValue; HasSetValue] /\
        PropertyMaterialList_getDiffuseColors c' = (Return colors, c') /\
        (forall (i : nat) (m' : Material),
            elements c' !! i = Some m' ->
            same_but fDiffuseColor (default m0 (elements c !! i)) m')) /\
    (forall transparencies : list float32,
        let c' := exec (PropertyMaterialList.setTransparencies transparencies) c in
        returns (PropertyMaterialList.setTransparencies transparencies) c /\
        fired c c' = [AboutToSetValue; HasSetValue] /\
        PropertyMaterialList_getTransparencies c' = (Return transparencies, c') /\
        (forall (i : nat) (m' : Material),
            elements c' !! i = Some m' ->
            same_but fTransparency (default m0 (elements c !! i)) m')).
Proof.
  intros [[l v] hs fn] m0. unfold elements. cbn [fields PropertyMaterialList._lValueList].
  destruct l as [|m l]; [discriminate|]. intros [= ->].
  split; intros xs; cbv zeta;
    unfold returns, exec, PropertyMaterialList.setDiffuseColors,
      PropertyMaterialList.setTransparencies;
    rewrite bulk_zip; cbn [fst snd].
  - split; [now exists tt|]. split; [apply fired_bracket|]. split.
    + unfold PropertyMaterialList_getDiffuseColors, PropertyMaterialList.getList.
      run_list. rewrite fmap_zip_with_l; [reflexivity|reflexivity|].
      rewrite length_resize. lia.
    + cbn [fields PropertyMaterialList._lValueList]. intros i m'.
      apply bulk_element. intros x y. unfold same_but. cbn. repeat split; congruence.
  - split; [now exists tt|]. split; [apply fired_bracket|]. split.
    + unfold PropertyMaterialList_getTransparencies, PropertyMaterialList.getList.
      run_list. rewrite fmap_zip_with_l; [reflexivity|reflexivity|].
      rewrite length_resize. lia.
    + cbn [fields PropertyMaterialList._lValueList]. intros i m'.
      apply bulk_element. intros x y. unfold same_but. cbn. repeat split; congruence.
Qed.

End MaterialListBulk.

Lemma bulk_setters_round_trip_witness :
  let E := levels_External in
  let c := mkCell (PropertyMaterialList.mkFields [set_image "oak.png" Material_new] 3) []
                  "Doc#Box.Materials" in
  let colors := [mkColor 255 0 0 255; mkColor 0 255 0 255] in
  PropertyMaterialList_getDiffuseColors (exec (PropertyMaterialList.setDiffuseColors colors) c)
  = (Return colors, exec (PropertyMaterialList.setDiffuseColors colors) c) /\
  PropertyMaterialList_getTransparencies (exec (PropertyMaterialList.setTransparencies [7; 9]) c)
  = (Return [7; 9], exec (PropertyMaterialList.setTransparencies [7; 9]) c).
Proof.
  intros E c colors.
  destruct (bulk_setters_round_trip c (set_image "oak.png" Material_new) eq_refl)
    as (Hcolors & Htransparencies).
  split.
  - apply (Hcolors colors).
  - apply (Htransparencies [7; 9]).
Defined.

(** ** The material list: notification and failure of the mutators *)

Section MaterialListNotification.
Context `{External}.

Lemma bulk_throws_on_empty {A} (f : A -> Material -> Material) (xs : list A)
    (v : Z) (hs : list Hook) (fn : string) :
  (aboutToSetValue;;
   def ← PropertyMaterialList.front;
   PropertyMaterialList.setSize_def (Z.of_nat (length xs)) def;;
   PropertyMaterialList.assign_from f 0 xs;;
   hasSetValue) (mkCell (PropertyMaterialList.mkFields [] v) hs fn)
  = (Throw Undefined,
     mkCell (PropertyMaterialList.mkFields [] v) (hs ++ [AboutToSetValue]) fn).
Proof. reflexivity. Qed.

Lemma fired_setValues (newValues : list Material) (c : PropertyMaterialList.t) :
  fired c (exec (PropertyMaterialList.setValues newValues) c)
  = [AboutToSetValue; HasSetValue].
Proof.
  unfold exec. rewrite setValues_run. destruct c as [d hs fn]. apply fired_bracket.
Qed.

Lemma fired_indexed (index : Z) (f : Material -> Material) (c : PropertyMaterialList.t) :
  returns (PropertyMaterialList.indexed index f) c ->
  fired c (exec (PropertyMaterialList.indexed index f) c) = [AboutToSetValue; HasSetValue].
Proof.
  unfold returns, exec. rewrite indexed_run. cbv zeta.
  destruct (_ || _); [intros [x Hx]; discriminate Hx|intros _].
  destruct c as [d hs fn]. apply fired_bracket.
Qed.

(** X3. Whatever mutator of the material list is called (a replacement, a
    field setter with or without an index, a bulk setter, [Paste] or
    [RestoreDocFile]), a call that returns has fired exactly one
    notification bracket: the pre-hook once, then the post-hook once. *)
Theorem mutators_fire_one_bracket :
  forall (mu : Mutator) (c : PropertyMaterialList.t),
    returns (call mu) c ->
    fired c (exec (call mu) c) = [AboutToSetValue; HasSetValue].
Proof.
  intros mu c Hret. destruct mu as [nv| |mat|index mat|s|s index|colors|ts|from|rd];
    cbn [call] in *.
  - apply fired_setValues.
  - unfold PropertyMaterialList.setValue, exec. rewrite setValue_mat_run.
    destruct c as [d hs fn]. apply fired_bracket.
  - unfold exec. rewrite setValue_mat_run. destruct c as [d hs fn]. apply fired_bracket.
  - now apply fired_indexed.
  - destruct (call_broadcast_run s) as [f ->]. unfold exec. rewrite broadcast_run.
    destruct c as [d hs fn]. apply fired_bracket.
  - destruct (call_indexed_run s index c) as (f & Hf & _). rewrite Hf in *.
    now apply fired_indexed.
  - destruct c as [[[|m l] v] hs fn]; revert Hret;
      unfold returns, exec, PropertyMaterialList.setDiffuseColors.
    + rewrite bulk_throws_on_empty. intros [x Hx]. discriminate Hx.
    + rewrite bulk_zip. intros _. apply fired_bracket.
  - destruct c as [[[|m l] v] hs fn]; revert Hret;
      unfold returns, exec, PropertyMaterialList.setTransparencies.
    + rewrite bulk_throws_on_empty. intros [x Hx]. discriminate Hx.
    + rewrite bulk_zip. intros _. apply fired_bracket.
  - revert Hret. unfold returns, exec. rewrite call_Paste_run.
    destruct (as_PropertyMaterialList from) as [f|]; [|intros [x Hx]; discriminate Hx].
    intros _. apply fired_setValues.
  - revert Hret. unfold returns at 1, exec at 1, call_RestoreDocFile.
    pose proof (RestoreDocFile_returns c rd) as Hr.
    unfold returns, exec in Hr.
    destruct (PropertyMaterialList.RestoreDocFile (c, rd)) as [res [c' rd']].
    cbn [fst snd] in *. intros Hret. destruct (Hr Hret) as [values ->].
    apply fired_setValues.
Qed.

(** X4. A mutator of the material list that sets, assigns or pastes
    (every mutator but the one restoring from a stream) and fails leaves the
    elements as they were. When the failure is one the code raises itself (an
    index out of bounds, a source of another class), the whole cell is
    untouched: no hook has fired. *)
Theorem mutators_fail_without_effect :
  forall (mu : Mutator) (c : PropertyMaterialList.t) (e : exn),
    reads_stream mu = false ->
    throws (call mu) c e ->
    elements (exec (call mu) c) = elements c /\
    (e <> Undefined -> exec (call mu) c = c).
Proof.
  intros mu c e Hmu. unfold throws, exec.
  destruct mu as [nv| |mat|index mat|s|s index|colors|ts|from|rd];
    try discriminate Hmu; clear Hmu; cbn [call].
  - rewrite setValues_run. discriminate.
  - unfold PropertyMaterialList.setValue. rewrite setValue_mat_run. discriminate.
  - rewrite setValue_mat_run. discriminate.
  - change (PropertyMaterialList.setValue_at index mat)
      with (PropertyMaterialList.indexed index (fun _ => mat)).
    rewrite indexed_run. cbv zeta. destruct (_ || _); [now intros _|discriminate].
  - destruct (call_broadcast_run s) as [f ->]. rewrite broadcast_run. discriminate.
  - destruct (call_indexed_run s index c) as (f & -> & _).
    rewrite indexed_run. cbv zeta. destruct (_ || _); [now intros _|discriminate].
  - destruct c as [[[|m l] v] hs fn]; unfold PropertyMaterialList.setDiffuseColors.
    + rewrite bulk_throws_on_empty. cbn [fst snd]. intros [= <-]. now split.
    + rewrite bulk_zip. discriminate.
  - destruct c as [[[|m l] v] hs fn]; unfold PropertyMaterialList.setTransparencies.
    + rewrite bulk_throws_on_empty. cbn [fst snd]. intros [= <-]. now split.
    + rewrite bulk_zip. discriminate.
  - rewrite call_Paste_run.
    destruct (as_PropertyMaterialList from) as [f|]; [|now intros _].
    rewrite setValues_run. discriminate.
Qed.

End MaterialListNotification.

Lemma mutators_fire_one_bracket_witness :
  let E := levels_External in
  let c := mkCell (PropertyMaterialList.mkFields [] 3) [] "Doc#Box.Materials" in
  fired c (exec (call (call_field (Shininess 5))) c) = [AboutToSetValue; HasSetValue] /\
  fired c (exec (call (call_Paste_from (PropertyMaterialList_
                                          (PropertyMaterialList.mkFields [] 0)))) c)
  = [AboutToSetValue; HasSetValue].
Proof.
  intros E c. split.
  - apply (mutators_fire_one_bracket (call_field (Shininess 5)) c). now exists tt.
  - apply (mutators_fire_one_bracket
             (call_Paste_from (PropertyMaterialList_ (PropertyMaterialList.mkFields [] 0))) c).
    now exists tt.
Defined.

Lemma mutators_fail_without_effect_witness :
  let E := levels_External in
  let c := mkCell (PropertyMaterialList.mkFields [Material_new] 3) [] "Doc#Box.Materials" in
  exec (call (call_field_at (Shininess 5) 2)) c = c /\
  exec (call (call_Paste_from (PropertyInteger_ 1))) c = c.
Proof.
  intros E c. split.
  - apply (mutators_fail_without_effect (call_field_at (Shininess 5) 2) c
             (RuntimeError "index out of bound")); [reflexivity|reflexivity|discriminate].
  - apply (mutators_fail_without_effect (call_Paste_from (PropertyInteger_ 1)) c bad_cast);
      [reflexivity|reflexivity|discriminate].
Defined.

(** ** The material list: the legacy layout, and the exact round trip *)

Section MaterialListLayouts.
Context `{External}.

Lemma RestoreDocFileV0_records (dst : PropertyMaterialList.t) (l : list Material)
    (rest : Stream) :
  PropertyMaterialList.RestoreDocFileV0 (Z.of_nat (length l))
    (dst, concat (map fixed_record l) ++ rest)
  = (Return tt,
     (exec (PropertyMaterialList.setValues
              (map (fun it => reread_fixed it Material_new) l)) dst, rest)).
Proof. now rewrite RestoreDocFileV0_run, Nat2Z.id, for_each_read_fixed. Qed.

(** X5. The layouts older than version 3 are a count followed by the
    fixed-size records, with no strings. A cell restoring under version 2
    reads the count and the records; a cell with an unknown version reads
    the same buffer when the count is below [2^31], and also the buffer
    that starts with a negative tag. In each case the elements come back with
    their six fixed-size fields and empty strings, one bracket fires, and
    the reader stops right after the last record. *)
Theorem legacy_layouts_restore_fixed_fields :
  forall (dst : PropertyMaterialList.t) (l : list Material) (rest : Stream),
    let n := Z.of_nat (length l) in
    let records := concat (map fixed_record l) in
    let restored := map (fun it => reread_fixed it Material_new) l in
    let outcome := (Return tt, (exec (PropertyMaterialList.setValues restored) dst, rest)) in
    fits_uint32 n -> l <> [] ->
    (elements (exec (PropertyMaterialList.setValues restored) dst) = restored /\
     Forall no_strings restored /\
     fired dst (exec (PropertyMaterialList.setValues restored) dst)
     = [AboutToSetValue; HasSetValue]) /\
    (PropertyMaterialList.formatVersion (fields dst) = PropertyMaterialList.Version_2 ->
     PropertyMaterialList.RestoreDocFile (dst, encode_uint32 n ++ records ++ rest) = outcome) /\
    (PropertyMaterialList.formatVersion (fields dst) <> PropertyMaterialList.Version_2 ->
     PropertyMaterialList.formatVersion (fields dst) <> PropertyMaterialList.Version_3 ->
     (n < 2 ^ 31 ->
      PropertyMaterialList.RestoreDocFile (dst, encode_uint32 n ++ records ++ rest) = outcome) /\
     (forall tag : Z,
         - 2 ^ 31 <= tag < 0 ->
         PropertyMaterialList.RestoreDocFile
           (dst, encode_uint32 tag ++ encode_uint32 n ++ records ++ rest) = outcome)).
Proof.
  intros dst l rest n records restored outcome Hn Hne. unfold fits_uint32 in Hn.
  split; [|split].
  - split; [|split].
    + unfold exec, elements. rewrite setValues_run.
      cbn [snd fields PropertyMaterialList._lValueList].
      rewrite bool_decide_eq_false_2; [reflexivity|].
      subst restored. destruct l; [congruence|discriminate].
    + subst restored. generalize l.
      induction l0 as [|it l0 IH]; cbn [map]; constructor; [reflexivity|exact IH].
    + apply fired_setValues.
  - intros Hv. rewrite RestoreDocFile_run. cbv zeta. rewrite Hv.
    change (PropertyMaterialList.Version_2 =? PropertyMaterialList.Version_2) with true.
    cbv iota. rewrite read_uint32_encode, Z.mod_small by exact Hn.
    apply RestoreDocFileV0_records.
  - intros Hv2 Hv3.
    assert (Hrun := RestoreDocFile_run dst). cbv zeta in Hrun.
    apply Z.eqb_neq in Hv2, Hv3. split.
    + intros Hsmall. rewrite Hrun, Hv2, Hv3.
      rewrite read_int32_encode by lia.
      destruct (Z.ltb_spec n 0) as [Hneg|_]; [lia|].
      apply RestoreDocFileV0_records.
    + intros tag Htag. rewrite Hrun, Hv2, Hv3.
      rewrite read_int32_encode by lia.
      destruct (Z.ltb_spec tag 0) as [_|Hpos]; [|lia].
      rewrite read_uint32_encode, Z.mod_small by exact Hn.
      apply RestoreDocFileV0_records.
Qed.

Lemma reread_exact (it : Material) :
  exactly_representable it -> with_strings it (reread_fixed it Material_new) = it.
Proof.
  intros (Ha & Hd & Hs & He & Hsh & Htr). destruct it.
  unfold with_strings, reread_fixed, set_uuid, set_imagePath, set_image, pack_stable,
    fits_uint32 in *.
  cbn in *. rewrite Ha, Hd, Hs, He, !Z.mod_small by assumption. reflexivity.
Qed.

(** X6. [SaveDocFile] followed by [RestoreDocFile] under version 3 gives
    back the very list that was saved, with all nine fields of every element,
    when the list is not empty, its counts fit 32 bits and the fixed-size
    fields of its elements are exactly representable in the format. The
    restore fires one bracket and consumes the whole buffer. *)
Theorem material_list_exact_round_trip :
  forall src dst : PropertyMaterialList.t,
    let l := elements src in
    let run := PropertyMaterialList.RestoreDocFile (dst, saved (fields src)) in
    storable l -> l <> [] -> Forall exactly_representable l ->
    PropertyMaterialList.formatVersion (fields dst) = PropertyMaterialList.Version_3 ->
    fst run = Return tt /\
    elements (fst (snd run)) = l /\
    fired dst (fst (snd run)) = [AboutToSetValue; HasSetValue] /\
    snd (snd run) = [].
Proof.
  intros src dst l run Hst Hne Hex Hv3. subst run.
  assert (Hsaved : saved (fields src)
                   = encode_uint32 (Z.of_nat (length l))
                       ++ concat (map fixed_record l) ++ concat (map string_record l)).
  { unfold saved, exec. now rewrite (SaveDocFile_layout _ _ Hst). }
  rewrite Hsaved, RestoreDocFile_run. cbv zeta. rewrite Hv3.
  change (PropertyMaterialList.Version_3 =? PropertyMaterialList.Version_2) with false.
  change (PropertyMaterialList.Version_3 =? PropertyMaterialList.Version_3) with true.
  cbv iota. rewrite RestoreDocFileV3_run, (parse_saved _ Hst). cbn [fst snd].
  assert (Hvalues : forall l0, Forall exactly_representable l0 ->
             map (fun it => with_strings it (reread_fixed it Material_new)) l0 = l0).
  { induction 1 as [|it l0 Hit _ IH]; cbn [map]; [reflexivity|].
    now rewrite reread_exact, IH. }
  rewrite (Hvalues l Hex). split; [reflexivity|]. split; [|split; [apply fired_setValues|reflexivity]].
  unfold exec, elements at 1. rewrite setValues_run.
  cbn [snd fields PropertyMaterialList._lValueList].
  now rewrite bool_decide_eq_false_2.
Qed.

End MaterialListLayouts.

Lemma legacy_layouts_restore_fixed_fields_witness :
  let E := levels_External in
  let dst := mkCell (PropertyMaterialList.mkFields [Material_new] 2) [] "Doc#Box.Materials" in
  let oak := set_image "oak.png" Material_new in
  PropertyMaterialList.RestoreDocFile
    (dst, encode_uint32 1 ++ concat (map fixed_record [oak]) ++ string_record oak)
  = (Return tt,
     (exec (PropertyMaterialList.setValues [reread_fixed oak Material_new]) dst,
      string_record oak)).
Proof.
  intros E dst oak.
  assert (Hfits : fits_uint32 (Z.of_nat (length [oak]))) by (unfold fits_uint32; simpl; lia).
  assert (Hne : [oak] <> []) by discriminate.
  destruct (legacy_layouts_restore_fixed_fields dst [oak] (string_record oak) Hfits Hne)
    as (_ & Hv2 & _).
  apply Hv2. reflexivity.
Defined.

Lemma material_list_exact_round_trip_witness :
  let E := levels_External in
  let oak := set_diffuseColor (mkColor 200 150 90 255)
               (set_uuid "a1" (set_image "oak.png" Material_new)) in
  let src := mkCell (PropertyMaterialList.mkFields [oak; Material_new] 3) []
                    "Doc#Box.Materials" in
  let dst := mkCell (PropertyMaterialList.mkFields [Material_new] 3) []
                    "Doc#Copy.Materials" in
  elements (fst (snd (PropertyMaterialList.RestoreDocFile (dst, saved (fields src)))))
  = [oak; Material_new].
Proof.
  intros E oak src dst.
  apply (material_list_exact_round_trip src dst).
  - subst src oak. unfold storable, elements, fits_uint32. simpl. split; [lia|].
    repeat constructor; vm_compute; congruence.
  - discriminate.
  - subst src oak. unfold elements, exactly_representable, pack_stable, fits_uint32. simpl.
    repeat constructor; vm_compute; congruence.
  - reflexivity.
Defined.

(** ** The color list: binary persistence *)

Section ColorListPersistence.
Context `{External}.

Lemma ColorList_SaveDocFile_layout (l : list Color) (st : Stream) :
  fits_uint32 (Z.of_nat (length l)) ->
  PropertyColorList.SaveDocFile l st
  = (Return tt,
     st ++ encode_uint32 (Z.of_nat (length l))
        ++ concat (map (fun it => encode_uint32 (getPackedValue it)) l)).
Proof.
  intros Hlen. unfold PropertyColorList.SaveDocFile, PropertyColorList.getSize, fits_uint32 in *.
  cbv beta iota zeta delta [mbind M_bind bind].
  rewrite write_uint32_run, Z.mod_small by exact Hlen.
  rewrite (for_each_writes _ (fun it => encode_uint32 (getPackedValue it))).
  - now rewrite <- app_assoc.
  - apply Forall_forall. intros it _ st'. apply write_uint32_run.
Qed.

Lemma ColorList_read_values (l : list Color) (rest : Stream) :
  PropertyColorList.read_values (length l)
    (concat (map (fun it => encode_uint32 (getPackedValue it)) l) ++ rest)
  = (Return (map (fun it => setPackedValue (getPackedValue it mod 2 ^ 32)) l), rest).
Proof.
  induction l as [|it l IH]; [reflexivity|].
  cbn [length map concat PropertyColorList.read_values].
  cbv beta iota zeta delta [mbind M_bind bind].
  rewrite <- app_assoc, read_uint32_encode.
  fold (PropertyColorList.read_values (length l)). now rewrite IH.
Qed.

Lemma ColorList_RestoreDocFile_run (dst : PropertyColorList.t) (l : list Color)
    (rest : Stream) :
  fits_uint32 (Z.of_nat (length l)) ->
  PropertyColorList.RestoreDocFile
    (dst, encode_uint32 (Z.of_nat (length l))
            ++ concat (map (fun it => encode_uint32 (getPackedValue it)) l) ++ rest)
  = (Return tt,
     (mkCell (map (fun it => setPackedValue (getPackedValue it mod 2 ^ 32)) l)
             ((hooks dst ++ [AboutToSetValue]) ++ [HasSetValue]) (FullName dst),
      rest)).
Proof.
  intros Hlen. unfold fits_uint32 in Hlen. unfold PropertyColorList.RestoreDocFile.
  cbv beta iota zeta delta [mbind M_bind bind]. unfold on_snd. cbn [fst snd].
  rewrite read_uint32_encode, Z.mod_small by exact Hlen. cbn [fst snd].
  rewrite Nat2Z.id, ColorList_read_values.
  destruct dst as [d hs fn]. reflexivity.
Qed.

(** X7. The binary form of a color list is its count, in 32 bits, then one
    packed 32-bit value per color. [RestoreDocFile] on what [SaveDocFile]
    wrote returns, fires one bracket, stops right after the last color, and
    holds as many colors as were saved, each one the color its packed value
    denotes; the list comes back unchanged when its colors are exactly
    representable in packed form. An empty list comes back empty. *)
Theorem color_list_round_trip :
  forall (dst : PropertyColorList.t) (l : list Color) (rest : Stream),
    let buffer := exec (PropertyColorList.SaveDocFile l) [] in
    let run := PropertyColorList.RestoreDocFile (dst, buffer ++ rest) in
    fits_uint32 (Z.of_nat (length l)) ->
    length buffer = (4 + 4 * length l)%nat /\
    fst run = Return tt /\
    fields (fst (snd run))
    = map (fun it => setPackedValue (getPackedValue it mod 2 ^ 32)) l /\
    (Forall pack_stable l -> fields (fst (snd run)) = l) /\
    fired dst (fst (snd run)) = [AboutToSetValue; HasSetValue] /\
    snd (snd run) = rest.
Proof.
  intros dst l rest buffer run Hlen. subst run buffer. unfold exec.
  rewrite (ColorList_SaveDocFile_layout l [] Hlen). cbn [snd app].
  split.
  { rewrite length_app. cbn [length encode_uint32]. f_equal.
    clear. induction l as [|it l IH]; [reflexivity|].
    cbn [map concat]. rewrite length_app, IH. cbn [length encode_uint32]. lia. }
  rewrite <- app_assoc, (ColorList_RestoreDocFile_run dst l rest Hlen). cbn [fst snd fields].
  split; [reflexivity|]. split; [reflexivity|].
  split; [|split; [destruct dst; apply fired_bracket|reflexivity]].
  clear. induction 1 as [|it l0 Hit _ IH]; cbn [map]; [reflexivity|].
  unfold pack_stable in Hit. now rewrite Hit, IH.
Qed.

End ColorListPersistence.

Lemma color_list_round_trip_witness :
  let E := levels_External in
  let dst := mkCell [] [] "Doc#Box.Colors" in
  let l := [mkColor 255 0 0 255; mkColor 0 128 0 255] in
  fields (fst (snd (PropertyColorList.RestoreDocFile
                      (dst, exec (PropertyColorList.SaveDocFile l) [] ++ []))))
  = l.
Proof.
  intros E dst l.
  assert (Hfits : fits_uint32 (Z.of_nat (length l))) by (unfold fits_uint32; simpl; lia).
  destruct (color_list_round_trip dst l [] Hfits) as (_ & _ & _ & Hexact & _).
  apply Hexact. subst l. repeat constructor.
Defined.

(** ** The integer set *)

Lemma IntegerSet_collect_ints (items : list PyObject) :
  Forall (fun item => PyLong_Check item = true) items ->
  forall (values : gset Z) (c : PropertyIntegerSet.t),
    PropertyIntegerSet.collect items values c
    = (Return (list_to_set (PyLong_AsLong <$> items) ∪ values), c).
Proof.
  induction 1 as [|item items Hitem _ IH]; intros values c.
  - cbn [PropertyIntegerSet.collect]. rewrite fmap_nil, list_to_set_nil.
    now rewrite (left_id_L ∅ (∪)).
  - cbn [PropertyIntegerSet.collect]. rewrite Hitem. cbn [negb]. rewrite IH.
    rewrite fmap_cons, list_to_set_cons. f_equal. f_equal.
    now rewrite (assoc_L (∪)), (comm_L (∪) (list_to_set _)).
Qed.

Lemma IntegerSet_collect_rejects (pre post : list PyObject) (bad : PyObject) :
  Forall (fun item => PyLong_Check item = true) pre ->
  PyLong_Check bad = false ->
  forall (values : gset Z) (c : PropertyIntegerSet.t),
    PropertyIntegerSet.collect (pre ++ bad :: post) values c
    = (Throw (TypeError ("type in list must be int, not " ++ tp_name bad)), c).
Proof.
  intros Hpre Hbad. induction Hpre as [|item pre Hitem _ IH]; intros values c.
  - cbn [app PropertyIntegerSet.collect]. now rewrite Hbad.
  - cbn [app PropertyIntegerSet.collect]. rewrite Hitem. cbn [negb]. apply IH.
Qed.

Lemma IntegerSet_setPyObject_sequence (value : PyObject) (c : PropertyIntegerSet.t) :
  PySequence_Check value = true ->
  Forall (fun item => PyLong_Check item = true) (sequence_items value) ->
  PropertyIntegerSet.setPyObject value c
  = (Return tt,
     mkCell (list_to_set (PyLong_AsLong <$> sequence_items value))
            ((hooks c ++ [AboutToSetValue]) ++ [HasSetValue]) (FullName c)).
Proof.
  intros Hseq Hints. unfold PropertyIntegerSet.setPyObject. rewrite Hseq.
  cbv beta iota zeta delta [mbind M_bind bind].
  rewrite (IntegerSet_collect_ints _ Hints). destruct c as [d hs fn].
  unfold PropertyIntegerSet.setValues. run_method.
  now rewrite (right_id_L ∅ (∪)).
Qed.

(** X8. Assigning a list or a tuple of ints to the integer-set cell returns,
    fires one bracket and replaces the content by the set of the values of
    the items: an integer is a member exactly when some item holds it, so
    repetitions and the order of the items do not matter, and what the cell
    held before is gone. Assigning a single int leaves the singleton. *)
Theorem integer_set_setPyObject_stores_the_set :
  (forall (c : PropertyIntegerSet.t) (value : PyObject) (items : list PyObject),
      value = PyList items \/ value = PyTuple items ->
      Forall (fun item => PyLong_Check item = true) items ->
      let c' := exec (PropertyIntegerSet.setPyObject value) c in
      returns (PropertyIntegerSet.setPyObject value) c /\
      fired c c' = [AboutToSetValue; HasSetValue] /\
      (forall z : Z,
          z ∈ PropertyIntegerSet.getValues c'
          <-> exists item, item ∈ items /\ PyLong_AsLong item = z) /\
      (forall items' : list PyObject,
          Forall (fun item => PyLong_Check item = true) items' ->
          (forall item, item ∈ items <-> item ∈ items') ->
          PropertyIntegerSet.getValues (exec (PropertyIntegerSet.setPyObject (PyList items')) c)
          = PropertyIntegerSet.getValues c')) /\
  (forall (c : PropertyIntegerSet.t) (value : PyObject),
      PyLong_Check value = true ->
      let c' := exec (PropertyIntegerSet.setPyObject value) c in
      returns (PropertyIntegerSet.setPyObject value) c /\
      fired c c' = [AboutToSetValue; HasSetValue] /\
      PropertyIntegerSet.getValues c' = {[PyLong_AsLong value]}).
Proof.
  split.
  - intros c value items Hvalue Hints.
    assert (Hseq : PySequence_Check value = true) by (destruct Hvalue; subst; reflexivity).
    assert (Hitems : sequence_items value = items) by (destruct Hvalue; subst; reflexivity).
    cbv zeta. unfold returns, exec, PropertyIntegerSet.getValues.
    rewrite IntegerSet_setPyObject_sequence by (rewrite ?Hitems; assumption).
    rewrite Hitems. cbn [fst snd fields].
    split; [now exists tt|]. split; [destruct c; apply fired_bracket|]. split.
    + intros z. rewrite elem_of_list_to_set, list_elem_of_fmap. split.
      * intros (item & -> & Hin). now exists item.
      * intros (item & Hin & <-). now exists item.
    + intros items' Hints' Hsame.
      rewrite (IntegerSet_setPyObject_sequence (PyList items')) by (try reflexivity; assumption).
      cbn [snd fields sequence_items]. apply set_eq. intros z.
      rewrite !elem_of_list_to_set, !list_elem_of_fmap.
      split; intros (item & -> & Hin); exists item; (split; [reflexivity|]); now apply Hsame.
  - intros c value Hint. cbv zeta.
    unfold returns, exec, PropertyIntegerSet.getValues, PropertyIntegerSet.setPyObject.
    destruct value; try discriminate Hint; cbn [PySequence_Check PyLong_Check];
      unfold PropertyIntegerSet.setValue; run_method; cbn [fst snd fields];
      (split; [now exists tt|]); (split; [destruct c; apply fired_bracket|]);
      apply (right_id_L ∅ (∪)).
Qed.

Lemma integer_set_setPyObject_stores_the_set_witness :
  let c := mkCell {[7]} [] "Doc#Box.Faces" in
  let c' := exec (PropertyIntegerSet.setPyObject (PyList [PyLong 3; PyLong 1; PyLong 3])) c in
  (3 ∈ PropertyIntegerSet.getValues c' <->
   exists item, item ∈ [PyLong 3; PyLong 1; PyLong 3] /\ PyLong_AsLong item = 3) /\
  PropertyIntegerSet.getValues (exec (PropertyIntegerSet.setPyObject (PyBool true)) c)
  = {[PyLong_AsLong (PyBool true)]}.
Proof.
  intros c c'.
  destruct integer_set_setPyObject_stores_the_set as (Hlist & Hint).
  split.
  - apply (Hlist c (PyList [PyLong 3; PyLong 1; PyLong 3]) [PyLong 3; PyLong 1; PyLong 3]).
    + left. reflexivity.
    + repeat constructor.
  - apply (Hint c (PyBool true)). reflexivity.
Defined.

(** X9. The integer-set cell rejects a sequence as soon as one item is not
    an int, with a type error naming the type of the first such item, and
    rejects a value that is neither a sequence nor an int, naming its type;
    in both cases the cell keeps its content and no hook fires. A string is
    taken as a sequence of characters: it is rejected unless it is empty, in
    which case the cell is emptied. *)
Theorem integer_set_setPyObject_rejects :
  (forall (c : PropertyIntegerSet.t) (value : PyObject) (pre post : list PyObject)
          (bad : PyObject),
      PySequence_Check value = true ->
      sequence_items value = pre ++ bad :: post ->
      Forall (fun item => PyLong_Check item = true) pre ->
      PyLong_Check bad = false ->
      throws (PropertyIntegerSet.setPyObject value) c
             (TypeError ("type in list must be int, not " ++ tp_name bad)) /\
      exec (PropertyIntegerSet.setPyObject value) c = c) /\
  (forall (c : PropertyIntegerSet.t) (value : PyObject),
      PySequence_Check value = false -> PyLong_Check value = false ->
      throws (PropertyIntegerSet.setPyObject value) c
             (TypeError ("type must be int or list of int, not " ++ tp_name value)) /\
      exec (PropertyIntegerSet.setPyObject value) c = c) /\
  (forall (c : PropertyIntegerSet.t) (s : string),
      s <> EmptyString ->
      throws (PropertyIntegerSet.setPyObject (PyUnicode s)) c
             (TypeError "type in list must be int, not str") /\
      exec (PropertyIntegerSet.setPyObject (PyUnicode s)) c = c) /\
  (forall c : PropertyIntegerSet.t,
      returns (PropertyIntegerSet.setPyObject (PyUnicode EmptyString)) c /\
      PropertyIntegerSet.getValues
        (exec (PropertyIntegerSet.setPyObject (PyUnicode EmptyString)) c) = ∅).
Proof.
  assert (Hseq : forall (c : PropertyIntegerSet.t) value pre post bad,
             PySequence_Check value = true ->
             sequence_items value = pre ++ bad :: post ->
             Forall (fun item => PyLong_Check item = true) pre ->
             PyLong_Check bad = false ->
             PropertyIntegerSet.setPyObject value c
             = (Throw (TypeError ("type in list must be int, not " ++ tp_name bad)), c)).
  { intros c value pre post bad Hs Hitems Hpre Hbad.
    unfold PropertyIntegerSet.setPyObject. rewrite Hs, Hitems.
    cbv beta iota zeta delta [mbind M_bind bind].
    now rewrite (IntegerSet_collect_rejects pre post bad Hpre Hbad). }
  split; [|split; [|split]].
  - intros c value pre post bad Hs Hitems Hpre Hbad. unfold throws, exec.
    now rewrite (Hseq c value pre post bad Hs Hitems Hpre Hbad).
  - intros c value Hs Hint. unfold throws, exec, PropertyIntegerSet.setPyObject.
    now rewrite Hs, Hint.
  - intros c [|ch s] Hne; [congruence|]. unfold throws, exec.
    now rewrite (Hseq c (PyUnicode (String ch s)) [] _ (PyUnicode (String ch EmptyString))
                   eq_refl eq_refl (Forall_nil_2 _) eq_refl).
  - intros c. split; [now exists tt|]. reflexivity.
Qed.

Lemma integer_set_setPyObject_rejects_witness :
  let c := mkCell {[7]} [] "Doc#Box.Faces" in
  (throws (PropertyIntegerSet.setPyObject (PyList [PyLong 3; PyFloat double_one; PyNone])) c
          (TypeError "type in list must be int, not float") /\
   exec (PropertyIntegerSet.setPyObject (PyList [PyLong 3; PyFloat double_one; PyNone])) c = c) /\
  (throws (PropertyIntegerSet.setPyObject PyNone) c
          (TypeError "type must be int or list of int, not NoneType") /\
   exec (PropertyIntegerSet.setPyObject PyNone) c = c) /\
  (throws (PropertyIntegerSet.setPyObject (PyUnicode "12")) c
          (TypeError "type in list must be int, not str") /\
   exec (PropertyIntegerSet.setPyObject (PyUnicode "12")) c = c).
Proof.
  intros c.
  destruct integer_set_setPyObject_rejects as (Hitem & Hother & Hstr & _).
  split; [|split].
  - apply (Hitem c (PyList [PyLong 3; PyFloat double_one; PyNone]) [PyLong 3] [PyNone]
             (PyFloat double_one)); try reflexivity. repeat constructor.
  - apply (Hother c PyNone); reflexivity.
  - apply (Hstr c "12"). discriminate.
Defined.

(** ** The map cell *)

(** X10. [setValue(key, value)] on the map cell returns and fires one
    bracket; afterwards [operator[]] gives [value] under [key] and what it
    gave before under every other key. The size grows by one when the key is
    new and is kept when the key was present. Under a key the map does not
    hold, [operator[]] gives the empty string. *)
Theorem map_setValue_then_lookup :
  forall (c : PropertyMap.t) (key value : string),
    let c' := exec (PropertyMap.setValue key value) c in
    returns (PropertyMap.setValue key value) c /\
    fired c c' = [AboutToSetValue; HasSetValue] /\
    PropertyMap.operator_index key c' = value /\
    (forall key' : string,
        key' <> key ->
        PropertyMap.operator_index key' c' = PropertyMap.operator_index key' c) /\
    (fields c !! key = None ->
     PropertyMap.operator_index key c = EmptyString /\
     PropertyMap.getSize c' = PropertyMap.getSize c + 1) /\
    (is_Some (fields c !! key) -> PropertyMap.getSize c' = PropertyMap.getSize c).
Proof.
  intros [m hs fn] key value. cbv zeta.
  unfold returns, exec, PropertyMap.setValue, PropertyMap.operator_index, PropertyMap.getSize.
  run_method. cbn [fst snd fields].
  split; [now exists tt|]. split; [apply fired_bracket|]. split; [|split; [|split]].
  - now rewrite lookup_insert_eq.
  - intros key' Hne. now rewrite lookup_insert_ne.
  - intros Hnone. rewrite Hnone. split; [reflexivity|].
    rewrite map_size_insert_None by exact Hnone. lia.
  - intros Hsome. now rewrite map_size_insert_Some.
Qed.

Lemma Map_convert_strings (items : list (PyObject * PyObject)) :
  Forall str_item items ->
  forall (values : gmap string string) (c : PropertyMap.t),
    PropertyMap.convert items values c
    = (Return (foldl (fun m kv => <[fst kv := snd kv]> m) values (map_entries items)), c).
Proof.
  induction 1 as [|[key item] items [Hkey Hitem] _ IH]; intros values c; [reflexivity|].
  cbn [PropertyMap.convert fst snd] in *. rewrite Hkey, Hitem. apply IH.
Qed.

Lemma Map_convert_rejects (pre post : list (PyObject * PyObject)) (key item : PyObject) :
  Forall str_item pre ->
  ~ str_item (key, item) ->
  forall (values : gmap string string) (c : PropertyMap.t),
    PropertyMap.convert (pre ++ (key, item) :: post) values c
    = (Throw (TypeError
                (if PyUnicode_Check key
                 then "type in values must be string, not " ++ tp_name item
                 else "type of the key need to be string, not " ++ tp_name key)), c).
Proof.
  intros Hpre Hbad. induction Hpre as [|[k v] pre [Hk Hv] _ IH]; intros values c.
  - cbn [app PropertyMap.convert]. unfold str_item in Hbad. cbn [fst snd] in Hbad.
    destruct (PyUnicode_Check key); [|reflexivity].
    destruct (PyUnicode_Check item); [|reflexivity]. now destruct Hbad.
  - cbn [app PropertyMap.convert fst snd] in *. rewrite Hk, Hv. apply IH.
Qed.

Lemma foldl_insert_other (entries : list (string * string)) (key : string) :
  key ∉ entries.*1 ->
  forall m : gmap string string,
    foldl (fun m kv => <[fst kv := snd kv]> m) m entries !! key = m !! key.
Proof.
  induction entries as [|[k v] entries IH]; intros Hnot m; [reflexivity|].
  cbn [foldl fst snd]. rewrite fmap_cons in Hnot. cbn [fst] in Hnot.
  apply not_elem_of_cons in Hnot as [Hne Hnot].
  rewrite IH by exact Hnot. now rewrite lookup_insert_ne.
Qed.

Lemma foldl_insert_entry (entries : list (string * string)) (key value : string) :
  NoDup entries.*1 ->
  (key, value) ∈ entries ->
  forall m : gmap string string,
    foldl (fun m kv => <[fst kv := snd kv]> m) m entries !! key = Some value.
Proof.
  induction entries as [|[k v] entries IH]; intros Hnodup Hin m.
  - now apply not_elem_of_nil in Hin.
  - rewrite fmap_cons in Hnodup. cbn [fst] in Hnodup.
    apply NoDup_cons in Hnodup as [Hfresh Hnodup].
    cbn [foldl fst snd]. apply elem_of_cons in Hin as [[= -> ->]|Hin].
    + rewrite foldl_insert_other by exact Hfresh. apply lookup_insert_eq.
    + now apply IH.
Qed.

(** X11. Assigning a dictionary to the map cell is all or nothing. When
    every key and every value is a string the call returns, fires one
    bracket and replaces the content: a key of the dictionary gives its
    value (the keys being distinct), any other key gives the empty string,
    whatever the cell held before. As soon as a key or a value is not a
    string the call fails with a type error naming the offending type (the
    key being checked before the value), and a value that is no mapping is
    rejected likewise; then the cell is untouched and no hook fires. *)
Theorem map_setPyObject_all_or_nothing :
  (forall (c : PropertyMap.t) (items : list (PyObject * PyObject)),
      Forall str_item items ->
      let c' := exec (PropertyMap.setPyObject (PyDict items)) c in
      returns (PropertyMap.setPyObject (PyDict items)) c /\
      fired c c' = [AboutToSetValue; HasSetValue] /\
      (forall key : string,
          key ∉ (map_entries items).*1 ->
          PropertyMap.operator_index key c' = EmptyString) /\
      (NoDup (map_entries items).*1 ->
       forall key value : string,
         (key, value) ∈ map_entries items ->
         PropertyMap.operator_index key c' = value)) /\
  (forall (c : PropertyMap.t) (pre post : list (PyObject * PyObject)) (key item : PyObject),
      Forall str_item pre ->
      ~ str_item (key, item) ->
      throws (PropertyMap.setPyObject (PyDict (pre ++ (key, item) :: post))) c
             (TypeError
                (if PyUnicode_Check key
                 then "type in values must be string, not " ++ tp_name item
                 else "type of the key need to be string, not " ++ tp_name key)) /\
      exec (PropertyMap.setPyObject (PyDict (pre ++ (key, item) :: post))) c = c) /\
  (forall (c : PropertyMap.t) (value : PyObject),
      PyMapping_Check value = false ->
      throws (PropertyMap.setPyObject value) c
             (TypeError ("type must be a dict or object with mapping protocol, not "
                         ++ tp_name value)) /\
      exec (PropertyMap.setPyObject value) c = c).
Proof.
  split; [|split].
  - intros c items Hitems. cbv zeta.
    unfold returns, exec, PropertyMap.setPyObject, PropertyMap.operator_index.
    cbn [PyMapping_Check]. cbv beta iota zeta delta [mbind M_bind bind].
    rewrite (Map_convert_strings items Hitems). destruct c as [m hs fn].
    unfold PropertyMap.setValues. run_method. cbn [fst snd fields].
    split; [now exists tt|]. split; [apply fired_bracket|]. split.
    + intros key Hnot. rewrite foldl_insert_other by exact Hnot.
      now rewrite lookup_empty.
    + intros Hnodup key value Hin. now rewrite (foldl_insert_entry _ key value Hnodup Hin).
  - intros c pre post key item Hpre Hbad.
    unfold throws, exec, PropertyMap.setPyObject.
    cbn [PyMapping_Check]. cbv beta iota zeta delta [mbind M_bind bind].
    now rewrite (Map_convert_rejects pre post key item Hpre Hbad).
  - intros c value Hmap. unfold throws, exec, PropertyMap.setPyObject. now rewrite Hmap.
Qed.

Lemma map_setPyObject_all_or_nothing_witness :
  let c := mkCell {["old" := "1"]} [] "Doc#Box.Tags" in
  let items := [(PyUnicode "color", PyUnicode "red"); (PyUnicode "size", PyUnicode "L")] in
  (PropertyMap.operator_index "old" (exec (PropertyMap.setPyObject (PyDict items)) c)
   = EmptyString /\
   PropertyMap.operator_index "size" (exec (PropertyMap.setPyObject (PyDict items)) c) = "L") /\
  (throws (PropertyMap.setPyObject (PyDict (items ++ [(PyUnicode "n", PyLong 3)]))) c
          (TypeError "type in values must be string, not int") /\
   exec (PropertyMap.setPyObject (PyDict (items ++ [(PyUnicode "n", PyLong 3)]))) c = c) /\
  (throws (PropertyMap.setPyObject (PyLong 3)) c
          (TypeError "type must be a dict or object with mapping protocol, not int") /\
   exec (PropertyMap.setPyObject (PyLong 3)) c = c).
Proof.
  intros c items.
  destruct map_setPyObject_all_or_nothing as (Hdict & Hitem & Hother).
  assert (Hstr : Forall str_item items) by (repeat constructor).
  split; [|split].
  - destruct (Hdict c items Hstr) as (_ & _ & Hmissing & Hfound). split.
    + apply Hmissing. subst items. cbn. rewrite !elem_of_cons, elem_of_nil.
      intros [H|[H|[]]]; discriminate H.
    + apply Hfound.
      * subst items. cbn. repeat constructor; rewrite ?elem_of_cons, ?elem_of_nil.
        -- intros [H|[]]; discriminate H.
        -- intros [].
      * subst items. cbn. rewrite !elem_of_cons. right. left. reflexivity.
  - apply (Hitem c items [] (PyUnicode "n") (PyLong 3) Hstr).
    intros [_ H]. discriminate H.
  - apply (Hother c (PyLong 3)). reflexivity.
Defined.

(** ** The string cell: the dynamic setter *)

Lemma c_str_idempotent (s : string) :
  PropertyString.c_str (PropertyString.c_str s) = PropertyString.c_str s.
Proof.
  induction s as [|ch s IH]; [reflexivity|]. cbn [PropertyString.c_str].
  destruct (Ascii.eqb ch "000") eqn:Hch; [reflexivity|].
  cbn [PropertyString.c_str]. now rewrite Hch, IH.
Qed.

Lemma String_setPyObject_run (s : string) (c : PropertyString.t) :
  PropertyString.Label (fields c) = None ->
  PropertyString_setPyObject (PyUnicode s) c =
  if String.eqb (PropertyString._cValue (fields c)) (PropertyString.c_str s) then
    (Return tt, c)
  else
    (Return tt,
     mkCell (PropertyString.mkFields (PropertyString.c_str s) None)
            ((hooks c ++ [AboutToSetValue]) ++ [HasSetValue]) (FullName c)).
Proof.
  destruct c as [[cur label] hs fn]. cbn [fields PropertyString.Label]. intros ->.
  unfold PropertyString_setPyObject, PropertyString.setValue_string, PropertyString.setValue,
    PropertyString.set_cValue.
  cbn [PyUnicode_Check PyUnicode_AsUTF8]. rewrite c_str_idempotent. run_method.
  cbn [PropertyString._cValue PropertyString.Label].
  destruct (String.eqb cur (PropertyString.c_str s)); [reflexivity|].
  rewrite bool_decide_eq_false_2 by (intros [x Hx]; discriminate Hx). reflexivity.
Qed.

(** X12. Assigning a string to a string cell that is not the label of a
    document object returns and leaves in the cell the text up to its first
    NUL character. One bracket fires when that text differs from what the
    cell held, none when it is the same, so that repeating the assignment
    changes nothing and stays silent. A value that is not a string is
    rejected with a type error naming its type, the cell being untouched. *)
Theorem string_setPyObject_assigns_c_string :
  (forall (c : PropertyString.t) (s : string),
      PropertyString.Label (fields c) = None ->
      let text := PropertyString.c_str s in
      let c' := exec (PropertyString_setPyObject (PyUnicode s)) c in
      returns (PropertyString_setPyObject (PyUnicode s)) c /\
      PropertyString._cValue (fields c') = text /\
      fired c c' = (if String.eqb (PropertyString._cValue (fields c)) text then []
                    else [AboutToSetValue; HasSetValue]) /\
      PropertyString_setPyObject (PyUnicode s) c' = (Return tt, c')) /\
  (forall (c : PropertyString.t) (value : PyObject),
      PyUnicode_Check value = false ->
      throws (PropertyString_setPyObject value) c
             (TypeError ("type must be str or unicode, not " ++ tp_name value)) /\
      exec (PropertyString_setPyObject value) c = c).
Proof.
  split.
  - intros c s Hlabel. cbv zeta. unfold returns, exec.
    rewrite (String_setPyObject_run s c Hlabel).
    destruct (String.eqb_spec (PropertyString._cValue (fields c)) (PropertyString.c_str s))
      as [Heq|Hne]; cbn [fst snd fields PropertyString._cValue].
    + split; [now exists tt|]. split; [exact Heq|]. split.
      * destruct c. apply fired_nothing.
      * rewrite (String_setPyObject_run s c Hlabel), Heq. now rewrite String.eqb_refl.
    + split; [now exists tt|]. split; [reflexivity|]. split.
      * destruct c. apply fired_bracket.
      * rewrite String_setPyObject_run by reflexivity.
        cbn [fields PropertyString._cValue]. now rewrite String.eqb_refl.
  - intros c value Hstr. unfold throws, exec, PropertyString_setPyObject. now rewrite Hstr.
Qed.

Lemma string_setPyObject_assigns_c_string_witness :
  let c := mkCell (PropertyString.mkFields "Box" None) [] "Doc#Box.Name" in
  let s := String "L" (String "i" (String "d" (String "000" "x"))) in
  (PropertyString._cValue (fields (exec (PropertyString_setPyObject (PyUnicode s)) c)) = "Lid" /\
   fired c (exec (PropertyString_setPyObject (PyUnicode s)) c)
   = [AboutToSetValue; HasSetValue]) /\
  (throws (PropertyString_setPyObject (PyLong 3)) c
          (TypeError "type must be str or unicode, not int") /\
   exec (PropertyString_setPyObject (PyLong 3)) c = c).
Proof.
  intros c s.
  destruct string_setPyObject_assigns_c_string as (Hstr & Hother).
  split.
  - destruct (Hstr c s eq_refl) as (_ & Hvalue & Hfired & _). split.
    + exact Hvalue.
    + exact Hfired.
  - apply (Hother c (PyLong 3)). reflexivity.
Defined.

(** ** The boolean cell: the path-value channel *)

Lemma Bool_setValue_run (lValue : bool) (c : PropertyBool.t) :
  PropertyBool.setValue lValue c
  = (Return tt, mkCell lValue ((hooks c ++ [AboutToSetValue]) ++ [HasSetValue]) (FullName c)).
Proof. reflexivity. Qed.

(** X13. Through the path-value channel the boolean cell takes a finite
    double as [true] exactly when its magnitude is at least one half (it is
    rounded, halfway away from zero, before the test against zero), whereas
    a quantity is [true] as soon as its value is not zero, and an integer as
    soon as it is not zero. A non-finite double fails with a rounding error,
    a string with [bad_cast], and a path with a sub-path is refused; the
    cell is then untouched. *)
Theorem bool_setPathValue_rounds_doubles :
  forall c : PropertyBool.t,
    (forall (s : bool) (m : positive) (e : Z),
        let d := S754_finite s m e in
        returns (PropertyBool.setPathValue root_path (any_double d)) c /\
        (PropertyBool.getValue (exec (PropertyBool.setPathValue root_path (any_double d)) c)
         = true <-> (0 <= e \/ 2 ^ (- e) <= 2 * Zpos m)) /\
        PropertyBool.getValue (exec (PropertyBool.setPathValue root_path (any_Quantity d)) c)
        = true) /\
    (forall z : Z,
        PropertyBool.getValue (exec (PropertyBool.setPathValue root_path (any_long z)) c)
        = negb (z =? 0)) /\
    (forall d : double,
        round d = None ->
        throws (PropertyBool.setPathValue root_path (any_double d)) c rounding_error /\
        exec (PropertyBool.setPathValue root_path (any_double d)) c = c) /\
    (forall text : string,
        throws (PropertyBool.setPathValue root_path (any_string text)) c bad_cast /\
        exec (PropertyBool.setPathValue root_path (any_string text)) c = c) /\
    (forall (path : ObjectIdentifier) (value : any),
        getSubPathStr path <> EmptyString ->
        throws (PropertyBool.setPathValue path value) c (ValueError "Invalid property path") /\
        exec (PropertyBool.setPathValue path value) c = c).
Proof.
  intros c. split; [|split; [|split; [|split]]].
  - intros s m e d. subst d.
    destruct (round_half_away_from_zero s m e) as (mag & Hround & Hmag).
    unfold returns, exec, PropertyBool.getValue, PropertyBool.setPathValue, verifyPath.
    cbn [root_path getSubPathStr String.eqb]. cbv beta iota zeta delta [mbind M_bind bind ret].
    rewrite Hround, !Bool_setValue_run. cbn [fst snd fields PropertyBool.double_nonzero].
    split; [now exists tt|]. split; [|reflexivity].
    rewrite negb_true_iff, Z.eqb_neq. unfold nearest_half_up in Hmag.
    assert (Hpos : 0 < 2 ^ (- e) \/ e > 0) by (destruct (Z.leb_spec 0 (- e)); [left; now apply Z.pow_pos_nonneg|right; lia]).
    destruct (Z.leb_spec 0 e) as [Hle|Hlt].
    + subst mag. split; [intros _; now left|intros _].
      assert (0 < Z.pos m * 2 ^ e) by (apply Z.mul_pos_pos; [lia|now apply Z.pow_pos_nonneg]).
      destruct s; lia.
    + assert (Hp : 0 < 2 ^ (- e)) by (apply Z.pow_pos_nonneg; lia).
      revert Hmag Hp. generalize (2 ^ (- e)). intros P Hmag Hp. split.
      * intros Hne. right. destruct s; nia.
      * intros [Hge|Hge]; [lia|]. destruct s; nia.
  - intros z. reflexivity.
  - intros d Hd. unfold throws, exec, PropertyBool.setPathValue, verifyPath.
    cbn [root_path getSubPathStr String.eqb]. cbv beta iota zeta delta [mbind M_bind bind ret].
    now rewrite Hd.
  - intros text. split; reflexivity.
  - intros path value Hsub. unfold throws, exec, PropertyBool.setPathValue, verifyPath.
    destruct (String.eqb_spec (getSubPathStr path) EmptyString) as [Heq|_]; [congruence|].
    split; reflexivity.
Qed.

Lemma bool_setPathValue_rounds_doubles_witness :
  let c := mkCell true [] "Doc#Box.Visible" in
  let d := S754_finite false 7205759403792794 (-54) in
  (PropertyBool.getValue (exec (PropertyBool.setPathValue root_path (any_double d)) c) = true
   <-> (0 <= -54 \/ 2 ^ (- -54) <= 2 * 7205759403792794)) /\
  PropertyBool.getValue (exec (PropertyBool.setPathValue root_path (any_Quantity d)) c) = true /\
  throws (PropertyBool.setPathValue root_path (any_double S754_nan)) c rounding_error /\
  throws (PropertyBool.setPathValue {| getSubPathStr := ".x" |} (any_bool false)) c
         (ValueError "Invalid property path").
Proof.
  intros c d.
  destruct (bool_setPathValue_rounds_doubles c) as (Hdouble & _ & Hnan & _ & Hpath).
  destruct (Hdouble false 7205759403792794%positive (-54)) as (_ & Hiff & Hquantity).
  split; [exact Hiff|]. split; [exact Hquantity|]. split.
  - apply (Hnan S754_nan). reflexivity.
  - apply (Hpath {| getSubPathStr := ".x" |} (any_bool false)). discriminate.
Defined.

(** ** The constrained cells: a descriptor, then assignments *)

(** X14. Once a dict or a tuple has installed a descriptor with
    [lo <= hi] on the constrained integer cell, the cell reports [lo], [hi]
    and the step (at least 1), holds the given value clamped, and every later
    assignment of an int stores that int clamped to [lo, hi] and keeps the
    descriptor: the value stays between [getMinimum] and [getMaximum]. *)
Theorem integer_descriptor_then_assignments_clamp :
  forall (c : PropertyIntegerConstraint.t) (value : PyObject) (v0 lo hi step : Z),
    descriptor_args_l value = Some (v0, lo, hi, step) ->
    lo <= hi ->
    let c1 := exec (PropertyIntegerConstraint.setPyObject value) c in
    (PropertyIntegerConstraint.getMinimum c1 = lo /\
     PropertyIntegerConstraint.getMaximum c1 = hi /\
     PropertyIntegerConstraint.getStepSize c1 = Z.max 1 step /\
     PropertyIntegerConstraint.getValue c1 = clamp v0 lo hi) /\
    forall x : PyObject,
      plain_int x ->
      let c2 := exec (PropertyIntegerConstraint.setPyObject x) c1 in
      returns (PropertyIntegerConstraint.setPyObject x) c1 /\
      PropertyIntegerConstraint.getValue c2 = clamp (int_value x) lo hi /\
      PropertyIntegerConstraint.getMinimum c2 <= PropertyIntegerConstraint.getValue c2
      <= PropertyIntegerConstraint.getMaximum c2 /\
      PropertyIntegerConstraint._ConstStruct (fields c2)
      = PropertyIntegerConstraint._ConstStruct (fields c1).
Proof.
  intros c value v0 lo hi step Hargs Hle. cbv zeta. unfold returns, exec.
  rewrite (IntegerConstraint_setPyObject_args value v0 lo hi step c Hargs). cbn [snd].
  split.
  - unfold PropertyIntegerConstraint.getMinimum, PropertyIntegerConstraint.getMaximum,
      PropertyIntegerConstraint.getStepSize, PropertyIntegerConstraint.getValue.
    cbn. rewrite (clamp_code v0 lo hi Hle). now repeat split.
  - intros x Hx.
    rewrite IntegerConstraint_setPyObject_long by apply Hx.
    rewrite (PyLong_AsLong_plain x Hx).
    unfold PropertyIntegerConstraint.getMinimum, PropertyIntegerConstraint.getMaximum,
      PropertyIntegerConstraint.getValue.
    cbn [fst snd fields PropertyIntegerConstraint._ConstStruct
         PropertyIntegerConstraint._lValue UpperBound LowerBound].
    rewrite (clamp_code (int_value x) lo hi Hle).
    split; [now exists tt|]. split; [reflexivity|]. split; [unfold clamp; lia|reflexivity].
Qed.

Lemma integer_descriptor_then_assignments_clamp_witness :
  let c := mkCell (PropertyIntegerConstraint.mkFields 0 None) [] "Doc#Box.Count" in
  let value := PyTuple [PyLong 5; PyLong 1; PyLong 10; PyLong 0] in
  let c1 := exec (PropertyIntegerConstraint.setPyObject value) c in
  PropertyIntegerConstraint.getStepSize c1 = Z.max 1 0 /\
  PropertyIntegerConstraint.getValue (exec (PropertyIntegerConstraint.setPyObject (PyLong 42)) c1)
  = clamp 42 1 10.
Proof.
  intros c value c1.
  assert (Hle : 1 <= 10) by lia.
  destruct (integer_descriptor_then_assignments_clamp c value 5 1 10 0 eq_refl Hle)
    as ((_ & _ & Hstep & _) & Hlater).
  split; [exact Hstep|].
  apply (Hlater (PyLong 42)). split; reflexivity.
Defined.

(** X15. The bounds of a descriptor are not validated against each other.
    A dict or a tuple with [hi < lo] is accepted by the constrained integer
    cell, and from then on the cell only ever holds one of the two bounds:
    [hi] for a value above [hi], [lo] for any other one. *)
Theorem integer_descriptor_inverted_bounds :
  forall (c : PropertyIntegerConstraint.t) (value : PyObject) (v0 lo hi step : Z),
    descriptor_args_l value = Some (v0, lo, hi, step) ->
    hi < lo ->
    let c1 := exec (PropertyIntegerConstraint.setPyObject value) c in
    returns (PropertyIntegerConstraint.setPyObject value) c /\
    PropertyIntegerConstraint.getMinimum c1 = lo /\
    PropertyIntegerConstraint.getMaximum c1 = hi /\
    PropertyIntegerConstraint.getValue c1 = (if hi <? v0 then hi else lo) /\
    forall x : PyObject,
      plain_int x ->
      PropertyIntegerConstraint.getValue (exec (PropertyIntegerConstraint.setPyObject x) c1)
      = (if hi <? int_value x then hi else lo).
Proof.
  intros c value v0 lo hi step Hargs Hlt. cbv zeta. unfold returns, exec.
  rewrite (IntegerConstraint_setPyObject_args value v0 lo hi step c Hargs). cbn [fst snd].
  split; [now exists tt|].
  unfold PropertyIntegerConstraint.getMinimum, PropertyIntegerConstraint.getMaximum,
    PropertyIntegerConstraint.getValue.
  cbn [fields PropertyIntegerConstraint._ConstStruct PropertyIntegerConstraint._lValue
       UpperBound LowerBound].
  split; [reflexivity|]. split; [reflexivity|]. split.
  - destruct (Z.ltb_spec hi v0); [reflexivity|].
    destruct (Z.ltb_spec v0 lo); [reflexivity|lia].
  - intros x Hx. rewrite IntegerConstraint_setPyObject_long by apply Hx.
    rewrite (PyLong_AsLong_plain x Hx).
    cbn [snd fields PropertyIntegerConstraint._ConstStruct PropertyIntegerConstraint._lValue
         UpperBound LowerBound].
    destruct (Z.ltb_spec hi (int_value x)); [reflexivity|].
    destruct (Z.ltb_spec (int_value x) lo); [reflexivity|lia].
Qed.

Lemma integer_descriptor_inverted_bounds_witness :
  let c := mkCell (PropertyIntegerConstraint.mkFields 0 None) [] "Doc#Box.Count" in
  let value := PyTuple [PyLong 5; PyLong 10; PyLong 1; PyLong 1] in
  let c1 := exec (PropertyIntegerConstraint.setPyObject value) c in
  PropertyIntegerConstraint.getValue c1 = (if 1 <? 5 then 1 else 10) /\
  PropertyIntegerConstraint.getValue (exec (PropertyIntegerConstraint.setPyObject (PyLong 0)) c1)
  = (if 1 <? int_value (PyLong 0) then 1 else 10).
Proof.
  intros c value c1.
  assert (Hlt : 1 < 10) by lia.
  destruct (integer_descriptor_inverted_bounds c value 5 10 1 1 eq_refl Hlt)
    as (_ & _ & _ & Hfirst & Hlater).
  split; [exact Hfirst|].
  apply (Hlater (PyLong 0)). split; reflexivity.
Defined.

(** ** The constrained float cell: the bounds, and NaN *)

Lemma SFleb_not_nan (x y : double) :
  SFleb x y = true -> is_nan x = false /\ is_nan y = false.
Proof. destruct x, y; try discriminate; now split. Qed.

Lemma SFleb_refl (x : double) : is_nan x = false -> SFleb x x = true.
Proof.
  unfold SFleb. destruct x as [s|s| |s m e]; try discriminate; intros _;
    try (destruct s; reflexivity).
  simpl. rewrite Z.compare_refl. change (Pos.compare_cont Eq) with Pos.compare.
  rewrite Pos.compare_refl. now destruct s.
Qed.

Lemma SFltb_false_SFleb (x y : double) :
  is_nan x = false -> is_nan y = false -> SFltb x y = false -> SFleb y x = true.
Proof.
  unfold SFltb, SFleb.
  destruct x as [sx|sx| |sx mx ex], y as [sy|sy| |sy my ey];
    simpl; try discriminate; try reflexivity; intros _ _;
    repeat match goal with b : bool |- _ => destruct b end;
    simpl; try discriminate; try reflexivity.
  all: change (Pos.compare_cont Eq) with Pos.compare.
  all: destruct (Z.compare_spec ex ey), (Z.compare_spec ey ex);
    simpl; try discriminate; try reflexivity; try lia.
  all: subst.
  all: destruct (Pos.compare_spec mx my), (Pos.compare_spec my mx);
    simpl; try discriminate; try reflexivity; try lia.
Qed.

Lemma dclamp_within (x lo hi : double) :
  dle lo hi = true -> is_nan x = false ->
  dle lo (dclamp x lo hi) = true /\ dle (dclamp x lo hi) hi = true.
Proof.
  unfold dclamp, dle, dlt. intros Hle Hx.
  destruct (SFleb_not_nan _ _ Hle) as [Hlo Hhi].
  destruct (SFltb x lo) eqn:Hlow.
  - split; [now apply SFleb_refl|exact Hle].
  - destruct (SFltb hi x) eqn:Hhigh.
    + split; [exact Hle|now apply SFleb_refl].
    + split; now apply SFltb_false_SFleb.
Qed.

(** X16. With a descriptor whose bounds satisfy [lo <= hi], assigning a
    float or an int to the constrained float cell leaves a value between
    [getMinimum] and [getMaximum], unless the number is a NaN: a NaN passes
    both comparisons of the clamp, is stored as it is, and is then neither
    above the minimum nor below the maximum. *)
Theorem float_constraint_within_bounds_unless_nan :
  forall (c : PropertyFloatConstraint.t) (cs : Constraints double),
    PropertyFloatConstraint._ConstStruct (fields c) = Some cs ->
    dle (LowerBound cs) (UpperBound cs) = true ->
    (forall x : PyObject,
        plain_numeric x -> is_nan (numeric_as_double x) = false ->
        let c' := exec (PropertyFloatConstraint.setPyObject x) c in
        dle (PropertyFloatConstraint_getMinimum c') (PropertyFloatConstraint.getValue c') = true /\
        dle (PropertyFloatConstraint.getValue c') (PropertyFloatConstraint_getMaximum c') = true) /\
    (let c' := exec (PropertyFloatConstraint.setPyObject (PyFloat S754_nan)) c in
     returns (PropertyFloatConstraint.setPyObject (PyFloat S754_nan)) c /\
     PropertyFloatConstraint.getValue c' = S754_nan /\
     dle (PropertyFloatConstraint_getMinimum c') (PropertyFloatConstraint.getValue c') = false /\
     dle (PropertyFloatConstraint.getValue c') (PropertyFloatConstraint_getMaximum c') = false).
Proof.
  intros c cs Hcs Hle. split.
  - intros x Hx Hnan. cbv zeta. unfold exec.
    rewrite FloatConstraint_setPyObject_numeric
      by (destruct Hx as [Hf|[Hl _]]; [now left|now right]).
    cbv zeta. rewrite (numeric_as_double_code x Hx), Hcs, (dclamp_code _ _ _ Hle).
    unfold PropertyFloatConstraint_getMinimum, PropertyFloatConstraint_getMaximum,
      PropertyFloatConstraint.getValue.
    cbn [snd fields PropertyFloatConstraint._ConstStruct PropertyFloatConstraint._dValue].
    now apply dclamp_within.
  - cbv zeta. unfold returns, exec.
    rewrite FloatConstraint_setPyObject_numeric by (now left).
    cbv zeta. rewrite Hcs.
    unfold PropertyFloatConstraint_getMinimum, PropertyFloatConstraint_getMaximum,
      PropertyFloatConstraint.getValue.
    cbn [fst snd fields PropertyFloatConstraint._ConstStruct PropertyFloatConstraint._dValue
         PyFloat_Check PyFloat_AsDouble].
    assert (Hhi : dlt (UpperBound cs) S754_nan = false) by (now destruct (UpperBound cs)).
    rewrite Hhi. cbn [dlt SFltb SFcompare].
    split; [now exists tt|]. split; [reflexivity|].
    split; [now destruct (LowerBound cs)|reflexivity].
Qed.

Lemma float_constraint_within_bounds_unless_nan_witness :
  let cs := mkConstraints double_zero double_one double_one true in
  let c := mkCell (PropertyFloatConstraint.mkFields double_zero (Some cs)) [] "Doc#Box.Ratio" in
  (dle (PropertyFloatConstraint_getMinimum (exec (PropertyFloatConstraint.setPyObject (PyLong 3)) c))
       (PropertyFloatConstraint.getValue (exec (PropertyFloatConstraint.setPyObject (PyLong 3)) c))
   = true /\
   dle (PropertyFloatConstraint.getValue (exec (PropertyFloatConstraint.setPyObject (PyLong 3)) c))
       (PropertyFloatConstraint_getMaximum (exec (PropertyFloatConstraint.setPyObject (PyLong 3)) c))
   = true) /\
  PropertyFloatConstraint.getValue (exec (PropertyFloatConstraint.setPyObject (PyFloat S754_nan)) c)
  = S754_nan.
Proof.
  intros cs c.
  destruct (float_constraint_within_bounds_unless_nan c cs eq_refl eq_refl) as (Hnum & Hnan).
  split.
  - apply (Hnum (PyLong 3)); [right; split; reflexivity|reflexivity].
  - apply Hnan.
Defined.

(** ** The constrained cells: a descriptor that does not parse *)

Lemma parse_tuple4_length {T} (parse : PyObject -> option T) (items : list PyObject) :
  length items <> 4%nat -> parse_tuple4 parse items = None.
Proof.
  destruct items as [|o0 [|o1 [|o2 [|o3 [|o4 items]]]]]; cbn [length]; try reflexivity.
  intros Hlen. now contradict Hlen.
Qed.

Lemma parse_keywords_needs_value {T} (parse : PyObject -> option T)
    (d : list (PyObject * PyObject)) (dflt : T * T * T * T) :
  dict_get d "value" = None \/ keywords_ok ["value"; "min"; "max"; "step"] d = false ->
  parse_keywords parse d dflt = None.
Proof.
  destruct dflt as [[[d0 d1] d2] d3]. unfold parse_keywords.
  intros [Hvalue|Hkeys].
  - rewrite Hvalue. now destruct (keywords_ok _ d).
  - now rewrite Hkeys.
Qed.

(** X17. A dict or a tuple that does not parse as a descriptor is refused
    by the constrained cells with the pending Python error, and any value of
    another type with a type error naming it; the value, the descriptor and
    the hooks of the cell are then as before. A tuple parses only with
    exactly four items, a dict only when it has the key ["value"] and no key
    other than ["value"], ["min"], ["max"], ["step"]. *)
Theorem descriptor_parse_failure_keeps_cell :
  (forall (c : PropertyIntegerConstraint.t) (value : PyObject),
      PyLong_Check value = false ->
      descriptor_args_l value = None ->
      throws (PropertyIntegerConstraint.setPyObject value) c
             (if PyDict_Check value || PyTuple_Check value then PyException
              else TypeError ("type must be int, dict or tuple, not " ++ tp_name value)) /\
      exec (PropertyIntegerConstraint.setPyObject value) c = c) /\
  (forall (c : PropertyFloatConstraint.t) (value : PyObject),
      PyFloat_Check value = false -> PyLong_Check value = false ->
      descriptor_args_d value = None ->
      throws (PropertyFloatConstraint.setPyObject value) c
             (if PyDict_Check value || PyTuple_Check value then PyException
              else TypeError ("type must be float, dict or tuple, not " ++ tp_name value)) /\
      exec (PropertyFloatConstraint.setPyObject value) c = c) /\
  (forall items : list PyObject,
      length items <> 4%nat ->
      descriptor_args_l (PyTuple items) = None /\ descriptor_args_d (PyTuple items) = None) /\
  (forall d : list (PyObject * PyObject),
      dict_get d "value" = None \/ keywords_ok ["value"; "min"; "max"; "step"] d = false ->
      descriptor_args_l (PyDict d) = None /\ descriptor_args_d (PyDict d) = None).
Proof.
  split; [|split; [|split]].
  - intros c value Hint Hargs.
    unfold throws, exec, PropertyIntegerConstraint.setPyObject. rewrite Hint.
    destruct value; try discriminate Hint; cbn [descriptor_args_l] in Hargs;
      cbv beta iota zeta delta [mbind M_bind bind throw]; rewrite ?Hargs;
      split; reflexivity.
  - intros c value Hfloat Hint Hargs.
    unfold throws, exec, PropertyFloatConstraint.setPyObject. rewrite Hfloat, Hint.
    destruct value; try discriminate Hint; try discriminate Hfloat;
      cbn [descriptor_args_d] in Hargs;
      cbv beta iota zeta delta [mbind M_bind bind throw]; rewrite ?Hargs;
      split; reflexivity.
  - intros items Hlen. split; now apply parse_tuple4_length.
  - intros d Hd. split; now apply parse_keywords_needs_value.
Qed.

Lemma descriptor_parse_failure_keeps_cell_witness :
  let c := mkCell (PropertyIntegerConstraint.mkFields 7
                     (Some PropertyIntegerConstraint.percent)) [] "Doc#Box.Transparency" in
  (throws (PropertyIntegerConstraint.setPyObject (PyTuple [PyLong 1; PyLong 2; PyLong 3])) c
          PyException /\
   exec (PropertyIntegerConstraint.setPyObject (PyTuple [PyLong 1; PyLong 2; PyLong 3])) c = c) /\
  (descriptor_args_l (PyDict [(PyUnicode "min", PyLong 0)]) = None /\
   descriptor_args_d (PyDict [(PyUnicode "min", PyLong 0)]) = None).
Proof.
  intros c.
  destruct descriptor_parse_failure_keeps_cell as (Hint & _ & _ & Hdict).
  split.
  - apply (Hint c (PyTuple [PyLong 1; PyLong 2; PyLong 3])); reflexivity.
  - apply (Hdict [(PyUnicode "min", PyLong 0)]). left. reflexivity.
Defined.

(** ** [Copy], then [Paste] *)

Section CopyProperties.
Context `{External}.
Variable formatVersion_new : Z.

Ltac run_copy_paste :=
  unfold returns, exec, Paste, PropertyInteger_Paste, PropertyPath_Paste,
    PropertyEnumeration_Paste, PropertyIntegerList_Paste, PropertyIntegerSet_Paste,
    PropertyFloat_Paste, PropertyFloatList_Paste, PropertyString_Paste, PropertyUUID_Paste,
    PropertyStringList_Paste, PropertyMap_Paste, PropertyBool_Paste,
    PropertyBoolList_Paste, PropertyColor_Paste, PropertyColorList_Paste,
    PropertyMaterial_Paste, PropertyMaterialList_Paste, PropertyPersistentObject_Paste,
    PropertyListsT_setValues, dynamic_cast, assign,
    on_subobject, PropertyString.setValue_string, PropertyString.setValue,
    PropertyString.set_cValue, PropertyMaterialList.setValues,
    PropertyMaterialList.PropertyListsT_setValues, PropertyMaterialList.setSize,
    PropertyMaterialList.getList, PropertyMaterialList.setList;
  run_list;
  cbn [Copy as_PropertyString as_PropertyMaterialList as_PropertyPersistentObject
       PropertyString._cValue PropertyString.Label fst snd negb orb andb
       fields hooks FullName value_of with_string with_lValue with_dValue
       PropertyMaterialList._lValueList].

Ltac case_copy_tests :=
  repeat match goal with
         | |- context [String.eqb ?x ?y] => destruct (String.eqb_spec x y)
         | |- context [bool_decide ?P] => destruct (bool_decide_reflect P)
         end.

Lemma Copy_Paste_family (dst : Cell Property) (src : Property) :
  paste_class (class_of (fields dst)) = paste_class (class_of src) ->
  nul_free src ->
  unlabelled (fields dst) ->
  value_of src <> VMaterials [] ->
  returns (Paste (Copy formatVersion_new src)) dst /\
  value_of (fields (exec (Paste (Copy formatVersion_new src)) dst)) = value_of src /\
  class_of (fields (exec (Paste (Copy formatVersion_new src)) dst)) = class_of (fields dst).
Proof.
  destruct dst as [dest hs fn]. cbn [fields].
  destruct dest, src; intros Hk; try discriminate Hk; clear Hk;
    repeat match goal with
           | f : PropertyMaterialList.Fields |- _ => destruct f
           | f : PropertyString.Fields |- _ => destruct f
           end;
    cbn [value_of unlabelled nul_free PropertyString._cValue PropertyString.Label
         PropertyMaterialList._lValueList]; intros Hnf Hl Hne;
    run_copy_paste; rewrite ?Hnf; case_copy_tests; run_copy_paste; subst;
    (split; [now exists tt|]); (split; [|reflexivity]);
    try reflexivity; try congruence.
Qed.

Lemma Copy_Paste_labelled (dst : Cell Property) (src : Property) (h : string -> string)
    (cur text : string) :
  paste_class (class_of (fields dst)) = paste_class (class_of src) ->
  nul_free src ->
  labelled (fields dst) h ->
  value_of (fields dst) = VText cur ->
  value_of src = VText text ->
  returns (Paste (Copy formatVersion_new src)) dst /\
  value_of (fields (exec (Paste (Copy formatVersion_new src)) dst))
  = VText (if String.eqb cur text then cur else h text) /\
  class_of (fields (exec (Paste (Copy formatVersion_new src)) dst)) = class_of (fields dst).
Proof.
  destruct dst as [dest hs fn]. cbn [fields].
  destruct dest, src; intros Hk; try discriminate Hk; clear Hk;
    repeat match goal with
           | f : PropertyMaterialList.Fields |- _ => destruct f
           | f : PropertyString.Fields |- _ => destruct f
           end;
    cbn [value_of labelled nul_free PropertyString._cValue PropertyString.Label];
    intros Hnf Hl; try contradiction; intros [= Hcur] [= Htext]; subst;
    run_copy_paste; rewrite ?Hnf; case_copy_tests; run_copy_paste; subst;
    (split; [now exists tt|]); (split; [|reflexivity]);
    try reflexivity; try congruence.
Qed.

Lemma Copy_Paste_self (c : Cell Property) :
  nul_free (fields c) ->
  value_of (fields c) <> VMaterials [] ->
  returns (Paste (Copy formatVersion_new (fields c))) c /\
  fields (exec (Paste (Copy formatVersion_new (fields c))) c) = fields c.
Proof.
  destruct c as [dest hs fn]. cbn [fields].
  destruct dest;
    repeat match goal with
           | f : PropertyMaterialList.Fields |- _ => destruct f
           | f : PropertyString.Fields |- _ => destruct f
           end;
    cbn [value_of nul_free PropertyString._cValue PropertyString.Label
         PropertyMaterialList._lValueList]; intros Hnf Hne;
    run_copy_paste; rewrite ?Hnf; case_copy_tests; run_copy_paste; subst;
    (split; [now exists tt|]); try reflexivity; try congruence.
Qed.

(** X18. [Copy] gives an object of the class whose [Paste] the cell runs (a
    constrained cell is copied as a plain one, without its descriptor, and a
    font as a string) holding the same value. For a source that is neither
    a text with an embedded NUL nor an empty material list: pasting the copy
    of [src] into a cell of the same family returns, the cell keeping its own
    class, and leaves the value of [src] in it, unless the cell is an
    object's label, which keeps its text when that is the text of [src] and
    otherwise takes the text its label hook settles on; pasting the copy of
    a cell back into that cell leaves all its fields, descriptor included,
    as they were. *)
Theorem Copy_then_Paste_restores :
  forall (src : Property) (dst : Cell Property),
    class_of (Copy formatVersion_new src) = paste_class (class_of src) /\
    value_of (Copy formatVersion_new src) = value_of src /\
    (paste_class (class_of (fields dst)) = paste_class (class_of src) ->
     nul_free src -> unlabelled (fields dst) -> value_of src <> VMaterials [] ->
     returns (Paste (Copy formatVersion_new src)) dst /\
     value_of (fields (exec (Paste (Copy formatVersion_new src)) dst)) = value_of src /\
     class_of (fields (exec (Paste (Copy formatVersion_new src)) dst))
     = class_of (fields dst)) /\
    (forall (h : string -> string) (cur text : string),
        paste_class (class_of (fields dst)) = paste_class (class_of src) ->
        nul_free src -> labelled (fields dst) h ->
        value_of (fields dst) = VText cur -> value_of src = VText text ->
        returns (Paste (Copy formatVersion_new src)) dst /\
        value_of (fields (exec (Paste (Copy formatVersion_new src)) dst))
        = VText (if String.eqb cur text then cur else h text) /\
        class_of (fields (exec (Paste (Copy formatVersion_new src)) dst))
        = class_of (fields dst)) /\
    (nul_free (fields dst) -> value_of (fields dst) <> VMaterials [] ->
     returns (Paste (Copy formatVersion_new (fields dst))) dst /\
     fields (exec (Paste (Copy formatVersion_new (fields dst))) dst) = fields dst).
Proof.
  intros src dst. split; [now destruct src|]. split; [now destruct src|].
  split; [apply Copy_Paste_family|].
  split; [intros h cur text; apply Copy_Paste_labelled|apply Copy_Paste_self].
Qed.

End CopyProperties.

Lemma Copy_then_Paste_restores_witness :
  let E := levels_External in
  let percent := PropertyPercent_ 42 (Some PropertyIntegerConstraint.percent) in
  let count := mkCell (PropertyIntegerConstraint_ 7 None) [] "Doc#Box.Count" in
  let slider := mkCell percent [] "Doc#Box.Transparency" in
  value_of (fields (exec (Paste (Copy 0 percent)) count)) = VLong 42 /\
  fields (exec (Paste (Copy 0 (fields slider))) slider) = fields slider /\
  let numbered := fun s : string => String.append s "001" in
  let label := mkCell (PropertyString_ (PropertyString.mkFields "Box" (Some numbered)))
                      [] "Doc#Box.Label" in
  value_of (fields (exec (Paste (Copy 0 (PropertyString_ (PropertyString.mkFields "Lid" None))))
                         label))
  = VText "Lid001".
Proof.
  intros E percent count slider.
  destruct (Copy_then_Paste_restores 0 percent count) as (_ & _ & Hfamily & _).
  destruct (Copy_then_Paste_restores 0 percent slider) as (_ & _ & _ & _ & Hself).
  split; [|split].
  - apply Hfamily; [reflexivity|exact I|exact I|discriminate].
  - apply Hself; [exact I|discriminate].
  - intros numbered label.
    destruct (Copy_then_Paste_restores 0 (PropertyString_ (PropertyString.mkFields "Lid" None))
                label) as (_ & _ & _ & Hlabel & _).
    apply (Hlabel numbered "Box" "Lid"); reflexivity.
Defined.

(** ** The color cell: the dynamic setter *)

Section ColorSetPyObject.
Context `{External}.
Variable Color_new : Color.

Ltac run_color :=
  unfold returns, throws, exec, PropertyColor.setPyObject, PropertyColor.of_tuple,
    PropertyColor.float_item, PropertyColor.int_item, PropertyColor.setValue,
    PropertyColor.getValue;
  cbn [PyTuple_Check PyTuple_Size PyTuple_GetItem length Z.of_nat lookup list_lookup
       default from_option id andb orb];
  run_method.

Ltac color_items items Hsize :=
  destruct items as [|item0 [|item1 [|item2 [|item3 [|item4 items]]]]];
  try (exfalso; destruct Hsize as [Hsize|Hsize]; discriminate Hsize); clear Hsize.

(** X19. The color cell accepts a tuple of three or four floats, or of
    three or four ints, and then returns, fires one bracket and holds the
    channels read from the items (a float narrowed to single precision, an
    int divided by 255), the fourth channel keeping its default for three
    items; it accepts an int as a packed color. A tuple whose first item is a
    float (resp. an int) and which holds an item of another kind is refused
    as inconsistent, a tuple starting with anything else is refused, and so
    is a tuple of another size or a value of another type, naming the type.
    A refusal leaves the cell untouched. *)
Theorem color_setPyObject_tuple_kinds :
  forall c : PropertyColor.t,
    (forall items : list PyObject,
        color_sized items ->
        Forall (fun item => PyFloat_Check item = true) items ->
        returns (PropertyColor.setPyObject Color_new (PyTuple items)) c /\
        fired c (exec (PropertyColor.setPyObject Color_new (PyTuple items)) c)
        = [AboutToSetValue; HasSetValue] /\
        PropertyColor.getValue (exec (PropertyColor.setPyObject Color_new (PyTuple items)) c)
        = color_of_items (fun item => narrow (PyFloat_AsDouble item)) Color_new items) /\
    (forall items : list PyObject,
        color_sized items ->
        Forall (fun item => PyLong_Check item = true) items ->
        returns (PropertyColor.setPyObject Color_new (PyTuple items)) c /\
        fired c (exec (PropertyColor.setPyObject Color_new (PyTuple items)) c)
        = [AboutToSetValue; HasSetValue] /\
        PropertyColor.getValue (exec (PropertyColor.setPyObject Color_new (PyTuple items)) c)
        = color_of_items (fun item => over_255 (PyLong_AsLong item)) Color_new items) /\
    (forall (item0 : PyObject) (rest : list PyObject),
        color_sized (item0 :: rest) ->
        PyFloat_Check item0 = true ->
        ~ Forall (fun item => PyFloat_Check item = true) rest ->
        throws (PropertyColor.setPyObject Color_new (PyTuple (item0 :: rest))) c
               (TypeError "Type in tuple must be consistent (float)") /\
        exec (PropertyColor.setPyObject Color_new (PyTuple (item0 :: rest))) c = c) /\
    (forall (item0 : PyObject) (rest : list PyObject),
        color_sized (item0 :: rest) ->
        PyLong_Check item0 = true ->
        ~ Forall (fun item => PyLong_Check item = true) rest ->
        throws (PropertyColor.setPyObject Color_new (PyTuple (item0 :: rest))) c
               (TypeError "Type in tuple must be consistent (integer)") /\
        exec (PropertyColor.setPyObject Color_new (PyTuple (item0 :: rest))) c = c) /\
    (forall (item0 : PyObject) (rest : list PyObject),
        color_sized (item0 :: rest) ->
        PyFloat_Check item0 = false -> PyLong_Check item0 = false ->
        throws (PropertyColor.setPyObject Color_new (PyTuple (item0 :: rest))) c
               (TypeError "Type in tuple must be float or integer") /\
        exec (PropertyColor.setPyObject Color_new (PyTuple (item0 :: rest))) c = c) /\
    (forall value : PyObject,
        PyLong_Check value = true ->
        returns (PropertyColor.setPyObject Color_new value) c /\
        PropertyColor.getValue (exec (PropertyColor.setPyObject Color_new value) c)
        = setPackedValue (PyLong_AsUnsignedLong value mod 2 ^ 32)) /\
    (forall value : PyObject,
        PyLong_Check value = false ->
        (forall items, value = PyTuple items -> ~ color_sized items) ->
        throws (PropertyColor.setPyObject Color_new value) c
               (TypeError ("type must be integer or tuple of float or tuple integer, not "
                           ++ tp_name value)) /\
        exec (PropertyColor.setPyObject Color_new value) c = c).
Proof.
  intros [col hs fn]. split; [|split; [|split; [|split; [|split; [|split]]]]].
  - intros items Hsize Hitems. color_items items Hsize;
      repeat match goal with
             | Hf : Forall _ (_ :: _) |- _ =>
                 apply Forall_cons in Hf as [? Hf]
             end;
      run_color;
      repeat match goal with Hc : PyFloat_Check _ = true |- _ => rewrite Hc; clear Hc end;
      cbn [fst snd fields]; (split; [now exists tt|]); (split; [apply fired_bracket|]);
      reflexivity.
  - intros items Hsize Hitems. color_items items Hsize;
      repeat match goal with
             | Hf : Forall _ (_ :: _) |- _ =>
                 apply Forall_cons in Hf as [? Hf]
             end;
      run_color;
      repeat match goal with
             | Hc : PyLong_Check ?i = true |- context [PyFloat_Check ?i] =>
                 replace (PyFloat_Check i) with false
                   by (destruct i; try discriminate Hc; reflexivity)
             end;
      repeat match goal with Hc : PyLong_Check _ = true |- _ => rewrite Hc; clear Hc end;
      cbn [fst snd fields]; (split; [now exists tt|]); (split; [apply fired_bracket|]);
      reflexivity.
  - intros item0 rest Hsize H0 Hbad.
    destruct rest as [|item1 [|item2 [|item3 [|item4 rest]]]];
      try (exfalso; destruct Hsize as [Hsize|Hsize]; discriminate Hsize); clear Hsize;
      run_color; rewrite H0;
      destruct (PyFloat_Check item1) eqn:H1; try (split; reflexivity);
      destruct (PyFloat_Check item2) eqn:H2; try (split; reflexivity);
      try (destruct (PyFloat_Check item3) eqn:H3; try (split; reflexivity));
      exfalso; apply Hbad; repeat constructor; assumption.
  - intros item0 rest Hsize H0 Hbad.
    assert (Hfloat : PyFloat_Check item0 = false) by (destruct item0; try discriminate; reflexivity).
    destruct rest as [|item1 [|item2 [|item3 [|item4 rest]]]];
      try (exfalso; destruct Hsize as [Hsize|Hsize]; discriminate Hsize); clear Hsize;
      run_color; rewrite Hfloat, H0;
      destruct (PyLong_Check item1) eqn:H1; try (split; reflexivity);
      destruct (PyLong_Check item2) eqn:H2; try (split; reflexivity);
      try (destruct (PyLong_Check item3) eqn:H3; try (split; reflexivity));
      exfalso; apply Hbad; repeat constructor; assumption.
  - intros item0 rest Hsize Hfloat Hint.
    destruct rest as [|item1 [|item2 [|item3 [|item4 rest]]]];
      try (exfalso; destruct Hsize as [Hsize|Hsize]; discriminate Hsize); clear Hsize;
      run_color; rewrite Hfloat, Hint; split; reflexivity.
  - intros value Hint.
    destruct value; try discriminate Hint; run_color; cbn [PyLong_Check fst snd fields];
      (split; [now exists tt|reflexivity]).
  - intros value Hint Hsize.
    unfold throws, exec, PropertyColor.setPyObject. rewrite Hint.
    destruct value as [| | | | |items| | |]; cbn [PyTuple_Check andb]; try (split; reflexivity).
    cbn [PyTuple_Size].
    destruct ((Z.of_nat (length items) =? 3) || (Z.of_nat (length items) =? 4)) eqn:Hlen;
      [|split; reflexivity].
    exfalso. apply (Hsize items eq_refl). unfold color_sized.
    apply orb_true_iff in Hlen as [Hlen|Hlen]; apply Z.eqb_eq in Hlen; lia.
Qed.

End ColorSetPyObject.

Lemma color_setPyObject_tuple_kinds_witness :
  let E := levels_External in
  let black := mkColor 0 0 0 1065353216 in
  let c := mkCell black [] "Doc#Box.Color" in
  PropertyColor.getValue
    (exec (PropertyColor.setPyObject black (PyTuple [PyLong 255; PyLong 0; PyLong 0])) c)
  = color_of_items (fun item => over_255 (PyLong_AsLong item)) black
                   [PyLong 255; PyLong 0; PyLong 0] /\
  (throws (PropertyColor.setPyObject black (PyTuple [PyFloat double_one; PyLong 0; PyLong 0])) c
          (TypeError "Type in tuple must be consistent (float)") /\
   exec (PropertyColor.setPyObject black (PyTuple [PyFloat double_one; PyLong 0; PyLong 0])) c
   = c) /\
  (throws (PropertyColor.setPyObject black (PyTuple [PyLong 1; PyLong 2])) c
          (TypeError "type must be integer or tuple of float or tuple integer, not tuple") /\
   exec (PropertyColor.setPyObject black (PyTuple [PyLong 1; PyLong 2])) c = c).
Proof.
  intros E black c.
  destruct (color_setPyObject_tuple_kinds black c)
    as (_ & Hints & Hmixed & _ & _ & _ & Hother).
  split; [|split].
  - apply (Hints [PyLong 255; PyLong 0; PyLong 0]); [now left|repeat constructor].
  - apply (Hmixed (PyFloat double_one) [PyLong 0; PyLong 0]); [now left|reflexivity|].
    intros Hall. apply Forall_cons in Hall as [Hitem _]. discriminate Hitem.
  - apply (Hother (PyTuple [PyLong 1; PyLong 2])); [reflexivity|].
    intros items [= <-] [Hsize|Hsize]; discriminate Hsize.
Defined.

(** ** The enumeration cell: the dynamic setter *)

Section EnumerationDynamic.
Context `{EnumerationExternal}.

Lemma as_strings_texts (items : list PyObject) :
  Forall (fun item => PyUnicode_Check item = true) items ->
  as_strings items = Return (texts items).
Proof.
  induction 1 as [|item items Hitem _ IH]; [reflexivity|].
  destruct item; try discriminate Hitem.
  cbn [as_strings as_string]. now rewrite IH.
Qed.

Lemma labels_and_index_texts (items : list PyObject) :
  Forall (fun item => PyUnicode_Check item = true) items ->
  labels_and_index items = Return (-1, texts items).
Proof.
  intros Hitems. unfold labels_and_index. rewrite (as_strings_texts items Hitems).
  destruct items as [|v [|i [|j items]]]; try reflexivity.
  apply Forall_cons in Hitems as [Hv _]. now rewrite Hv.
Qed.

(** X20. Through the dynamic setter of the enumeration cell: an int
    assigned while the cell has no valid selection is ignored in silence
    (the call returns, nothing changes, no hook fires); a string that is not
    one of the labels is refused with a value error naming the string and
    the cell; a value that is no int, string or sequence is refused with a
    type error naming the cell; both refusals leave the cell untouched. A
    list or tuple of strings replaces the labels and fires one bracket, also
    on a cell that is not attached to a document. *)
Theorem enumeration_setPyObject_edges :
  forall c : PropertyEnumeration.t,
    (forall value : PyObject,
        PyLong_Check value = true ->
        PropertyEnumeration.isValid c = false ->
        PropertyEnumeration_setPyObject value c = (Return tt, c)) /\
    (forall s : string,
        PropertyString.c_str s ∉ Enumeration.labels (fields c) ->
        throws (PropertyEnumeration_setPyObject (PyUnicode s)) c
               (ValueError ("'" ++ PropertyString.c_str s
                            ++ "' is not part of the enumeration in " ++ FullName c)) /\
        exec (PropertyEnumeration_setPyObject (PyUnicode s)) c = c) /\
    (forall value : PyObject,
        PyLong_Check value = false -> PyUnicode_Check value = false ->
        PySequence_Check value = false ->
        throws (PropertyEnumeration_setPyObject value) c
               (TypeError ("PropertyEnumeration " ++ FullName c
                           ++ " expects type to be int, string, or list(string), or list(list, int)")) /\
        exec (PropertyEnumeration_setPyObject value) c = c) /\
    (forall (value : PyObject) (items : list PyObject),
        value = PyList items \/ value = PyTuple items ->
        Forall (fun item => PyUnicode_Check item = true) items ->
        let c' := exec (PropertyEnumeration_setPyObject value) c in
        returns (PropertyEnumeration_setPyObject value) c /\
        Enumeration.labels (fields c') = texts items /\
        fired c c' = [AboutToSetValue; HasSetValue]).
Proof.
  intros [e hs fn]. split; [|split; [|split]].
  - intros value Hint Hvalid. unfold PropertyEnumeration.isValid in Hvalid.
    cbn [fields] in Hvalid. unfold PropertyEnumeration_setPyObject. rewrite Hint.
    run_method. now rewrite Hvalid.
  - intros s Hnot. unfold throws, exec, PropertyEnumeration_setPyObject.
    cbn [PyLong_Check PyUnicode_Check PyUnicode_AsUTF8 fields FullName] in *. run_method.
    rewrite c_str_idempotent. unfold Enumeration_contains.
    rewrite bool_decide_eq_false_2 by exact Hnot. split; reflexivity.
  - intros value Hint Hstr Hseq. unfold throws, exec, PropertyEnumeration_setPyObject.
    rewrite Hint, Hstr, Hseq. split; reflexivity.
  - intros value items Hvalue Hitems. cbv zeta.
    assert (Hkind : PyLong_Check value = false /\ PyUnicode_Check value = false /\
                    PySequence_Check value = true /\ sequence_items value = items)
      by (destruct Hvalue; subst; repeat split).
    destruct Hkind as (Hint & Hstr & Hseq & Hseqitems).
    unfold returns, exec, PropertyEnumeration_setPyObject.
    rewrite Hint, Hstr, Hseq, Hseqitems, (labels_and_index_texts items Hitems).
    run_method. cbn [fst snd fields Enumeration.setEnums Enumeration.labels Enumeration._index].
    split; [now exists tt|]. split; [reflexivity|apply fired_bracket].
Qed.

End EnumerationDynamic.

Lemma enumeration_setPyObject_edges_witness :
  let X := checked_EnumerationExternal in
  let unset := mkCell (Enumeration.mk (-1) ["Flat"; "Shaded"] true) [] "?.Mode" in
  PropertyEnumeration_setPyObject (PyLong 1) unset = (Return tt, unset) /\
  throws (PropertyEnumeration_setPyObject (PyUnicode "Wire")) unset
         (ValueError "'Wire' is not part of the enumeration in ?.Mode") /\
  throws (PropertyEnumeration_setPyObject PyNone) unset
         (TypeError "PropertyEnumeration ?.Mode expects type to be int, string, or list(string), or list(list, int)") /\
  fired unset (exec (PropertyEnumeration_setPyObject (PyList [PyUnicode "A"; PyUnicode "B"])) unset)
  = [AboutToSetValue; HasSetValue].
Proof.
  intros X unset.
  destruct (enumeration_setPyObject_edges unset) as (Hint & Hlabel & Hother & Hlist).
  split; [|split; [|split]].
  - apply (Hint (PyLong 1)); reflexivity.
  - apply (Hlabel "Wire"). cbn. rewrite !elem_of_cons, elem_of_nil.
    intros [Hx|[Hx|[]]]; discriminate Hx.
  - apply (Hother PyNone); reflexivity.
  - apply (Hlist (PyList [PyUnicode "A"; PyUnicode "B"]) [PyUnicode "A"; PyUnicode "B"]).
    + now left.
    + repeat constructor.
Defined.

(** ** The float list: binary persistence *)

Lemma over_255_levels :
  over_255 255 = 1065353216 /\ over_255 128 = 1056997505 /\ over_255 0 = 0.
Proof. vm_compute. repeat split. Qed.

Lemma digits2_pos_bounds (m : positive) :
  2 ^ (Zpos (digits2_pos m) - 1) <= Zpos m < 2 ^ Zpos (digits2_pos m).
Proof.
  induction m as [p IH|p IH|]; cbn [digits2_pos].
  - rewrite Pos2Z.inj_succ.
    replace (Z.succ (Zpos (digits2_pos p)) - 1) with (Z.succ (Zpos (digits2_pos p) - 1)) by lia.
    rewrite !Z.pow_succ_r by lia. lia.
  - rewrite Pos2Z.inj_succ.
    replace (Z.succ (Zpos (digits2_pos p)) - 1) with (Z.succ (Zpos (digits2_pos p) - 1)) by lia.
    rewrite !Z.pow_succ_r by lia. lia.
  - cbn. lia.
Qed.

(** The shape of a canonical finite double: a subnormal has exponent
    [-1074], a normal one a mantissa of 53 bits. *)
Lemma valid_double_finite (s : bool) (m : positive) (e : Z) :
  valid_double (S754_finite s m e) ->
  (Zpos m < 2 ^ 52 /\ e = -1074) \/
  (2 ^ 52 <= Zpos m < 2 ^ 53 /\ -1074 <= e <= 971).
Proof.
  unfold valid_double, valid_binary, bounded, canonical_mantissa, fexp, emin, prec64, emax64.
  intros Hb. apply andb_true_iff in Hb as [Hc He].
  apply Z.eqb_eq in Hc. apply Z.leb_le in He.
  pose proof (digits2_pos_bounds m) as Hd.
  set (d := Zpos (digits2_pos m)) in *.
  assert (Hdpos : 0 < d) by (subst d; lia).
  destruct (Z.max_spec (d + e - 53) (3 - 1024 - 53)) as [[H1 H2]|[H1 H2]]; rewrite H2 in Hc.
  - destruct (Z.eq_dec d 53) as [Hd53|Hd53].
    + right. rewrite Hd53 in Hd. change (53 - 1) with 52 in Hd. lia.
    + left. split; [|lia].
      eapply Z.lt_le_trans; [apply Hd|]. apply Z.pow_le_mono_r; lia.
  - right. assert (Hd53 : d = 53) by lia.
    rewrite Hd53 in Hd. change (53 - 1) with 52 in Hd. lia.
Qed.

Lemma bits_of_double_range (x : double) :
  valid_double x -> 0 <= bits_of_double x < 2 ^ 64.
Proof.
  destruct x as [s|s| |s m e].
  - intros _. destruct s; cbn; lia.
  - intros _. destruct s; cbn; lia.
  - intros _. cbn. lia.
  - intros Hv. apply valid_double_finite in Hv as [[Hm He]|[Hm He]]; unfold bits_of_double.
    + destruct (Z.ltb_spec (Zpos m) (2 ^ 52)) as [_|Hge]; [|lia]. destruct s; lia.
    + destruct (Z.ltb_spec (Zpos m) (2 ^ 52)) as [Hlt|_]; [lia|].
      change (2 ^ 53) with (2 * 2 ^ 52) in Hm. change (2 ^ 64) with (4096 * 2 ^ 52).
      destruct s; nia.
Qed.

Lemma double_of_bits_of_double (x : double) :
  valid_double x -> double_of_bits (bits_of_double x) = x.
Proof.
  destruct x as [s|s| |s m e].
  - intros _. destruct s; reflexivity.
  - intros _. destruct s; reflexivity.
  - intros _. reflexivity.
  - intros Hv. apply valid_double_finite in Hv as [[Hm He]|[Hm He]];
      unfold bits_of_double, double_of_bits.
    + destruct (Z.ltb_spec (Zpos m) (2 ^ 52)) as [_|Hge]; [|lia]. subst e.
      replace (((if s then 2048 else 0) * 2 ^ 52 + Zpos m) / 2 ^ 52)
        with (if s then 2048 else 0)
        by (destruct s; [apply Z.div_unique with (r := Zpos m)
                        |apply Z.div_unique with (r := Zpos m)]; lia).
      replace (((if s then 2048 else 0) * 2 ^ 52 + Zpos m) mod 2 ^ 52) with (Zpos m)
        by (destruct s; [apply Z.mod_unique with (q := 2048)
                        |apply Z.mod_unique with (q := 0)]; lia).
      destruct s; reflexivity.
    + destruct (Z.ltb_spec (Zpos m) (2 ^ 52)) as [Hlt|_]; [lia|].
      set (ex := e + 1075). set (frac := Zpos m - 2 ^ 52).
      assert (Hex : 1 <= ex <= 2046) by (subst ex; lia).
      assert (Hfrac : 0 <= frac < 2 ^ 52)
        by (subst frac; change (2 ^ 53) with (2 * 2 ^ 52) in Hm; lia).
      replace ((((if s then 2048 else 0) + ex) * 2 ^ 52 + frac) / 2 ^ 52)
        with ((if s then 2048 else 0) + ex)
        by (apply Z.div_unique with (r := frac); lia).
      replace ((((if s then 2048 else 0) + ex) * 2 ^ 52 + frac) mod 2 ^ 52) with frac
        by (apply Z.mod_unique with (q := (if s then 2048 else 0) + ex); lia).
      replace (((if s then 2048 else 0) + ex) mod 2048) with ex
        by (destruct s; [apply Z.mod_unique with (q := 1)
                        |apply Z.mod_unique with (q := 0)]; lia).
      destruct (Z.eqb_spec ex 2047); [lia|]. destruct (Z.eqb_spec ex 0); [lia|].
      replace (2 ^ 52 + frac) with (Zpos m) by (subst frac; lia).
      replace (ex - 1075) with e by (subst ex; lia).
      f_equal. destruct s; [apply Z.leb_le|apply Z.leb_gt]; lia.
Qed.

Lemma read_double_encode (v : Z) (rest : Stream) :
  read_double (encode_uint32 (v mod 2 ^ 32) ++ encode_uint32 (v / 2 ^ 32) ++ rest)
  = (Return (double_of_bits (v mod 2 ^ 64)), rest).
Proof.
  unfold read_double. cbv beta iota zeta delta [mbind M_bind bind].
  rewrite !read_uint32_encode. unfold ret. f_equal. f_equal. f_equal.
  change (2 ^ 32) with 4294967296. change (2 ^ 64) with 18446744073709551616.
  Z.to_euclidean_division_equations. lia.
Qed.

Lemma read_values_encoded (read : M Stream double) (enc : double -> list Byte.byte)
    (back : double -> double) (l : list double) (rest : Stream) :
  Forall (fun it => forall rest', read (enc it ++ rest') = (Return (back it), rest')) l ->
  PropertyFloatList.read_values read (length l) (concat (map enc l) ++ rest)
  = (Return (map back l), rest).
Proof.
  induction 1 as [|it l Hit _ IH]; [reflexivity|].
  cbn [length map concat PropertyFloatList.read_values].
  cbv beta iota zeta delta [mbind M_bind bind].
  rewrite <- app_assoc, Hit.
  fold (PropertyFloatList.read_values read (length l)). now rewrite IH.
Qed.

Lemma length_concat_fixed {A} (enc : A -> list Byte.byte) (k : nat) (l : list A) :
  (forall it, length (enc it) = k) -> length (concat (map enc l)) = (k * length l)%nat.
Proof.
  intros Hk. induction l as [|it l IH]; cbn [map concat length]; [lia|].
  rewrite length_app, Hk, IH. lia.
Qed.

Lemma FloatList_SaveDocFile_layout (src : PropertyFloatList.Fields) (st : Stream) :
  let l := PropertyFloatList._lValueList src in
  fits_uint32 (Z.of_nat (length l)) ->
  PropertyFloatList.SaveDocFile src st
  = (Return tt,
     st ++ encode_uint32 (Z.of_nat (length l))
        ++ concat (map (element_record (PropertyFloatList.SinglePrecision src)) l)).
Proof.
  destruct src as [l single]. cbn [PropertyFloatList._lValueList PropertyFloatList.SinglePrecision].
  intros Hlen. unfold fits_uint32 in Hlen.
  unfold PropertyFloatList.SaveDocFile, PropertyFloatList.getSize,
    PropertyFloatList.isSinglePrecision.
  cbn [PropertyFloatList._lValueList PropertyFloatList.SinglePrecision].
  cbv beta iota zeta delta [mbind M_bind bind].
  rewrite write_uint32_run, Z.mod_small by exact Hlen.
  destruct single; cbn [negb].
  - rewrite (for_each_writes _ (element_record true))
      by (apply Forall_forall; intros it _ st'; reflexivity).
    now rewrite <- app_assoc.
  - rewrite (for_each_writes _ (element_record false))
      by (apply Forall_forall; intros it _ st'; reflexivity).
    now rewrite <- app_assoc.
Qed.

Lemma FloatList_RestoreDocFile_run (dst : PropertyFloatList.t) (l : list double)
    (rest : Stream) :
  let single := PropertyFloatList.SinglePrecision (fields dst) in
  fits_uint32 (Z.of_nat (length l)) ->
  PropertyFloatList.RestoreDocFile
    (dst, encode_uint32 (Z.of_nat (length l))
            ++ concat (map (element_record single) l) ++ rest)
  = (Return tt,
     (mkCell (PropertyFloatList.mkFields (map (element_read_back single) l) single)
             ((hooks dst ++ [AboutToSetValue]) ++ [HasSetValue]) (FullName dst),
      rest)).
Proof.
  destruct dst as [[cur single] hs fn]. cbn [fields PropertyFloatList.SinglePrecision].
  intros Hlen. unfold fits_uint32 in Hlen.
  unfold PropertyFloatList.RestoreDocFile, PropertyFloatList.isSinglePrecision.
  cbv beta iota zeta delta [mbind M_bind bind]. unfold on_snd, on_fst, getFields.
  cbn [fst snd fields PropertyFloatList.SinglePrecision].
  rewrite read_uint32_encode, Z.mod_small by exact Hlen. cbn [fst snd]. rewrite Nat2Z.id.
  destruct single; cbn [negb fields PropertyFloatList.SinglePrecision].
  - rewrite (read_values_encoded _ (element_record true) (element_read_back true)).
    + reflexivity.
    + apply Forall_forall. intros it _ rest'. unfold element_record, read_float.
      cbv beta iota zeta delta [mbind M_bind bind ret].
      now rewrite read_uint32_encode.
  - rewrite (read_values_encoded _ (element_record false) (element_read_back false)).
    + reflexivity.
    + apply Forall_forall. intros it _ rest'. unfold element_record.
      rewrite <- app_assoc. apply read_double_encode.
Qed.

(** X21. The binary form of a float list is its count in 32 bits, then
    eight bytes per element in full precision, four in single precision.
    When the writer and the reader agree on the precision, [RestoreDocFile]
    on what [SaveDocFile] wrote returns, fires one bracket and stops right
    after the last element. In full precision the list comes back exactly
    (for doubles in canonical form); in single precision each element comes
    back as the double its narrowing to a float denotes. *)
Theorem float_list_round_trip :
  forall (dst : PropertyFloatList.t) (src : PropertyFloatList.Fields) (rest : Stream),
    let l := PropertyFloatList._lValueList src in
    let buffer := exec (PropertyFloatList.SaveDocFile src) [] in
    let run := PropertyFloatList.RestoreDocFile (dst, buffer ++ rest) in
    fits_uint32 (Z.of_nat (length l)) ->
    PropertyFloatList.SinglePrecision (fields dst) = PropertyFloatList.SinglePrecision src ->
    fst run = Return tt /\
    fired dst (fst (snd run)) = [AboutToSetValue; HasSetValue] /\
    snd (snd run) = rest /\
    (PropertyFloatList.SinglePrecision src = false ->
     length buffer = (4 + 8 * length l)%nat /\
     (Forall valid_double l ->
      PropertyFloatList._lValueList (fields (fst (snd run))) = l)) /\
    (PropertyFloatList.SinglePrecision src = true ->
     length buffer = (4 + 4 * length l)%nat /\
     PropertyFloatList._lValueList (fields (fst (snd run))) = map through_single l).
Proof.
  intros dst src rest l buffer run Hlen Hsingle. subst run buffer. unfold exec.
  rewrite (FloatList_SaveDocFile_layout src [] Hlen). cbn [snd app]. fold l.
  rewrite <- Hsingle, <- app_assoc, (FloatList_RestoreDocFile_run dst l rest Hlen).
  cbn [fst snd fields PropertyFloatList._lValueList].
  split; [reflexivity|]. split; [destruct dst; apply fired_bracket|]. split; [reflexivity|].
  split; intros Hmode; rewrite Hmode; (split; [|try reflexivity]).
  - rewrite length_app, (length_concat_fixed _ 8) by reflexivity. reflexivity.
  - clear. induction 1 as [|it l0 Hit _ IH]; cbn [map]; [reflexivity|].
    rewrite IH. unfold element_read_back.
    rewrite Z.mod_small by (apply bits_of_double_range; exact Hit).
    now rewrite double_of_bits_of_double.
  - rewrite length_app, (length_concat_fixed _ 4) by reflexivity. reflexivity.
Qed.

Lemma float_list_round_trip_witness :
  let tenth := S754_finite false 7205759403792794 (-56) in
  let full := PropertyFloatList.mkFields [tenth; double_one] false in
  let single := PropertyFloatList.mkFields [tenth; double_one] true in
  PropertyFloatList._lValueList
    (fields (fst (snd (PropertyFloatList.RestoreDocFile
                         (mkCell (PropertyFloatList.mkFields [] false) [] "Doc#Box.Weights",
                          exec (PropertyFloatList.SaveDocFile full) [] ++ [])))))
  = [tenth; double_one] /\
  PropertyFloatList._lValueList
    (fields (fst (snd (PropertyFloatList.RestoreDocFile
                         (mkCell (PropertyFloatList.mkFields [] true) [] "Doc#Box.Weights",
                          exec (PropertyFloatList.SaveDocFile single) [] ++ [])))))
  = map through_single [tenth; double_one].
Proof.
  intros tenth full single.
  assert (Hfits : fits_uint32 (Z.of_nat 2)) by (unfold fits_uint32; lia).
  split.
  - destruct (float_list_round_trip
                (mkCell (PropertyFloatList.mkFields [] false) [] "Doc#Box.Weights")
                full [] Hfits eq_refl) as (_ & _ & _ & Hfull & _).
    apply Hfull; [reflexivity|]. repeat constructor.
  - destruct (float_list_round_trip
                (mkCell (PropertyFloatList.mkFields [] true) [] "Doc#Box.Weights")
                single [] Hfits eq_refl) as (_ & _ & _ & _ & Hsingle).
    apply Hsingle. reflexivity.
Defined.

(** ** The material list: a field set, then read *)

Section MaterialListSetGet.
Context `{External}.

Lemma call_getter_at_run (fn : FieldName) (index : Z) (c : PropertyMaterialList.t)
    (m : Material) :
  0 <= index ->
  elements c !! Z.to_nat index = Some m ->
  call_getter_at fn index c = (Return (field_of fn m), c).
Proof.
  destruct c as [[l v] hs fn']. unfold elements.
  cbn [fields PropertyMaterialList._lValueList]. intros Hindex Hm.
  destruct fn; unfold call_getter_at, PropertyMaterialList_getAmbientColor_at,
    PropertyMaterialList_getDiffuseColor_at, PropertyMaterialList_getSpecularColor_at,
    PropertyMaterialList_getEmissiveColor_at, PropertyMaterialList_getShininess_at,
    PropertyMaterialList_getTransparency_at, PropertyMaterialList_element,
    PropertyMaterialList.getList; run_list;
    destruct (Z.leb_spec 0 index) as [_|Hneg]; try lia; now rewrite Hm.
Qed.

Lemma call_getter_run (fn : FieldName) (c : PropertyMaterialList.t) :
  call_getter fn c = call_getter_at fn 0 c.
Proof. destruct fn; reflexivity. Qed.

Lemma call_indexed_supplies (s : FieldSetter) (index : Z) :
  exists f : Material -> Material,
    call_indexed s index = PropertyMaterialList.indexed index f /\
    forall m, field_of (target s) (f m) = supplied s.
Proof. destruct s; eexists; split; reflexivity. Qed.

Lemma call_broadcast_supplies (s : FieldSetter) :
  exists f : Material -> Material,
    call_broadcast s = PropertyMaterialList.broadcast f /\
    forall m, field_of (target s) (f m) = supplied s.
Proof. destruct s; eexists; split; reflexivity. Qed.

(** X22. What a field setter of the material list writes, the getter of
    the same field reads. After an index-qualified setter, the getter at the
    position written (the end of the list for an append) returns the value
    supplied; after a setter without index, the getter without index and
    the getter at every position of the list return it. *)
Theorem field_set_then_get :
  forall (s : FieldSetter) (c : PropertyMaterialList.t),
    (forall index : Z,
        index = -1 \/ 0 <= index <= size c ->
        let c' := exec (call_indexed s index) c in
        let position := if index =? -1 then size c else index in
        call_getter_at (target s) position c' = (Return (supplied s), c')) /\
    (let c' := exec (call_broadcast s) c in
     call_getter (target s) c' = (Return (supplied s), c') /\
     forall index : Z,
       0 <= index < size c' ->
       call_getter_at (target s) index c' = (Return (supplied s), c')).
Proof.
  intros s c. split.
  - intros index Hindex. cbv zeta.
    destruct (call_indexed_supplies s index) as (f & -> & Hf).
    unfold exec. rewrite indexed_run. cbv zeta. fold (elements c). fold (size c).
    assert (Hin : (index <? -1) || (size c <? index) = false).
    { apply orb_false_iff. split; [apply Z.ltb_ge|apply Z.ltb_ge]; unfold size in *; lia. }
    rewrite Hin. cbn [snd].
    destruct ((index =? -1) || (index =? size c)) eqn:Happ.
    + assert (Hpos : (if index =? -1 then size c else index) = size c).
      { destruct (Z.eqb_spec index (-1)); [reflexivity|].
        apply orb_true_iff in Happ as [Happ|Happ]; [discriminate Happ|].
        now apply Z.eqb_eq in Happ. }
      rewrite Hpos. rewrite (call_getter_at_run _ _ _ (f Material_new)).
      * now rewrite Hf.
      * unfold size. lia.
      * unfold elements at 1, size. cbn [fields PropertyMaterialList._lValueList].
        rewrite Nat2Z.id. apply list_lookup_middle. reflexivity.
    + apply orb_false_iff in Happ as [Hno Hne].
      apply Z.eqb_neq in Hno, Hne. rewrite (proj2 (Z.eqb_neq _ _) Hno).
      assert (Hlt : (Z.to_nat index < length (elements c))%nat) by (unfold size in *; lia).
      destruct (lookup_lt_is_Some_2 _ _ Hlt) as [m Hm].
      rewrite (call_getter_at_run _ _ _ (f m)).
      * now rewrite Hf.
      * lia.
      * unfold elements at 1. cbn [fields PropertyMaterialList._lValueList].
        fold (elements c). now rewrite list_lookup_alter_eq, Hm.
  - cbv zeta. destruct (call_broadcast_supplies s) as (f & -> & Hf).
    unfold exec. rewrite broadcast_run. cbn [snd].
    set (l := if size c <? 1 then resize 1 Material_new (elements c) else elements c).
    assert (Hl : l <> []).
    { subst l. destruct (Z.ltb_spec (size c) 1) as [Hlt|Hge].
      - intros Hnil. apply (f_equal length) in Hnil. rewrite length_resize in Hnil.
        discriminate Hnil.
      - unfold size in Hge. destruct (elements c); [cbn in Hge; lia|discriminate]. }
    assert (Hat : forall index, 0 <= index < Z.of_nat (length l) ->
               call_getter_at (target s) index
                 (mkCell (PropertyMaterialList.mkFields (f <$> l)
                            (PropertyMaterialList.formatVersion (fields c)))
                         ((hooks c ++ [AboutToSetValue]) ++ [HasSetValue]) (FullName c))
               = (Return (supplied s),
                  mkCell (PropertyMaterialList.mkFields (f <$> l)
                            (PropertyMaterialList.formatVersion (fields c)))
                         ((hooks c ++ [AboutToSetValue]) ++ [HasSetValue]) (FullName c))).
    { intros index Hindex.
      assert (Hlt : (Z.to_nat index < length l)%nat) by lia.
      destruct (lookup_lt_is_Some_2 _ _ Hlt) as [m Hm].
      rewrite (call_getter_at_run _ _ _ (f m)).
      - now rewrite Hf.
      - lia.
      - unfold elements. cbn [fields PropertyMaterialList._lValueList].
        now rewrite list_lookup_fmap, Hm. }
    split.
    + rewrite call_getter_run. apply Hat. destruct l; [congruence|cbn [length]; lia].
    + intros index Hindex. apply Hat. unfold size, elements in Hindex.
      cbn [fields PropertyMaterialList._lValueList] in Hindex.
      now rewrite length_fmap in Hindex.
Qed.

End MaterialListSetGet.

Lemma field_set_then_get_witness :
  let E := levels_External in
  let red := mkColor 255 0 0 255 in
  let c := mkCell (PropertyMaterialList.mkFields [Material_new] 3) [] "Doc#Box.Materials" in
  call_getter_at fDiffuseColor 1 (exec (call_indexed (DiffuseColor red) (-1)) c)
  = (Return (ColorValue red), exec (call_indexed (DiffuseColor red) (-1)) c) /\
  call_getter_at fShininess 0 (exec (call_broadcast (Shininess 5)) c)
  = (Return (FloatValue 5), exec (call_broadcast (Shininess 5)) c).
Proof.
  intros E red c.
  destruct (field_set_then_get (DiffuseColor red) c) as (Hindexed & _).
  destruct (field_set_then_get (Shininess 5) c) as (_ & _ & Hall).
  split.
  - apply (Hindexed (-1)). now left.
  - apply (Hall 0). vm_compute. split; [discriminate|reflexivity].
Defined.

Lemma broadcast_setter_sets_every_element_witness :
  let E := levels_External in
  let c := mkCell (PropertyMaterialList.mkFields [] 3) [] "Doc#Box.Materials" in
  exists m', elements (exec (call_broadcast (Transparency 9)) c) = [m'] /\
             same_but fTransparency Material_new m'.
Proof.
  intros E c.
  destruct (broadcast_setter_sets_every_element (Transparency 9) c)
    as (_ & _ & _ & _ & _ & Hempty).
  apply Hempty. reflexivity.
Defined.

Lemma map_setValue_then_lookup_witness :
  let c := mkCell {["color" := "red"]} [] "Doc#Box.Tags" in
  PropertyMap.operator_index "color" (exec (PropertyMap.setValue "size" "L") c)
  = PropertyMap.operator_index "color" c /\
  (PropertyMap.operator_index "size" c = EmptyString /\
   PropertyMap.getSize (exec (PropertyMap.setValue "size" "L") c) = PropertyMap.getSize c + 1).
Proof.
  intros c.
  destruct (map_setValue_then_lookup c "size" "L") as (_ & _ & _ & Hother & Hnew & _).
  split.
  - apply Hother. discriminate.
  - apply Hnew. reflexivity.
Defined.

(** ** The view provider of the fluid boundary constraint *)

Section FluidBoundaryView.
Context `{External}.
Context {Vector3d SbVec3f SbRotation SoSeparator ScaleValue BaseClass : Type}.
Context (shorter_than_Confusion : Vector3d -> bool)
        (opposite : Vector3d -> Vector3d)
        (to_SbVec3f : Vector3d -> SbVec3f)
        (rotation_from_y : bool -> SbVec3f -> SbRotation)
        (angle_below_half_pi : Vector3d -> Vector3d -> bool)
        (advanced : SbVec3f -> SbVec3f -> float32 -> SbVec3f)
        (times : Z -> ScaleValue -> float32)
        (head_radius : ScaleValue -> float32)
        (new_arrow : SbVec3f -> SbRotation -> float32 -> float32 -> SoSeparator)
        (new_fixed : SbVec3f -> SbRotation -> float32 -> float32 -> SoSeparator)
        (update_arrow : SoSeparator -> SbVec3f -> SbRotation -> float32 -> float32
                        -> SoSeparator)
        (alpha_default : float32).

Import ViewProviderFemConstraintFluidBoundary.

Local Abbreviation View := (ViewProviderFemConstraintFluidBoundary.t SoSeparator BaseClass).
Local Abbreviation Constraint := (ConstraintFluidBoundary Vector3d ScaleValue).

Context (ViewProviderFemConstraint_updateData : Changed -> Constraint -> M View unit).

Local Abbreviation redraw_view :=
  (redraw shorter_than_Confusion opposite to_SbVec3f rotation_from_y angle_below_half_pi
     advanced times head_radius new_arrow new_fixed update_arrow alpha_default).
Local Abbreviation updateData_view :=
  (updateData shorter_than_Confusion opposite to_SbVec3f rotation_from_y
     angle_below_half_pi advanced times head_radius new_arrow new_fixed update_arrow
     alpha_default ViewProviderFemConstraint_updateData).

Lemma getValueAsString_label (c : PropertyEnumeration.t) (label : string) :
  PropertyEnumeration.isValid c = true ->
  labels_lookup c = Some label ->
  PropertyEnumeration.getValueAsString c = (Return (Some label), c).
Proof.
  unfold PropertyEnumeration.isValid, labels_lookup, PropertyEnumeration.getValueAsString,
    Enumeration.getCStr.
  destruct c as [e hs name]. cbn [fields]. intros Hvalid Hlabel.
  run_method. now rewrite Hvalid, Hlabel.
Qed.

Lemma getValueAsString_invalid (c : PropertyEnumeration.t) :
  PropertyEnumeration.isValid c = false ->
  PropertyEnumeration.getValueAsString c
  = (Throw (RuntimeError "Cannot get value from invalid enumeration"), c).
Proof.
  unfold PropertyEnumeration.isValid, PropertyEnumeration.getValueAsString.
  destruct c as [e hs name]. cbn [fields]. intros Hvalid.
  run_method. now rewrite Hvalid.
Qed.

(** The loops that add one glyph per item. *)
Lemma add_children_run {A} (glyph : A -> SoSeparator) (items : list A) :
  forall (appearance : PropertyMaterialList.t) (children : list SoSeparator)
         (rest : BaseClass),
    for_each (fun item : A =>
                self ← get;
                set_pShapeSep (pShapeSep self ++ [glyph item]))
             items (mk appearance children rest)
    = (Return tt, mk appearance (children ++ (glyph <$> items)) rest).
Proof.
  induction items as [|item items IH]; intros appearance children rest.
  - cbn. now rewrite app_nil_r.
  - transitivity
      (for_each (fun item : A =>
                   self ← get;
                   set_pShapeSep (pShapeSep self ++ [glyph item]))
                items (mk appearance (children ++ [glyph item]) rest));
      [reflexivity|].
    rewrite IH. now rewrite fmap_cons, <- app_assoc.
Qed.

(** X23. [updateData] leaves the view provider untouched, and does not
    reach the [updateData] of its base class, in two cases: when the
    boundary type of the constraint has no valid selection, where it fails
    with the runtime error of [getValueAsString]; and when the points have
    changed on a boundary that is neither an inlet nor an outlet while the
    numbers of points and of normals differ, where it returns at once. *)
Theorem updateData_leaves_view_untouched :
  forall (v : View) (pcConstraint : Constraint),
    (forall prop : Changed,
        PropertyEnumeration.isValid (BoundaryType pcConstraint) = false ->
        updateData_view pcConstraint prop v
        = (Throw (RuntimeError "Cannot get value from invalid enumeration"), v)) /\
    (forall label : string,
        PropertyEnumeration.isValid (BoundaryType pcConstraint) = true ->
        labels_lookup (BoundaryType pcConstraint) = Some label ->
        drawn_as_arrows label = false ->
        length (Points pcConstraint) <> length (Normals pcConstraint) ->
        updateData_view pcConstraint prop_Points v = (Return tt, v)).
Proof.
  intros v pcConstraint. split.
  - intros prop Hvalid. unfold updateData, redraw.
    rewrite (getValueAsString_invalid _ Hvalid). reflexivity.
  - intros label Hvalid Hlabel Harrows Hsizes. unfold updateData, redraw.
    rewrite (getValueAsString_label _ label Hvalid Hlabel).
    unfold drawn_as_arrows in Harrows. run_method. rewrite Harrows.
    destruct (Nat.eqb_spec (length (Points pcConstraint)) (length (Normals pcConstraint)))
      as [Heq|_]; [contradiction|]. reflexivity.
Qed.

(** The branches on the boundary type all call [setDiffuseColor]. *)
Lemma boundary_color_branches (label : string) :
  (if String.eqb label "wall" then
     PropertyMaterialList.setDiffuseColor_rgba float_0 float_1 float_1 alpha_default
   else if String.eqb label "interface" then
     PropertyMaterialList.setDiffuseColor_rgba float_0 float_1 float_0 alpha_default
   else if String.eqb label "freestream" then
     PropertyMaterialList.setDiffuseColor_rgba float_1 float_1 float_0 alpha_default
   else if String.eqb label "inlet" then
     PropertyMaterialList.setDiffuseColor_rgba float_1 float_0 float_0 alpha_default
   else
     PropertyMaterialList.setDiffuseColor_rgba float_0 float_0 float_1 alpha_default)
  = PropertyMaterialList.broadcast
      (set_diffuseColor (boundary_color alpha_default label)).
Proof.
  unfold boundary_color, PropertyMaterialList.setDiffuseColor_rgba.
  repeat match goal with |- context [String.eqb label ?s] =>
    destruct (String.eqb label s); try reflexivity end.
Qed.

(** X24. When the boundary type has changed and holds the valid label
    [label], [updateData] recolors the material list before it hands over to
    the base class: one notification bracket is fired, an empty list first
    receives one default material, every element ends with the diffuse color
    of the label (wall cyan, interface green, freestream yellow, inlet red,
    any other label blue) and keeps its other fields; the glyphs and the
    state of the base class are as they were. *)
Theorem updateData_colors_by_boundary_type :
  forall (v : View) (pcConstraint : Constraint) (label : string),
    PropertyEnumeration.isValid (BoundaryType pcConstraint) = true ->
    labels_lookup (BoundaryType pcConstraint) = Some label ->
    exists v' : View,
      updateData_view pcConstraint prop_BoundaryType v
      = ViewProviderFemConstraint_updateData prop_BoundaryType pcConstraint v' /\
      pShapeSep v' = pShapeSep v /\
      base_class v' = base_class v /\
      fired (ShapeAppearance v) (ShapeAppearance v') = [AboutToSetValue; HasSetValue] /\
      size (ShapeAppearance v') = Z.max 1 (size (ShapeAppearance v)) /\
      Forall (fun m => diffuseColor m = boundary_color alpha_default label)
             (elements (ShapeAppearance v')) /\
      (forall (i : nat) (m : Material),
          elements (ShapeAppearance v) !! i = Some m ->
          exists m', elements (ShapeAppearance v') !! i = Some m' /\
                     same_but fDiffuseColor m m').
Proof.
  intros v pcConstraint label Hvalid Hlabel.
  set (f := set_diffuseColor (boundary_color alpha_default label)).
  assert (Hf : forall m, diffuseColor (f m) = boundary_color alpha_default label /\
                         same_but fDiffuseColor m (f m)).
  { intros m. split; [reflexivity|]. unfold same_but; cbn; repeat split; congruence. }
  exists (mk (exec (PropertyMaterialList.broadcast f) (ShapeAppearance v))
             (pShapeSep v) (base_class v)).
  split.
  { unfold updateData, redraw.
    rewrite (getValueAsString_label _ label Hvalid Hlabel).
    cbv beta iota zeta delta [mbind M_bind bind ret fst snd].
    rewrite boundary_color_branches. fold f.
    unfold on_ShapeAppearance, exec. rewrite broadcast_run. cbn [fst snd].
    destruct (String.eqb label "inlet" || String.eqb label "outlet"); reflexivity. }
  cbn [ShapeAppearance pShapeSep base_class].
  split; [reflexivity|]. split; [reflexivity|].
  unfold exec. rewrite broadcast_run. cbn [fst snd].
  generalize (ShapeAppearance v). intros c. split.
  { destruct c as [d hs fn]. apply fired_bracket. }
  unfold size, elements. cbn [fields PropertyMaterialList._lValueList].
  set (l := PropertyMaterialList._lValueList (fields c)).
  destruct (Z.of_nat (length l) <? 1) eqn:Hs.
  - assert (Hnil : l = []) by (apply Z.ltb_lt in Hs; apply nil_length_inv; lia).
    rewrite Hnil. cbn. split; [reflexivity|]. split.
    + constructor; [apply Hf|constructor].
    + intros i m Hi. now rewrite lookup_nil in Hi.
  - apply Z.ltb_ge in Hs. rewrite length_fmap. split; [lia|]. split.
    + apply Forall_fmap, Forall_forall. intros m _. apply Hf.
    + intros i m Hi. exists (f m). rewrite list_lookup_fmap, Hi.
      split; [reflexivity|apply Hf].
Qed.

(** A call that returns passes its result and its state to what follows. *)
Lemma mbind_run {S A B} (m : M S A) (k : A -> M S B) (s s' : S) (a : A) :
  m s = (Return a, s') -> (m ≫= k) s = k a s'.
Proof. intros Hm. unfold mbind, M_bind, bind. now rewrite Hm. Qed.

(** The glyphs [updateData] draws for the points of an inlet or outlet. *)
Lemma redraw_arrows (pcConstraint : Constraint) (label : string)
    (appearance : PropertyMaterialList.t) (rest : BaseClass) :
  PropertyEnumeration.isValid (BoundaryType pcConstraint) = true ->
  labels_lookup (BoundaryType pcConstraint) = Some label ->
  drawn_as_arrows label = true ->
  exists glyph : Vector3d -> SoSeparator,
    forall old : list SoSeparator,
      redraw_view pcConstraint prop_Points (mk appearance old rest)
      = (Return false, mk appearance (glyph <$> Points pcConstraint) rest).
Proof.
  intros Hvalid Hlabel Harrows. unfold drawn_as_arrows in Harrows.
  eexists. intros old. unfold redraw.
  rewrite (getValueAsString_label _ label Hvalid Hlabel).
  (erewrite mbind_run; [|reflexivity]).
  (erewrite mbind_run; [|reflexivity]).
  rewrite Harrows.
  (erewrite mbind_run; [|reflexivity]).
  cbn [ShapeAppearance pShapeSep base_class].
  erewrite mbind_run; [|apply add_children_run].
  reflexivity.
Qed.

(** The glyphs it draws for the points of another boundary. *)
Lemma redraw_fixed (pcConstraint : Constraint) (label : string)
    (appearance : PropertyMaterialList.t) (rest : BaseClass) :
  PropertyEnumeration.isValid (BoundaryType pcConstraint) = true ->
  labels_lookup (BoundaryType pcConstraint) = Some label ->
  drawn_as_arrows label = false ->
  length (Points pcConstraint) = length (Normals pcConstraint) ->
  exists glyph : Vector3d * Vector3d -> SoSeparator,
    forall old : list SoSeparator,
      redraw_view pcConstraint prop_Points (mk appearance old rest)
      = (Return false,
         mk appearance (glyph <$> zip (Points pcConstraint) (Normals pcConstraint)) rest).
Proof.
  intros Hvalid Hlabel Harrows Hsizes. unfold drawn_as_arrows in Harrows.
  eexists. intros old. unfold redraw.
  rewrite (getValueAsString_label _ label Hvalid Hlabel).
  (erewrite mbind_run; [|reflexivity]).
  (erewrite mbind_run; [|reflexivity]).
  rewrite Harrows, Hsizes, Nat.eqb_refl. cbn [negb].
  (erewrite mbind_run; [|reflexivity]).
  cbn [ShapeAppearance pShapeSep base_class].
  erewrite mbind_run; [|apply add_children_run].
  reflexivity.
Qed.

(** X25. When the points have changed, the boundary type is valid, and
    either the boundary is an inlet or outlet or there are as many normals
    as points, [updateData] replaces the glyphs by one new glyph per point,
    the same whatever glyphs there were before, and leaves the material list
    and the state of the base class as they were before it hands over to the
    base class. *)
Theorem updateData_redraws_one_glyph_per_point :
  forall (v : View) (pcConstraint : Constraint) (label : string),
    PropertyEnumeration.isValid (BoundaryType pcConstraint) = true ->
    labels_lookup (BoundaryType pcConstraint) = Some label ->
    drawn_as_arrows label = true \/
    length (Points pcConstraint) = length (Normals pcConstraint) ->
    exists children : list SoSeparator,
      length children = length (Points pcConstraint) /\
      forall others : list SoSeparator,
        updateData_view pcConstraint prop_Points
          (mk (ShapeAppearance v) others (base_class v))
        = ViewProviderFemConstraint_updateData prop_Points pcConstraint
            (mk (ShapeAppearance v) children (base_class v)).
Proof.
  intros v pcConstraint label Hvalid Hlabel Hcase.
  destruct (drawn_as_arrows label) eqn:Harrows.
  - destruct (redraw_arrows pcConstraint label (ShapeAppearance v) (base_class v)
                Hvalid Hlabel Harrows) as [glyph Hrun].
    exists (glyph <$> Points pcConstraint). split; [now rewrite length_fmap|].
    intros others. unfold updateData, bind. now rewrite Hrun.
  - destruct Hcase as [Hcase|Hsizes]; [discriminate|].
    destruct (redraw_fixed pcConstraint label (ShapeAppearance v) (base_class v)
                Hvalid Hlabel Harrows Hsizes) as [glyph Hrun].
    exists (glyph <$> zip (Points pcConstraint) (Normals pcConstraint)).
    split; [rewrite length_fmap, length_zip; lia|].
    intros others. unfold updateData, bind. now rewrite Hrun.
Qed.

(** The loop that re-orients the arrows: with a child for every point, it
    returns, updates the child at the place of each point from that point,
    and keeps the other children. *)
Lemma reorient_run (place : Vector3d -> SbVec3f) (rot : SbRotation)
    (scaledlength scaledheadradius : float32) (points : list Vector3d) :
  forall (idx : nat) (appearance : PropertyMaterialList.t)
         (old : list SoSeparator) (rest : BaseClass),
    (idx + length points <= length old)%nat ->
    exists children : list SoSeparator,
      reorient update_arrow place rot scaledlength scaledheadradius idx points
        (mk appearance old rest)
      = (Return tt, mk appearance children rest) /\
      length children = length old /\
      (forall i : nat, (i < idx \/ idx + length points <= i)%nat ->
                       children !! i = old !! i) /\
      (forall (k : nat) (point : Vector3d) (sep : SoSeparator),
          points !! k = Some point ->
          old !! (idx + k)%nat = Some sep ->
          children !! (idx + k)%nat
          = Some (update_arrow sep (place point) rot scaledlength scaledheadradius)).
Proof.
  induction points as [|point points IH]; intros idx appearance old rest Hlen.
  - exists old. split; [reflexivity|]. split; [reflexivity|]. split; [reflexivity|].
    intros k point sep Hk. now rewrite lookup_nil in Hk.
  - cbn [length] in Hlen.
    destruct (lookup_lt_is_Some_2 old idx ltac:(lia)) as [sep0 Hsep0].
    set (old' := <[idx := update_arrow sep0 (place point) rot scaledlength
                            scaledheadradius]> old).
    destruct (IH (S idx) appearance old' rest) as (children & Hrun & Hsize & Hkeep & Hnew).
    { unfold old'. rewrite length_insert. lia. }
    exists children. split; [|split; [|split]].
    + cbn [reorient]. erewrite mbind_run; [|reflexivity].
      cbn [pShapeSep]. rewrite Hsep0.
      erewrite mbind_run; [|reflexivity]. exact Hrun.
    + rewrite Hsize. unfold old'. apply length_insert.
    + intros i Hi. cbn [length] in Hi. rewrite Hkeep by lia.
      unfold old'. apply list_lookup_insert_ne. lia.
    + intros k pt sep Hk Hsep. destruct k as [|k].
      * rewrite Nat.add_0_r in *. cbn in Hk. injection Hk as <-.
        rewrite Hkeep by lia. unfold old'.
        rewrite Hsep0 in Hsep. injection Hsep as <-.
        apply list_lookup_insert_eq. now apply lookup_lt_Some in Hsep0.
      * replace (idx + S k)%nat with (S idx + k)%nat in * by lia.
        apply Hnew; [exact Hk|]. unfold old'.
        rewrite list_lookup_insert_ne by lia. exact Hsep.
Qed.

(** X26. When the direction vector of an inlet or outlet has changed and
    there is a glyph for every point, [updateData] updates the glyph at the
    place of each point from that point, with one rotation and one size for
    all, keeps the glyphs that follow and their number, and leaves the
    material list and the state of the base class as they were before it
    hands over to the base class. On any other boundary a change of the
    direction vector draws nothing. *)
Theorem updateData_reorients_arrows_in_place :
  forall (v : View) (pcConstraint : Constraint) (label : string),
    PropertyEnumeration.isValid (BoundaryType pcConstraint) = true ->
    labels_lookup (BoundaryType pcConstraint) = Some label ->
    (drawn_as_arrows label = true ->
     (length (Points pcConstraint) <= length (pShapeSep v))%nat ->
     exists (children : list SoSeparator) (place : Vector3d -> SbVec3f)
            (rot : SbRotation) (scaledlength scaledheadradius : float32),
       updateData_view pcConstraint prop_DirectionVector v
       = ViewProviderFemConstraint_updateData prop_DirectionVector pcConstraint
           (mk (ShapeAppearance v) children (base_class v)) /\
       length children = length (pShapeSep v) /\
       (forall i : nat,
           (length (Points pcConstraint) <= i)%nat -> children !! i = pShapeSep v !! i) /\
       (forall (k : nat) (point : Vector3d) (sep : SoSeparator),
           Points pcConstraint !! k = Some point ->
           pShapeSep v !! k = Some sep ->
           children !! k
           = Some (update_arrow sep (place point) rot scaledlength scaledheadradius))) /\
    (drawn_as_arrows label = false ->
     updateData_view pcConstraint prop_DirectionVector v
     = ViewProviderFemConstraint_updateData prop_DirectionVector pcConstraint v).
Proof.
  intros v pcConstraint label Hvalid Hlabel.
  destruct v as [appearance old rest]. cbn [ShapeAppearance pShapeSep base_class].
  unfold drawn_as_arrows. split.
  - intros Harrows Hlen.
    set (normal := NormalDirection pcConstraint).
    set (forceDirection :=
           if shorter_than_Confusion (DirectionVector pcConstraint)
           then if String.eqb label "inlet" then opposite normal else normal
           else DirectionVector pcConstraint).
    set (dir := to_SbVec3f forceDirection).
    set (scaledlength := times ARROWLENGTH (Scale pcConstraint)).
    set (place := fun point : Vector3d =>
                    if angle_below_half_pi forceDirection normal
                    then advanced (to_SbVec3f point) dir scaledlength
                    else to_SbVec3f point).
    destruct (reorient_run place (rotation_from_y true dir) scaledlength
                (head_radius (Scale pcConstraint)) (Points pcConstraint) 0
                appearance old rest Hlen)
      as (children & Hrun & Hsize & Hkeep & Hnew).
    exists children, place, (rotation_from_y true dir), scaledlength,
      (head_radius (Scale pcConstraint)).
    split; [|split; [exact Hsize|split]].
    + unfold updateData, redraw.
      rewrite (getValueAsString_label _ label Hvalid Hlabel).
      unfold bind at 1.
      (erewrite mbind_run; [|reflexivity]).
      (erewrite mbind_run; [|reflexivity]).
      rewrite Harrows.
      erewrite mbind_run; [|exact Hrun]. reflexivity.
    + intros i Hi. apply Hkeep. lia.
    + intros k point sep Hk Hsep. apply (Hnew k point sep Hk Hsep).
  - intros Harrows. unfold updateData, redraw.
    rewrite (getValueAsString_label _ label Hvalid Hlabel).
    unfold bind at 1.
    (erewrite mbind_run; [|reflexivity]).
    (erewrite mbind_run; [|reflexivity]).
    rewrite Harrows. reflexivity.
Qed.

End FluidBoundaryView.


Lemma updateData_leaves_view_untouched_witness :
  line_updateData (line_constraint 2 [5] [1])
    ViewProviderFemConstraintFluidBoundary.prop_Points (line_view [7])
  = (Throw (RuntimeError "Cannot get value from invalid enumeration"), line_view [7]) /\
  line_updateData (line_constraint 0 [5; 6] [1])
    ViewProviderFemConstraintFluidBoundary.prop_Points (line_view [7])
  = (Return tt, line_view [7]).
Proof.
  split.
  - refine (proj1 (updateData_leaves_view_untouched _ _ _ _ _ _ _ _ _ _ _ _ _ _ _)
              _ _).
    reflexivity.
  - refine (proj2 (updateData_leaves_view_untouched _ _ _ _ _ _ _ _ _ _ _ _ _ _ _)
              "wall" _ _ _ _).
    + reflexivity.
    + reflexivity.
    + reflexivity.
    + cbn. lia.
Defined.


Lemma updateData_colors_by_boundary_type_witness :
  exists v' : ViewProviderFemConstraintFluidBoundary.t Z unit,
    line_updateData (line_constraint 1 [5] [1])
      ViewProviderFemConstraintFluidBoundary.prop_BoundaryType (line_view [7])
    = (Return tt, v') /\
    ViewProviderFemConstraintFluidBoundary.pShapeSep v' = [7] /\
    Forall (fun m => diffuseColor m = mkColor 1065353216 0 0 1065353216)
           (elements (H := levels_External)
              (ViewProviderFemConstraintFluidBoundary.ShapeAppearance v')).
Proof.
  destruct (updateData_colors_by_boundary_type (H := levels_External)
              (fun d : Z => d =? 0) Z.opp (fun p : Z => p)
              (fun (up : bool) (d : Z) => if up then d else - d)
              (fun a b : Z => 0 <? a * b) (fun base dir len : Z => base + dir * len)
              Z.mul (fun scale : Z => scale)
              (fun base rot len radius : Z => base)
              (fun base rot height width : Z => - base)
              (fun sep base rot len radius : Z => sep + base) 1065353216
              (fun _ _ => ret tt)
              (line_view [7]) (line_constraint 1 [5] [1]) "inlet" eq_refl eq_refl)
    as (v' & Hrun & Hsep & _ & _ & _ & Hall & _).
  exists v'. split; [exact Hrun|]. split; [exact Hsep|exact Hall].
Defined.

Lemma updateData_redraws_one_glyph_per_point_witness :
  exists children : list Z,
    length children = 2%nat /\
    forall others : list Z,
      line_updateData (line_constraint 1 [5; 6] [])
        ViewProviderFemConstraintFluidBoundary.prop_Points (line_view others)
      = (Return tt, line_view children).
Proof.
  destruct (updateData_redraws_one_glyph_per_point (H := levels_External)
              (fun d : Z => d =? 0) Z.opp (fun p : Z => p)
              (fun (up : bool) (d : Z) => if up then d else - d)
              (fun a b : Z => 0 <? a * b) (fun base dir len : Z => base + dir * len)
              Z.mul (fun scale : Z => scale)
              (fun base rot len radius : Z => base)
              (fun base rot height width : Z => - base)
              (fun sep base rot len radius : Z => sep + base) 1065353216
              (fun _ _ => ret tt)
              (line_view []) (line_constraint 1 [5; 6] []) "inlet" eq_refl eq_refl
              (or_introl eq_refl))
    as (children & Hlen & Hrun).
  exists children. split; [exact Hlen|exact Hrun].
Defined.

Lemma updateData_reorients_arrows_in_place_witness :
  exists children : list Z,
    line_updateData (line_constraint 1 [5; 6] [])
      ViewProviderFemConstraintFluidBoundary.prop_DirectionVector (line_view [7; 8; 9])
    = (Return tt, line_view children) /\
    length children = 3%nat /\
    children !! 2%nat = Some 9.
Proof.
  destruct (updateData_reorients_arrows_in_place (H := levels_External)
              (fun d : Z => d =? 0) Z.opp (fun p : Z => p)
              (fun (up : bool) (d : Z) => if up then d else - d)
              (fun a b : Z => 0 <? a * b) (fun base dir len : Z => base + dir * len)
              Z.mul (fun scale : Z => scale)
              (fun base rot len radius : Z => base)
              (fun base rot height width : Z => - base)
              (fun sep base rot len radius : Z => sep + base) 1065353216
              (fun _ _ => ret tt)
              (line_view [7; 8; 9]) (line_constraint 1 [5; 6] []) "inlet"
              eq_refl eq_refl)
    as (Harrows & _).
  destruct (Harrows eq_refl ltac:(cbn; lia))
    as (children & _ & _ & _ & _ & Hrun & Hlen & Hkeep & _).
  exists children. split; [exact Hrun|]. split; [exact Hlen|].
  apply (Hkeep 2%nat). cbn. lia.
Defined.
